(* ===== verification/_CoqProject ===== *)
-Q . S2P
Prelude.v
Bus.v
Rcc.v
Can.v
Tim.v
MiscLib.v
Adc.v
SysTimer.v
Usart.v
Debug.v
Dump.v
HidApp.v
Assert.v
