(* ===== verification/Prelude.v ===== *)
(** * A verification development of the stm32_usb_hid firmware

    The repository holds two things.  One is the vendor peripheral
    library: the CAN, ADC and TIM drivers under [src/Libraries].  The
    other is a small demo application under [src/Projects/Custom_HID]
    with its board utilities under [src/Utilities/STM32_EVAL]: a tick
    timer, a UART debug console and string and memory helpers.  Every
    driver reads, modifies and writes memory-mapped registers.  The
    only code with a handshake is [CAN_Init], which polls the hardware
    with a bounded counter.  The utilities interact: [stm_printf]
    (debug.c) formats numbers with [DECToASCII]/[HexToASCII]
    (misc_lib.c), [system_dump] waits with [busy_delay_ms]
    (sys_timer.c), and the busy delays depend on the SysTick interrupt.

    ** Layout (files in dependency order, as _CoqProject lists them)

    - [Prelude] (this file): the uint8/16/32 wrap-around functions
      [u8]/[u16]/[u32], the read-modify-write helpers [set_bits]
      ([r |= m]), [clear_bits] ([r &= ~m]) and [ins] (a field
      replaced), the bit lemmas every peripheral shares, the hint
      databases [regs] and [regs_bits], and the tactics [bits],
      [regs_simpl] and [bits_enum].  [bits_enum] decides a bitwise
      identity over 32-bit registers by enumerating the bit index.
    - [Bus]: a state monad over a register file with a trace of the
      stores, in order.  The interface between a driver and its
      register block is the class [RegFile] with its laws
      [RegFileLaws].  A store truncates to the register's width.
      [replay] rebuilds the register file from the trace, so a theorem
      can speak about the state between two stores.
    - [Rcc] ([Module Rcc]): the reset controller, which is not in the
      repository, as far as the DeInit routines use it.  A call
      [RCC_APBxPeriphResetCmd(periph, NewState)] is a value of
      [RCC_Call], and a routine is the list of calls it makes.
      [rcc_step] sets or clears the peripheral's reset line.
      [periph_run] replays the calls against the lines and the
      registers of one peripheral, which take their reset values while
      the line is held.  [pulse] is the ENABLE/DISABLE pair on the
      peripheral's own bus.
    - [Can] ([Module Can]): stm32f37x_can.c.  The register block is a
      Record.  The MSR status register belongs to the hardware and is
      reached through the class [CanHardware].  Two instances discharge
      it: a scripted one (any sequence of MSR values) and one that
      acknowledges after a fixed latency.  [wait_ack_loop] is the
      bounded polling loop.  [CAN_DeInit] is lines 162-173, [CAN_Init]
      lines 184-293 and [CAN_FilterInit] lines 302-371.  The tail of
      [CAN_FilterInit] is cut off in the source and is modelled from
      the spec.
    - [Tim] ([Module Tim]): stm32f30x_tim.c.  [TIM_TimeBaseInit], the
      CR1 setters and [TIM_OC1Init] to [TIM_OC6Init] are bus programs
      over the 17 timer registers.  [oc_spec] is an abstract
      per-channel specification of output-compare initialisation.
      [TIM_DeInit] is the chain of instance comparisons, each branch a
      list of RCC calls.
    - [MiscLib] ([Module MiscLib]): misc_lib.c over a byte memory
      ([list Z], addressed by [nat]) in an option-state monad; a read
      or write outside the memory is [None].
    - [Adc] ([Module Adc]): every routine of stm32f37x_adc.c.  The
      register routines are bus programs over CR1, CR2, SQR1, HTR and
      LTR; [ADC_DeInit] is its two RCC calls.
    - [SysTimer] ([Module SysTimer]): sys_timer.c.  [SysTick_Handler]
      is a function on the two counters and the interrupt mask.  A
      busy delay is a program counter over its polling loops.  [step]
      runs a routine step or a tick interrupt, and [reachn] is the
      reachability relation of every interleaving.
    - [Usart] ([Module Usart]): [init_debug_fun] and
      [USART1_IRQHandler] of debug.c, bus programs over the 16-bit
      USART1 registers.
    - [Debug] ([Module Debug]): the output routines of debug.c, as the
      bytes they store into DR.  [stm_printf] is an interpreter of the
      format bytes that calls the [MiscLib] models; [render] is its
      specification.
    - [Dump] ([Module Dump]): [system_dump] of debug.c, composed from
      [stm_printf] ([Debug]) and the busy delay ([SysTimer]).
      [dump_step] takes one event: a statement of [system_dump], a step
      of the delay it is in, or a SysTick interrupt.  Its invariant
      [dump_inv] carries [SysTimer]'s delay invariant through every
      round of the [while (1)].
    - [HidApp] ([Module HidApp]): callback.c and main.c.  It holds
      [CTR_Callback]'s choice of the control-state name, the call of
      [RESET_Callback], [Delay], and [main].  [main] is written against
      two classes, one per header it includes:
      [SysTimerH.SYS_TIMER_H] for sys_timer.h and [DebugH.DEBUG_H] for
      debug.h, each with the laws [main]'s proof uses.  The instances
      [sys_timer_c] and [debug_c] are the models of [SysTimer], [Usart]
      and [Debug].  [main_step] takes one event: a statement of [main],
      a SysTick interrupt or a USART1 interrupt.  [main_exec] runs a
      list of events, so any interleaving of interrupts with the final
      [while (1)] is a list.
    - [Assert] ([Module Assert]): the [assert_param] checks and
      [assert_failed] (main.c), in the two builds, with and without
      [USE_FULL_ASSERT].  [checked] runs a routine's leading checks and
      then its body.  A failing check under [USE_FULL_ASSERT] ends in
      [assert_failed]'s [while (1)], with the state at the call.
      [CAN_Init_checked] wraps the model of [Can] with the checks of
      lines 189-200.

    ** Modelling conventions

    - A C integer of width w is a [Z] kept in [0, 2^w).  An operation
      that can wrap is written with [u32]/[u16]/[u8], exactly where the
      C casts or the C arithmetic wraps.
    - [~m] on a uint32 is [bnot32 m], i.e. [Z.lxor m (Z.ones 32)].
    - An enumeration that the C code carries as a raw integer
      (FunctionalState, CAN_Mode, filter scale, ...) stays a raw [Z],
      and the code's fall-through for invalid values is kept.  The
      [assert_param] checks compile to nothing in a release build, so
      the routines of each driver file do not check them.  They are
      boolean validity predicates ([CAN_Init_params_ok],
      [oc_params_ok], [ADC_Init_params_ok], ...) that a theorem takes
      as a hypothesis.  [Assert] adds the checks of [CAN_Init] back
      for the build with [USE_FULL_ASSERT].
    - Constants, register layouts and parameter checks that come from
      the vendor headers (stm32f37x.h, stm32f30x_tim.h, the CMSIS core,
      ...) carry the values of those headers, which are not in the
      repository.  So do the RCC behaviour of [Rcc] and the register
      reset values.  They are what the theorems assume of the
      environment.  They translate no code of the repository, so the
      map does not list them.  Only the private defines of the .c
      files are mapped.
    - A loop bounded by a counter is a [Fixpoint] on fuel, with a
      lemma that the fuel is never what stops it ([wait_ack_loop_spec]:
      fuel [INAK_TIMEOUT - counter] suffices; [dec_fuel] = 11 and [hex_fuel] = 9
      because a uint32 has at most 10 decimal and 8 hexadecimal
      digits).  Loops over memory recurse on the memory's list.  The
      busy delays never terminate for some inputs, so they are a step
      relation, and the theorems give an explicit schedule that
      reaches the return.

    ** What the theorems show (by group)

    - CAN handshake (C1, C2, C7): the polling loop terminates, stopping
      at the first acknowledging read or after exactly 0x10000 reads.
      [CAN_Init] fails without programming anything when INAK never
      rises, and succeeds with the documented image iff the hardware
      acknowledges within 0x10000 reads.
    - Parameter checks (C3, C19, C20): with [USE_FULL_ASSERT], a
      [CAN_Init] that returns [Success] has programmed the requested
      bit timing.  In a release build the checks are gone, and two
      invalid values corrupt BTR: prescaler 0 wraps to 0xFFFFFFFF and
      BS1 = 16 spills into the BS2 field.
    - CAN encodings and filters (C8, C18, C21-C23): BTR round trip,
      MCR flags read back, and filter bank set-up with a frame
      condition and no residue of an earlier configuration.
    - Reset through the RCC (C24, C27): [CAN_DeInit] and [TIM_DeInit]
      pulse exactly their peripheral's reset line, on the right bus.
      The peripheral ends at its reset values, released, and nothing
      else changes.
    - TIM (C4, C9, C10, C25, C26): output-compare initialisation
      refines [oc_spec] and keeps the channel disabled while it is
      reconfigured.  Channels 5 and 6 program their idle state wrongly
      (two code bugs).  The time base is specified field by field.
    - Busy delays (C5, C11, C12): under every interleaving a delay
      of d ticks waits at least d + 1 ticks.  Under a polling schedule
      it returns after exactly d + 1 ticks (no list of events with d
      ticks ends it), except when
      expect_value = 0xFFFFFFFF, where it never returns under any
      interleaving.
    - Composed programs (C13-C15, C38): [main] never returns, under any
      interleaving of interrupts.  After start-up, its observable
      state is fixed except for the tick counter, which counts the
      SysTick interrupts.  This is proved against the header classes.
      [system_dump] prints its string once per round and at most once
      per 10001 ticks, under any interleaving.  When the loop polls
      between ticks it does print, once every 10001 ticks, until the
      counter nears its wrap.  [CTR_Callback]'s guard keeps the table
      index in bounds for every [uint8_t] state, and each name fits
      its [uint8_t[16]] row with its NUL.
    - Debug console (C6, C16, C17): [stm_printf] refines [render];
      a trailing [%] reads past the NUL; [init_debug_fun] computes
      BRR = PCLK2 / 115200 and copies CR1 into CR2.
    - misc_lib (C28-C34): conversion round trips with the 12-byte
      buffer bound, and the memory and string routines, NULL and
      out-of-bounds cases included.
    - ADC (C35-C37): ADC_Init's field-wise specification, the uint8
      wrap of the sequence length, and the watchdog setters.

    ** Not modelled

    RCC, NVIC, GPIO, SCB and the USB library are called but are not in
    the repository.  The RCC reset calls are modelled from the RCC
    driver ([Rcc]).  [init_sys_timer] takes [SYSCLK_Frequency] as
    input, and the NVIC/GPIO part of [init_debug_fun] is left out.  In
    the HID application, [usb_printf], the USB library and the board
    set-up routines that [main] calls ([Set_System], ...) have no code
    in the repository.  They are events recorded in [main]'s state.
    The test loop of main.c is under [#if 0].  The [assert_param]
    macro is in stm32f37x_conf.h, which the repository does not hold;
    [Assert] models it from the spec.  The checks of [ADC_Init],
    [CAN_FilterInit] and the TIM routines include invocations written
    over several lines, where the line [assert_failed] reports is the
    compiler's choice; they stay validity predicates.  [TI1_Config] to [TI4_Config]
    (tim.c) and [CheckITStatus] (can.c) are declared but their code is
    not in the truncated files.  The private defines that only those
    missing routines use are left out: [TMIDxR_TXRQ], [SLAK_TIMEOUT],
    [MCR_DBF], the [CAN_FLAGS_*], the mailboxes and [CAN_MODE_MASK] of
    can.c; [SMCR_ETR_MASK] and the [CCMR_OC*M_MASK] of tim.c; the SQR,
    JSQR and SMPR masks of adc.c.  [system_dump] never returns: [Debug]
    gives the output of its first rounds, and [Dump] runs it with the
    timer.

    The main results are the 38 theorems numbered C1 to C38 in their
    doc comments; the other theorems support them. *)

From Stdlib Require Import ZArith Lia Bool List Btauto.
From coqutil Require Import Z.bitblast.

Declare Scope reg_scope.
Delimit Scope reg_scope with reg.
Open Scope Z_scope.

(** ** Machine widths *)

Definition u32 (z : Z) : Z := z mod 2 ^ 32.
Definition u16 (z : Z) : Z := z mod 2 ^ 16.
Definition u8 (z : Z) : Z := z mod 2 ^ 8.

Definition is_u32 (z : Z) : bool := (0 <=? z) && (z <? 2 ^ 32).

(** [~m] on a uint32 operand. *)
Definition bnot32 (m : Z) : Z := Z.lxor m (Z.ones 32).

(** [r |= m] and [r &= ~m]. *)
Definition set_bits (r m : Z) : Z := Z.lor r m.
Definition clear_bits (r m : Z) : Z := Z.land r (bnot32 m).

(** A field [m] of [r] replaced by [v]: the specification of a
    read-modify-write that clears [m] and sets [v]. *)
Definition ins (r m v : Z) : Z := set_bits (clear_bits r m) v.

(** [(r & m) == m]: all bits of [m] are set in [r]. *)
Definition bits_set (r m : Z) : bool := Z.land r m =? m.

Notation "r |= m" := (set_bits r m) (at level 50, left associativity) : reg_scope.
Notation "r &= ~ m" := (clear_bits r m) (at level 50, left associativity) : reg_scope.

Create HintDb regs discriminated.
Create Rewrite HintDb regs_bits.

(** ** Bit-level facts *)

Lemma testbit_bnot32 m i :
  0 <= i < 32 -> Z.testbit (bnot32 m) i = negb (Z.testbit m i).
Proof.
  intros Hi. unfold bnot32. rewrite Z.lxor_spec, Z.ones_spec_low by lia.
  apply Bool.xorb_true_r.
Qed.

Lemma testbit_set_bits r m i :
  Z.testbit (set_bits r m) i = Z.testbit r i || Z.testbit m i.
Proof. apply Z.lor_spec. Qed.

Lemma testbit_clear_bits r m i :
  0 <= i < 32 -> Z.testbit (clear_bits r m) i = Z.testbit r i && negb (Z.testbit m i).
Proof. intros Hi. unfold clear_bits. rewrite Z.land_spec, testbit_bnot32; auto. Qed.

Lemma u32_range z : 0 <= u32 z < 2 ^ 32.
Proof. apply Z.mod_pos_bound. lia. Qed.

Lemma u32_id z : 0 <= z < 2 ^ 32 -> u32 z = z.
Proof. apply Z.mod_small. Qed.

(** One wrap of a [uint32_t] sum. *)
Lemma u32_wrap z : 2 ^ 32 <= z < 2 * 2 ^ 32 -> u32 z = z - 2 ^ 32.
Proof.
  intros Hz. unfold u32. replace z with ((z - 2 ^ 32) + 1 * 2 ^ 32) at 1 by lia.
  rewrite Z.mod_add, Z.mod_small; lia.
Qed.

(** [u32 (x + k)] does not depend on how [x] was reduced. *)
Lemma u32_add_u32 x k : u32 (u32 x + k) = u32 (x + k).
Proof. unfold u32. apply Zplus_mod_idemp_l. Qed.

Lemma u16_range z : 0 <= u16 z < 2 ^ 16.
Proof. apply Z.mod_pos_bound. lia. Qed.

Lemma u16_id z : 0 <= z < 2 ^ 16 -> u16 z = z.
Proof. apply Z.mod_small. Qed.

Lemma u8_range z : 0 <= u8 z < 2 ^ 8.
Proof. unfold u8. apply Z.mod_pos_bound. lia. Qed.

Lemma u8_idem z : u8 (u8 z) = u8 z.
Proof. unfold u8. apply Z.mod_mod. lia. Qed.

Lemma is_u32_spec z : is_u32 z = true <-> 0 <= z < 2 ^ 32.
Proof. unfold is_u32. rewrite andb_true_iff, Z.leb_le, Z.ltb_lt. tauto. Qed.

(** A value below [2^n] has no bit at or above [n]. *)
Lemma testbit_high z n i :
  0 <= n -> 0 <= z < 2 ^ n -> n <= i -> Z.testbit z i = false.
Proof.
  intros Hn Hz Hi. rewrite <- (Z.mod_small z (2 ^ n)) by lia.
  apply Z.mod_pow2_bits_high. lia.
Qed.

(** A non-negative value whose bits vanish from [n] on is below [2^n]. *)
Lemma bound_of_testbit z n :
  0 <= n -> 0 <= z -> (forall i, n <= i -> Z.testbit z i = false) -> z < 2 ^ n.
Proof.
  intros Hn Hz H.
  destruct (Z.lt_ge_cases z (2 ^ n)) as [Hlt|Hge]; [assumption|exfalso].
  assert (Hpos : 0 < z) by (pose proof (Z.pow_pos_nonneg 2 n); lia).
  assert (Hlog : n <= Z.log2 z) by (apply Z.log2_le_pow2; lia).
  pose proof (Z.bit_log2 z Hpos) as Hb. rewrite H in Hb by exact Hlog.
  discriminate.
Qed.

Lemma lor_range a b n :
  0 <= n -> 0 <= a < 2 ^ n -> 0 <= b < 2 ^ n -> 0 <= Z.lor a b < 2 ^ n.
Proof.
  intros Hn Ha Hb. split; [apply Z.lor_nonneg; lia|].
  apply bound_of_testbit; [lia| apply Z.lor_nonneg; lia|].
  intros i Hi. rewrite Z.lor_spec, !(testbit_high _ n) by lia. reflexivity.
Qed.

Lemma set_bits_range r m :
  0 <= r < 2 ^ 32 -> 0 <= m < 2 ^ 32 -> 0 <= set_bits r m < 2 ^ 32.
Proof.
  intros Hr Hm. unfold set_bits. split; [apply Z.lor_nonneg; lia|].
  apply bound_of_testbit; [lia| apply Z.lor_nonneg; lia|].
  intros i Hi. rewrite Z.lor_spec, !(testbit_high _ 32) by lia. reflexivity.
Qed.

Lemma clear_bits_range r m :
  0 <= r < 2 ^ 32 -> 0 <= clear_bits r m < 2 ^ 32.
Proof.
  intros Hr. unfold clear_bits. split; [apply Z.land_nonneg; lia|].
  apply bound_of_testbit; [lia| apply Z.land_nonneg; lia|].
  intros i Hi. rewrite Z.land_spec, (testbit_high r 32) by lia. reflexivity.
Qed.

Lemma testbit_clear_bits_high r m i :
  32 <= i -> 0 <= r < 2 ^ 32 -> Z.testbit (clear_bits r m) i = false.
Proof. intros Hi Hr. unfold clear_bits. rewrite Z.land_spec, (testbit_high r 32) by lia. reflexivity. Qed.

(** The bits of the constant 1, as a one-bit flag shifted into place. *)
Lemma testbit_one n : Z.testbit 1 n = (n =? 0).
Proof. destruct n as [|p|p]; [reflexivity | destruct p; reflexivity | reflexivity]. Qed.

Lemma land_ones_id x w : 0 <= w -> 0 <= x < 2 ^ w -> Z.land x (Z.ones w) = x.
Proof. intros. rewrite Z.land_ones by lia. apply Z.mod_small; lia. Qed.

(** A value drawn from a list of constants inside a mask stays inside it. *)
Lemma choice_mask (l : list Z) m v :
  existsb (Z.eqb v) l = true -> forallb (fun y => y =? Z.land y m) l = true ->
  v = Z.land v m.
Proof.
  intros Hv Hl. apply existsb_exists in Hv as [y [Hy Hyv]].
  apply Z.eqb_eq in Hyv. subst y. rewrite forallb_forall in Hl.
  apply Z.eqb_eq, Hl, Hy.
Qed.

(** Setting or clearing the single bit [b] of a 32-bit register in one
    truncated store. *)
Lemma set_bit32 (x m b i : Z) :
  m = 2 ^ b -> 0 <= x < 2 ^ 32 -> 0 <= b < 32 -> 0 <= i ->
  Z.testbit (set_bits x m mod 2 ^ 32) i = (if i =? b then true else Z.testbit x i).
Proof.
  intros -> Hx Hb Hi. unfold set_bits. destruct (Z.lt_ge_cases i 32) as [Hl|Hh].
  - rewrite Z.mod_pow2_bits_low, Z.lor_spec, Z.pow2_bits_eqb by lia.
    destruct (Z.eqb_spec b i), (Z.eqb_spec i b); subst; try lia; btauto.
  - rewrite Z.mod_pow2_bits_high, (testbit_high x 32 i) by lia.
    destruct (Z.eqb_spec i b); [lia|reflexivity].
Qed.

Lemma clear_bit32 (x m b i : Z) :
  m = 2 ^ b -> 0 <= x < 2 ^ 32 -> 0 <= b < 32 -> 0 <= i ->
  Z.testbit (clear_bits x m mod 2 ^ 32) i = (if i =? b then false else Z.testbit x i).
Proof.
  intros -> Hx Hb Hi. destruct (Z.lt_ge_cases i 32) as [Hl|Hh].
  - rewrite Z.mod_pow2_bits_low, testbit_clear_bits, Z.pow2_bits_eqb by lia.
    destruct (Z.eqb_spec b i), (Z.eqb_spec i b); subst; try lia; btauto.
  - rewrite Z.mod_pow2_bits_high, (testbit_high x 32 i) by lia.
    destruct (Z.eqb_spec i b); [lia|reflexivity].
Qed.

#[export] Hint Resolve u32_range u16_range set_bits_range clear_bits_range : regs.
#[export] Hint Rewrite testbit_set_bits : regs_bits.
#[export] Hint Rewrite testbit_clear_bits testbit_bnot32 using lia : regs_bits.

(** [bits]: prove an equation between register expressions bit by bit. *)
Ltac bits :=
  unfold set_bits, clear_bits, bnot32 in *; Z.bitblast.

(** [field_bits x w]: after bit-blasting, the bits of a [w]-bit field
    [x] at an index outside [0, w) are false. *)
Ltac field_bits x w :=
  repeat match goal with
    |- context [Z.testbit x ?l] =>
      first [rewrite (testbit_high x w l) by lia | rewrite (Z.testbit_neg_r x l) by lia]
  end.

(** [bits32]: [bits], where every [x] with a hypothesis
    [0 <= x < 2 ^ 32] has no bit at or above 32. *)
Ltac bits32 :=
  bits;
  repeat match goal with
    | Hx : 0 <= ?x < 2 ^ 32 |- context [Z.testbit ?x ?l] =>
        rewrite (testbit_high x 32 l) by lia
    end;
  try btauto.

(** [regs_simpl]: rewrite [Z.testbit] of register updates at a bit index. *)
Ltac regs_simpl := autorewrite with regs_bits; cbn [negb andb orb].

(** ** Bit-index enumeration

    A bitwise identity over 32-bit registers whose masks are constants
    is decided bit by bit.  Below 32 the index is enumerated, so every
    constant's bit evaluates.  From 32 on, every constant and every
    32-bit operand is zero. *)

Lemma enum32 i : 0 <= i < 32 ->
  i = 0 \/ i = 1 \/ i = 2 \/ i = 3 \/ i = 4 \/ i = 5 \/ i = 6 \/ i = 7 \/
  i = 8 \/ i = 9 \/ i = 10 \/ i = 11 \/ i = 12 \/ i = 13 \/ i = 14 \/ i = 15 \/
  i = 16 \/ i = 17 \/ i = 18 \/ i = 19 \/ i = 20 \/ i = 21 \/ i = 22 \/ i = 23 \/
  i = 24 \/ i = 25 \/ i = 26 \/ i = 27 \/ i = 28 \/ i = 29 \/ i = 30 \/ i = 31.
Proof. lia. Qed.

(** [norm_bits]: evaluate the bits of constants and the closed index
    expressions left by bit-blasting. *)
Ltac norm_bits :=
  repeat match goal with
  | |- context [Z.testbit ?z ?k] =>
      let b := eval vm_compute in (Z.testbit z k) in
      lazymatch b with
      | true => change (Z.testbit z k) with true
      | false => change (Z.testbit z k) with false
      end
  | |- context [Z.testbit ?x ?k] =>
      lazymatch k with
      | Z.pos _ => fail | Z0 => fail
      | _ => let k' := eval vm_compute in k in
             lazymatch k' with Z.pos _ => change k with k' | Z0 => change k with k' end
      end
  end.

(** [kill_high]: a bit of a 16- or 32-bit operand at or above its width
    is zero.  A numeral index is compared by evaluation. *)
Ltac kill_high :=
  repeat match goal with
  | Hx : 0 <= ?x < ?B |- context [Z.testbit ?x ?k] =>
      let w := lazymatch B with
               | 2 ^ ?w => w | 65536 => constr:(16) | 4294967296 => constr:(32) end in
      lazymatch k with
      | Z.pos _ =>
          let c := eval vm_compute in (w <=? k) in
          lazymatch c with true => rewrite (testbit_high x w k) by lia end
      | Z0 => fail
      | _ => rewrite (testbit_high x w k) by lia
      end
  end.

(** [bits_at]: close one goal of [Z.bitblast] over 16- and 32-bit operands. *)
Ltac bits_at :=
  match goal with
  | Hlo : 0 <= ?i |- context [Z.testbit _ ?i] =>
      is_var i;
      destruct (Z.lt_ge_cases i 32) as [Hhi|Hhi];
      [ let E := fresh "E" in pose proof (enum32 i (conj Hlo Hhi)) as E;
        repeat (destruct E as [E|E];
                [subst; first [exfalso; lia | norm_bits; kill_high; btauto]|]);
        subst; first [exfalso; lia | norm_bits; kill_high; btauto]
      | kill_high;
        repeat match goal with
        | |- context [Z.testbit ?z ?l] =>
            rewrite (Z.bits_above_log2 z l) by (cbn; lia)
        end; btauto ]
  end.

(** [bits_enum]: prove a bitwise identity on 32-bit registers. *)
Ltac bits_enum :=
  unfold set_bits, clear_bits, bnot32, u32, u16 in *; Z.bitblast; bits_at.
