(* ===== verification/Bus.v ===== *)
(** * A register bus: a small state monad over a register file

    The TIM and ADC drivers are straight-line sequences of register
    reads and writes.  The ordering of those writes is part of their
    contract (a channel is disabled before it is reconfigured).  A
    peripheral is a register file [S], and its registers are named by
    an enumeration [R].  The interface is the class [RegFile], with
    its laws in [RegFileLaws].  A driver routine is a [bus] program:
    from a register file it produces a result, the new register file
    and the list of writes it performed, in order.  A write truncates
    the value to the register's width, as a store to a
    [uint16_t]/[uint32_t] register does in C. *)

From Stdlib Require Import ZArith Lia List Bool.
From S2P Require Import Prelude.
Import ListNotations.
Open Scope Z_scope.

Class RegFile (S R : Type) := {
  reg_get : R -> S -> Z;
  reg_set : R -> Z -> S -> S;
  reg_width : R -> Z;
  reg_all : list R
}.

(** What a register file promises to the bus programs. *)
Class RegFileLaws (S R : Type) `{RegFile S R} := {
  reg_eq_dec : forall r r' : R, {r = r'} + {r <> r'};
  get_set_eq : forall r v s, reg_get r (reg_set r v s) = v;
  get_set_ne : forall r r' v s, r <> r' -> reg_get r' (reg_set r v s) = reg_get r' s;
  width_nonneg : forall r, 0 <= reg_width r;
  reg_all_complete : forall r, In r reg_all
}.

Declare Scope bus_scope.
Delimit Scope bus_scope with bus.

Section Bus.
Context {S R : Type} `{RF : RegFile S R}.

(** A store to a register keeps the low [reg_width r] bits. *)
Definition truncate (r : R) (v : Z) : Z := v mod 2 ^ reg_width r.

Definition bus (A : Type) := S -> A * S * list (R * Z).

Definition ret {A} (a : A) : bus A := fun s => (a, s, []).

Definition bind {A B} (m : bus A) (f : A -> bus B) : bus B := fun s =>
  let '(a, s1, w1) := m s in
  let '(b, s2, w2) := f a s1 in (b, s2, w1 ++ w2).

(** [x = REG]. *)
Definition rd (r : R) : bus Z := fun s => (reg_get r s, s, []).

(** [REG = v]. *)
Definition wr (r : R) (v : Z) : bus unit := fun s =>
  let v' := truncate r v in (tt, reg_set r v' s, [(r, v')]).

Definition result {A} (m : bus A) (s : S) : A := fst (fst (m s)).
Definition final {A} (m : bus A) (s : S) : S := snd (fst (m s)).
Definition trace {A} (m : bus A) (s : S) : list (R * Z) := snd (m s).

(** Every register holds a value of its width. *)
Definition in_width (s : S) : bool :=
  forallb (fun r => (0 <=? reg_get r s) && (reg_get r s <? 2 ^ reg_width r)) reg_all.

(** The register file after the stores [w], in order: what the
    peripheral sees between two stores of a routine. *)
Definition replay (w : list (R * Z)) (s : S) : S :=
  fold_left (fun s rv => reg_set (fst rv) (snd rv) s) w s.

Definition preserves (P : S -> Prop) {A} (m : bus A) : Prop :=
  forall s, P s -> P (final m s).

End Bus.

Arguments bus S R A : clear implicits.

Notation "x <- m ;; k" := (bind m (fun x => k))
  (at level 61, m at next level, right associativity) : bus_scope.
Notation "m ;; k" := (bind m (fun _ => k))
  (at level 61, right associativity) : bus_scope.

Create HintDb bus discriminated.

Section BusLemmas.
Context {S R : Type} `{RF : RegFile S R} `{!RegFileLaws S R}.

Lemma truncate_range r v : 0 <= truncate r v < 2 ^ reg_width r.
Proof. apply Z.mod_pos_bound. pose proof (width_nonneg r). lia. Qed.

Lemma in_width_spec s :
  in_width s = true <-> forall r, 0 <= reg_get r s < 2 ^ reg_width r.
Proof.
  unfold in_width. rewrite forallb_forall. split.
  - intros H r. specialize (H r (reg_all_complete r)).
    apply andb_true_iff in H as [H1 H2]. lia.
  - intros H r _. specialize (H r). apply andb_true_iff. lia.
Qed.

Lemma final_bind {A B} (m : bus S R A) (f : A -> bus S R B) s :
  final (bind m f) s = final (f (result m s)) (final m s).
Proof. unfold final, result, bind. destruct (m s) as [[a s1] w1]. cbn. now destruct (f a s1) as [[b s2] w2]. Qed.

Lemma trace_bind {A B} (m : bus S R A) (f : A -> bus S R B) s :
  trace (bind m f) s = trace m s ++ trace (f (result m s)) (final m s).
Proof. unfold trace, final, result, bind. destruct (m s) as [[a s1] w1]. cbn. now destruct (f a s1) as [[b s2] w2]. Qed.

Lemma preserves_ret P {A} (a : A) : preserves P (ret (S:=S) (R:=R) a).
Proof. intros s Hs. exact Hs. Qed.

Lemma preserves_rd P r : preserves P (rd r).
Proof. intros s Hs. exact Hs. Qed.

Lemma preserves_bind P {A B} (m : bus S R A) (f : A -> bus S R B) :
  preserves P m -> (forall a, preserves P (f a)) -> preserves P (bind m f).
Proof. intros Hm Hf s Hs. rewrite final_bind. apply Hf, Hm, Hs. Qed.

(** Stores truncate, so every bus program keeps every register inside
    its width. *)
Lemma preserves_wr r v : preserves (fun s => in_width s = true) (wr r v).
Proof.
  intros s Hs. rewrite in_width_spec in *. intros r'. unfold final, wr. cbn.
  destruct (reg_eq_dec r r') as [<-|Hne].
  - rewrite get_set_eq. apply truncate_range.
  - rewrite get_set_ne by exact Hne. apply Hs.
Qed.

End BusLemmas.

#[export] Hint Resolve preserves_ret preserves_rd preserves_wr : bus.

(** [bus_preserves]: a straight-line bus program keeps [in_width]. *)
Ltac bus_preserves :=
  repeat first
    [ apply preserves_bind; intros
    | apply preserves_wr | apply preserves_rd | apply preserves_ret
    | match goal with |- preserves _ (if ?b then _ else _) => destruct b end ].
