(* ===== verification/Rcc.v ===== *)
(** * Peripheral reset through the RCC (the calls of the DeInit routines)

    [TIM_DeInit], [CAN_DeInit] and [ADC_DeInit] reset a peripheral by
    calling [RCC_APB1PeriphResetCmd] or [RCC_APB2PeriphResetCmd] twice,
    with [ENABLE] and then [DISABLE].  The RCC driver is not part of the
    repository, so [Module Rcc] models what those calls do, after the
    RCC driver and the reference manual.  A call sets or clears the
    peripheral's bit in [APB1RSTR] or [APB2RSTR].  While the bit is set
    the peripheral is held in reset, so its registers take their reset
    values.  A routine is modelled by the list of RCC calls it makes,
    like the trace of the [Bus] monad.  [periph_run] replays that list
    against the reset lines and the register file of one peripheral. *)

From Stdlib Require Import ZArith Lia List Bool.
From S2P Require Import Prelude.
Import ListNotations.
Open Scope Z_scope.

Module Rcc.

(** The two peripheral buses, each with its reset register. *)
Inductive APB := APB1 | APB2.

(** The [RCC_APBxPeriph_*] masks the DeInit routines pass: each is one
    bit of the reset register of one bus. *)
Inductive RCC_Periph :=
  RCC_APB2Periph_TIM1 | RCC_APB1Periph_TIM2 | RCC_APB1Periph_TIM3
| RCC_APB1Periph_TIM4 | RCC_APB1Periph_TIM6 | RCC_APB1Periph_TIM7
| RCC_APB2Periph_TIM8 | RCC_APB2Periph_TIM15 | RCC_APB2Periph_TIM16
| RCC_APB2Periph_TIM17 | RCC_APB1Periph_CAN1 | RCC_APB2Periph_ADC1.

Definition RCC_Periph_eq_dec (a b : RCC_Periph) : {a = b} + {a <> b}.
Proof. decide equality. Defined.

Definition rcc_eqb (a b : RCC_Periph) : bool :=
  if RCC_Periph_eq_dec a b then true else false.

(** The bus whose reset register holds the mask's bit. *)
Definition periph_bus (p : RCC_Periph) : APB :=
  match p with
  | RCC_APB1Periph_TIM2 | RCC_APB1Periph_TIM3 | RCC_APB1Periph_TIM4
  | RCC_APB1Periph_TIM6 | RCC_APB1Periph_TIM7 | RCC_APB1Periph_CAN1 => APB1
  | _ => APB2
  end.

Definition apb_eqb (a b : APB) : bool :=
  match a, b with APB1, APB1 | APB2, APB2 => true | _, _ => false end.

Definition ENABLE : Z := 1.
Definition DISABLE : Z := 0.

(** One call [RCC_APBxPeriphResetCmd(periph, NewState)], with the bus
    its name selects. *)
Record RCC_Call := RCC_ResetCmd { call_bus : APB; call_periph : RCC_Periph; call_state : Z }.

Definition RCC_APB1PeriphResetCmd (p : RCC_Periph) (NewState : Z) : RCC_Call :=
  RCC_ResetCmd APB1 p NewState.
Definition RCC_APB2PeriphResetCmd (p : RCC_Periph) (NewState : Z) : RCC_Call :=
  RCC_ResetCmd APB2 p NewState.

(** The reset lines: [true] while the peripheral's bit is set. *)
Definition RCC_State := RCC_Periph -> bool.

(** [if (NewState != DISABLE) RSTR |= periph; else RSTR &= ~periph;].  A
    mask passed to the other bus's function lands on a bit that is not
    this peripheral's, so it resets none of the modelled peripherals. *)
Definition rcc_step (h : RCC_State) (c : RCC_Call) : RCC_State :=
  fun q => if apb_eqb (call_bus c) (periph_bus (call_periph c)) && rcc_eqb q (call_periph c)
           then negb (call_state c =? DISABLE) else h q.

(** The reset lines and the registers of the peripheral [q] along a
    list of calls: after each call, a held peripheral is at [reset]. *)
Definition periph_step {S} (q : RCC_Periph) (reset : S) (hs : RCC_State * S) (c : RCC_Call)
    : RCC_State * S :=
  let h' := rcc_step (fst hs) c in (h', if h' q then reset else snd hs).

Definition periph_run {S} (q : RCC_Periph) (reset : S) (calls : list RCC_Call)
    (hs : RCC_State * S) : RCC_State * S :=
  fold_left (periph_step q reset) calls hs.

(** A reset pulse of [p] on its own bus: what every DeInit routine
    should emit. *)
Definition pulse (p : RCC_Periph) : list RCC_Call :=
  [RCC_ResetCmd (periph_bus p) p ENABLE; RCC_ResetCmd (periph_bus p) p DISABLE].

(** ** Lemmas *)

Lemma rcc_eqb_refl p : rcc_eqb p p = true.
Proof. unfold rcc_eqb. destruct (RCC_Periph_eq_dec p p); congruence. Qed.

Lemma rcc_eqb_spec p q : rcc_eqb p q = true <-> p = q.
Proof. unfold rcc_eqb. destruct (RCC_Periph_eq_dec p q); split; congruence. Qed.

Lemma apb_eqb_refl b : apb_eqb b b = true.
Proof. destruct b; reflexivity. Qed.

(** A pulse releases [p]'s line and leaves every other line as it was. *)
Lemma pulse_lines p h q :
  fold_left rcc_step (pulse p) h q = if rcc_eqb q p then false else h q.
Proof.
  cbn. unfold rcc_step. cbn [call_bus call_periph call_state].
  rewrite apb_eqb_refl. cbn. destruct (rcc_eqb q p); reflexivity.
Qed.

Lemma fst_periph_run {S} q (reset : S) calls hs :
  fst (periph_run q reset calls hs) = fold_left rcc_step calls (fst hs).
Proof.
  unfold periph_run. revert hs.
  induction calls as [|c calls IH]; intros hs; [reflexivity|]. apply IH.
Qed.

(** The pulse puts [p]'s registers at their reset values, and keeps
    the registers of another peripheral [q] unless [q] was held. *)
Lemma pulse_regs {S} p q (reset s : S) h :
  snd (periph_run q reset (pulse p) (h, s)) =
  if rcc_eqb q p then reset else if h q then reset else s.
Proof.
  cbn. unfold periph_step, rcc_step. cbn [fst snd call_bus call_periph call_state].
  rewrite apb_eqb_refl. cbn [andb].
  destruct (rcc_eqb q p); cbn; [reflexivity|]. destruct (h q); reflexivity.
Qed.

End Rcc.
