(* ===== verification/Can.v ===== *)
(** * CAN controller: initialisation handshake and acceptance filters

    This file models [stm32f37x_can.c].  It holds:
    - the register block [CAN_TypeDef] and the parameter structures,
      with the source's field names;
    - the interface [CanHardware], which supplies the value of each
      MSR read, and two implementations of it: [MsrScript] and
      [LatencyHw];
    - the bounded polling loop [wait_ack_loop] with its termination
      and exit lemmas;
    - [CAN_Init] and [CAN_FilterInit] with their theorems;
    - [CAN_DeInit], as the RCC calls it makes (see [Rcc]). *)

From Stdlib Require Import ZArith Lia Bool List Btauto.
From stdpp Require Import base list.
From coqutil Require Import Z.bitblast.
From S2P Require Import Prelude.
From S2P Require Import Rcc.
Open Scope Z_scope.

Module Can.

(** ** Constants *)

(** [FMR_FINIT], the filter-init bit (stm32f37x_can.c line 102). *)
Definition FMR_FINIT : Z := 0x00000001.

(** [INAK_TIMEOUT], the ceiling of the acknowledge polling loop
    (stm32f37x_can.c line 105). *)
Definition INAK_TIMEOUT : Z := 0x0000FFFF.

(** Bits of the CMSIS header (stm32f37x.h): master control and status. *)
Definition CAN_MCR_INRQ : Z := 0x01.
Definition CAN_MCR_SLEEP : Z := 0x02.
Definition CAN_MCR_TXFP : Z := 0x04.
Definition CAN_MCR_RFLM : Z := 0x08.
Definition CAN_MCR_NART : Z := 0x10.
Definition CAN_MCR_AWUM : Z := 0x20.
Definition CAN_MCR_ABOM : Z := 0x40.
Definition CAN_MCR_TTCM : Z := 0x80.
Definition CAN_MSR_INAK : Z := 0x01.

(** Enumeration values of stm32f37x_can.h and stm32f37x.h. *)
Definition DISABLE : Z := 0.
Definition ENABLE : Z := 1.
Definition CAN_InitStatus_Failed : Z := 0.
Definition CAN_InitStatus_Success : Z := 1.
Definition CAN_FilterScale_16bit : Z := 0.
Definition CAN_FilterScale_32bit : Z := 1.
Definition CAN_FilterMode_IdMask : Z := 0.
Definition CAN_FilterMode_IdList : Z := 1.
Definition CAN_Filter_FIFO0 : Z := 0.
Definition CAN_Filter_FIFO1 : Z := 1.

(** ** Data *)

(** [CAN_InitTypeDef]: every field is the raw integer the caller stores. *)
Record CAN_InitTypeDef := {
  CAN_Prescaler : Z;
  CAN_Mode : Z;
  CAN_SJW : Z;
  CAN_BS1 : Z;
  CAN_BS2 : Z;
  CAN_TTCM : Z;
  CAN_ABOM : Z;
  CAN_AWUM : Z;
  CAN_NART : Z;
  CAN_RFLM : Z;
  CAN_TXFP : Z
}.

Record CAN_FilterInitTypeDef := {
  CAN_FilterIdHigh : Z;
  CAN_FilterIdLow : Z;
  CAN_FilterMaskIdHigh : Z;
  CAN_FilterMaskIdLow : Z;
  CAN_FilterFIFOAssignment : Z;
  CAN_FilterNumber : Z;
  CAN_FilterMode : Z;
  CAN_FilterScale : Z;
  CAN_FilterActivation : Z
}.

Record CAN_FilterRegister_TypeDef := { FR1 : Z; FR2 : Z }.

(** The software-written registers of the block.  MSR is written by the
    hardware; its reads go through [CanHardware]. *)
Record CAN_TypeDef := {
  MCR : Z;
  BTR : Z;
  FMR : Z;
  FM1R : Z;
  FS1R : Z;
  FFA1R : Z;
  FA1R : Z;
  sFilterRegister : list CAN_FilterRegister_TypeDef
}.

Definition set_MCR (c : CAN_TypeDef) (v : Z) : CAN_TypeDef :=
  {| MCR := v; BTR := BTR c; FMR := FMR c; FM1R := FM1R c; FS1R := FS1R c;
     FFA1R := FFA1R c; FA1R := FA1R c; sFilterRegister := sFilterRegister c |}.

Definition set_BTR (c : CAN_TypeDef) (v : Z) : CAN_TypeDef :=
  {| MCR := MCR c; BTR := v; FMR := FMR c; FM1R := FM1R c; FS1R := FS1R c;
     FFA1R := FFA1R c; FA1R := FA1R c; sFilterRegister := sFilterRegister c |}.

(** ** The hardware side of the handshake *)

(** A read of MSR.  The hardware sees the current MCR (its request
    lines); it returns the value read and its next state. *)
Class CanHardware (H : Type) := can_msr : H -> Z -> Z * H.

(** [(CANx->MSR & CAN_MSR_INAK) == CAN_MSR_INAK] *)
Definition inak_set (msr : Z) : bool := bits_set msr CAN_MSR_INAK.

Section Handshake.
Context {H : Type} `{CanHardware H}.

Definition read_MSR (c : CAN_TypeDef) (h : H) : Z * H := can_msr h (MCR c).

(** [while (busy(CANx->MSR) && (wait_ack != INAK_TIMEOUT)) wait_ack++;]
    The first conjunct reads MSR on every test, the second does not. *)
Fixpoint wait_ack_loop (fuel : nat) (busy : Z -> bool) (c : CAN_TypeDef)
    (wait_ack : Z) (h : H) : Z * H :=
  let '(msr, h1) := read_MSR c h in
  if busy msr && negb (wait_ack =? INAK_TIMEOUT) then
    match fuel with
    | O => (wait_ack, h1)
    | S f => wait_ack_loop f busy c (u32 (wait_ack + 1)) h1
    end
  else (wait_ack, h1).

(** Fuel for a loop started at [wait_ack = 0]: one unit per increment. *)
Definition wait_fuel : nat := Z.to_nat INAK_TIMEOUT.

(** [if (st == ENABLE) MCR |= bit; else MCR &= ~bit;] *)
Definition flag_update (st bit mcr : Z) : Z :=
  if st =? ENABLE then set_bits mcr bit else clear_bits mcr bit.

(** The six option blocks of lines 218-258, in the source's order. *)
Definition CAN_Init_options (i : CAN_InitTypeDef) (mcr : Z) : Z :=
  flag_update (CAN_TXFP i) CAN_MCR_TXFP
   (flag_update (CAN_RFLM i) CAN_MCR_RFLM
    (flag_update (CAN_NART i) CAN_MCR_NART
     (flag_update (CAN_AWUM i) CAN_MCR_AWUM
      (flag_update (CAN_ABOM i) CAN_MCR_ABOM
       (flag_update (CAN_TTCM i) CAN_MCR_TTCM mcr))))).

(** Lines 261-270.  Each operand is a uint32, so every shift and the
    subtraction [Prescaler - 1] wrap modulo 2^32. *)
Definition CAN_BTR_value (i : CAN_InitTypeDef) : Z :=
  Z.lor (Z.lor (Z.lor (Z.lor (u32 (Z.shiftl (CAN_Mode i) 30))
                             (u32 (Z.shiftl (CAN_SJW i) 24)))
                      (u32 (Z.shiftl (CAN_BS1 i) 16)))
               (u32 (Z.shiftl (CAN_BS2 i) 20)))
        (u32 (CAN_Prescaler i - 1)).

(** MCR on entry to the first poll: sleep left, initialisation requested. *)
Definition CAN_request_init (c : CAN_TypeDef) : CAN_TypeDef :=
  let c := set_MCR c (clear_bits (MCR c) CAN_MCR_SLEEP) in
  set_MCR c (set_bits (MCR c) CAN_MCR_INRQ).

(** Registers after the acknowledged branch has programmed them. *)
Definition CAN_program (i : CAN_InitTypeDef) (c : CAN_TypeDef) : CAN_TypeDef :=
  let c := set_MCR c (CAN_Init_options i (MCR c)) in
  let c := set_BTR c (CAN_BTR_value i) in
  set_MCR c (clear_bits (MCR c) CAN_MCR_INRQ).

(** [CAN_Init] (lines 184-293): the status, the registers, the hardware. *)
Definition CAN_Init (c : CAN_TypeDef) (i : CAN_InitTypeDef) (h : H)
    : Z * CAN_TypeDef * H :=
  let c1 := CAN_request_init c in
  let '(_, h1) := wait_ack_loop wait_fuel (fun m => negb (inak_set m)) c1 0 h in
  let '(msr, h2) := read_MSR c1 h1 in
  if negb (inak_set msr) then (CAN_InitStatus_Failed, c1, h2)
  else
    let c2 := CAN_program i c1 in
    let '(_, h3) := wait_ack_loop wait_fuel inak_set c2 0 h2 in
    let '(msr2, h4) := read_MSR c2 h3 in
    if inak_set msr2 then (CAN_InitStatus_Failed, c2, h4)
    else (CAN_InitStatus_Success, c2, h4).

End Handshake.

(** ** The sequence of MSR reads and the loop's exit point *)

Section Reads.
Context {H : Type} `{CanHardware H}.

(** The hardware state after [k] reads of MSR with MCR held at [mcr]. *)
Fixpoint hw_after (mcr : Z) (h : H) (k : nat) : H :=
  match k with
  | O => h
  | S k => hw_after mcr (snd (can_msr h mcr)) k
  end.

(** The value of the [k]-th read (from 0). *)
Definition nth_read (mcr : Z) (h : H) (k : nat) : Z := fst (can_msr (hw_after mcr h k) mcr).

(** Reference count of a polling loop: the number of reads, among the
    first [n], that find the condition [busy] still true before the
    first read that finds it false. *)
Fixpoint polls (busy : Z -> bool) (mcr : Z) (h : H) (n : nat) : nat :=
  match n with
  | O => O
  | S n' => if busy (fst (can_msr h mcr)) then S (polls busy mcr (snd (can_msr h mcr)) n') else O
  end.

Lemma polls_le busy mcr h n : (polls busy mcr h n <= n)%nat.
Proof.
  revert h; induction n as [|n IH]; intros h; simpl; [lia|].
  destruct (busy _); [specialize (IH (snd (can_msr h mcr))); lia | lia].
Qed.

(** [polls] stops exactly at the first read that is not busy. *)
Lemma polls_first busy mcr h n k :
  (k <= n)%nat ->
  (forall j, (j < k)%nat -> busy (nth_read mcr h j) = true) ->
  (k < n -> busy (nth_read mcr h k) = false)%nat ->
  polls busy mcr h n = k.
Proof.
  revert h n; induction k as [|k IH]; intros h n Hk Hbusy Hstop.
  - destruct n as [|n]; simpl; [reflexivity|].
    specialize (Hstop ltac:(lia)). unfold nth_read in Hstop. simpl in Hstop.
    rewrite Hstop. reflexivity.
  - destruct n as [|n]; [lia|]. simpl.
    pose proof (Hbusy O ltac:(lia)) as Hb0. unfold nth_read in Hb0. simpl in Hb0. rewrite Hb0.
    f_equal. apply IH; [lia| |].
    + intros j Hj. exact (Hbusy (S j) ltac:(lia)).
    + intros Hlt. exact (Hstop ltac:(lia)).
Qed.

(** [p] holds on each of the first [n] reads (a decidable check). *)
Fixpoint reads_all (p : Z -> bool) (mcr : Z) (h : H) (n : nat) : bool :=
  match n with
  | O => true
  | S n' => p (fst (can_msr h mcr)) && reads_all p mcr (snd (can_msr h mcr)) n'
  end.

Lemma hw_after_S mcr h k : hw_after mcr h (S k) = snd (can_msr (hw_after mcr h k) mcr).
Proof. revert h; induction k as [|k IH]; intros h; [reflexivity|]. apply IH. Qed.

Lemma reads_all_nth p mcr h n :
  reads_all p mcr h n = true -> forall j, (j < n)%nat -> p (nth_read mcr h j) = true.
Proof.
  revert h; induction n as [|n IH]; intros h Hall j Hj; [lia|].
  simpl in Hall. apply andb_true_iff in Hall as [Hp0 Hrest].
  destruct j as [|j]; [exact Hp0|]. unfold nth_read. simpl.
  apply (IH _ Hrest j). lia.
Qed.

End Reads.

#[export] Hint Resolve polls_le : regs.

Section LoopSpec.
Context {H : Type} `{CanHardware H}.

(** The polling loop terminates and does what the C loop does: it
    reads MSR [polls + 1] times and leaves [wait_ack] at
    [w + polls].  Any fuel of at least [INAK_TIMEOUT - w] gives this
    result, so the fuel bound is never what stops the loop. *)
Lemma wait_ack_loop_spec fuel busy c w h :
  0 <= w <= INAK_TIMEOUT ->
  (Z.to_nat (INAK_TIMEOUT - w) <= fuel)%nat ->
  let n := polls busy (MCR c) h (Z.to_nat (INAK_TIMEOUT - w)) in
  wait_ack_loop fuel busy c w h = (w + Z.of_nat n, hw_after (MCR c) h (S n)).
Proof.
  revert w h; induction fuel as [|fuel IH]; intros w h Hw Hf; cbn zeta;
    cbn [wait_ack_loop]; unfold read_MSR.
  - assert (w = INAK_TIMEOUT) as -> by lia.
    rewrite Z.sub_diag. cbn [Z.to_nat polls hw_after].
    destruct (can_msr h (MCR c)) as [m h1].
    rewrite Z.eqb_refl, andb_false_r. f_equal; lia.
  - destruct (Z.eq_dec w INAK_TIMEOUT) as [->|Hne].
    + rewrite Z.sub_diag. cbn [Z.to_nat polls hw_after].
      destruct (can_msr h (MCR c)) as [m h1].
      rewrite Z.eqb_refl, andb_false_r. f_equal; lia.
    + replace (Z.to_nat (INAK_TIMEOUT - w))
        with (S (Z.to_nat (INAK_TIMEOUT - (w + 1)))) by lia.
      cbn [polls hw_after]. destruct (can_msr h (MCR c)) as [m h1]. cbn [fst snd].
      rewrite (proj2 (Z.eqb_neq w INAK_TIMEOUT) Hne), andb_true_r.
      destruct (busy m).
      * rewrite u32_id by (unfold INAK_TIMEOUT in *; lia).
        rewrite IH by lia. f_equal; lia.
      * f_equal; lia.
Qed.

(** Corollary used by the theorems: the fuel [CAN_Init] gives. *)
Lemma wait_ack_loop_from0 busy c h :
  let n := polls busy (MCR c) h (Z.to_nat INAK_TIMEOUT) in
  wait_ack_loop wait_fuel busy c 0 h = (Z.of_nat n, hw_after (MCR c) h (S n)).
Proof.
  cbn zeta. rewrite wait_ack_loop_spec by (unfold wait_fuel, INAK_TIMEOUT; lia).
  rewrite Z.sub_0_r. reflexivity.
Qed.

(** C7: (Termination) The fuel is never what stops the polling loop: any
    two fuels of at least [INAK_TIMEOUT - w] give the same counter and
    the same number of MSR reads, so the model is the C loop bounded
    only by [wait_ack != INAK_TIMEOUT]. *)
Theorem wait_ack_loop_fuel_irrelevant fuel1 fuel2 busy c w h :
  0 <= w <= INAK_TIMEOUT ->
  (Z.to_nat (INAK_TIMEOUT - w) <= fuel1)%nat ->
  (Z.to_nat (INAK_TIMEOUT - w) <= fuel2)%nat ->
  wait_ack_loop fuel1 busy c w h = wait_ack_loop fuel2 busy c w h /\
  w <= fst (wait_ack_loop fuel1 busy c w h) <= INAK_TIMEOUT.
Proof.
  intros Hw H1 H2. rewrite !wait_ack_loop_spec by assumption. cbn.
  split; [reflexivity|].
  pose proof (polls_le busy (MCR c) h (Z.to_nat (INAK_TIMEOUT - w))). lia.
Qed.

End LoopSpec.

(** ** [CAN_Init]: outcome of each branch *)

Section InitTheorems.
Context {H : Type} `{CanHardware H}.

(** Reads on a fixed MCR: the [k]-th read is [nth_read], and the state
    after it is [hw_after (S k)]. *)
Lemma read_MSR_after c h k :
  read_MSR c (hw_after (MCR c) h k) = (nth_read (MCR c) h k, hw_after (MCR c) h (S k)).
Proof.
  unfold read_MSR, nth_read. rewrite hw_after_S.
  destruct (can_msr (hw_after (MCR c) h k) (MCR c)); reflexivity.
Qed.

(** The first phase: after the poll and the re-read of line 215, the
    acknowledge is seen iff [inak_set] holds on the read that follows
    the loop's [polls] busy reads. *)
Lemma CAN_Init_phase1 c i h :
  let c1 := CAN_request_init c in
  let n := polls (fun m => negb (inak_set m)) (MCR c1) h (Z.to_nat INAK_TIMEOUT) in
  CAN_Init c i h =
    if negb (inak_set (nth_read (MCR c1) h (S n)))
    then (CAN_InitStatus_Failed, c1, hw_after (MCR c1) h (S (S n)))
    else
      let c2 := CAN_program i c1 in
      let h2 := hw_after (MCR c1) h (S (S n)) in
      let m := polls inak_set (MCR c2) h2 (Z.to_nat INAK_TIMEOUT) in
      if inak_set (nth_read (MCR c2) h2 (S m))
      then (CAN_InitStatus_Failed, c2, hw_after (MCR c2) h2 (S (S m)))
      else (CAN_InitStatus_Success, c2, hw_after (MCR c2) h2 (S (S m))).
Proof.
  cbn zeta. unfold CAN_Init. rewrite wait_ack_loop_from0. cbn zeta.
  rewrite read_MSR_after.
  destruct (negb (inak_set _)); [reflexivity|].
  rewrite wait_ack_loop_from0. cbn zeta. rewrite read_MSR_after. reflexivity.
Qed.

(** No branch of [CAN_Init] writes anything but MCR and BTR.  A
    [Failed] result leaves either the request image, with no option
    programmed, or the fully programmed image. *)
Lemma CAN_Init_outcomes c i h :
  let '(st, c', _) := CAN_Init c i h in
  (st = CAN_InitStatus_Success /\ c' = CAN_program i (CAN_request_init c)) \/
  (st = CAN_InitStatus_Failed /\
     (c' = CAN_request_init c \/ c' = CAN_program i (CAN_request_init c))).
Proof.
  rewrite CAN_Init_phase1. cbn zeta.
  destruct (negb _); [right; auto|].
  destruct (inak_set _); [right; auto | left; auto].
Qed.

(** C2: (P4) The hardware never raises INAK.  [CAN_Init] then returns
    [Failed] after exactly [INAK_TIMEOUT + 2] reads of MSR: 0x10000
    polls and the check of line 215.  It has cleared SLEEP and set
    INRQ and has programmed nothing else. *)
Theorem CAN_Init_no_ack c i h :
  reads_all (fun m => negb (inak_set m)) (MCR (CAN_request_init c)) h
            (Z.to_nat INAK_TIMEOUT + 2) = true ->
  CAN_Init c i h =
    (CAN_InitStatus_Failed, CAN_request_init c,
     hw_after (MCR (CAN_request_init c)) h (Z.to_nat INAK_TIMEOUT + 2)).
Proof.
  intros Hall. pose proof (reads_all_nth _ _ _ _ Hall) as Hn.
  rewrite CAN_Init_phase1. cbn zeta.
  rewrite (polls_first _ _ _ _ (Z.to_nat INAK_TIMEOUT)); [ | lia | | lia].
  - rewrite (Hn (S (Z.to_nat INAK_TIMEOUT))) by lia.
    replace (Z.to_nat INAK_TIMEOUT + 2)%nat with (S (S (Z.to_nat INAK_TIMEOUT))) by lia.
    reflexivity.
  - intros j Hj. apply Hn. lia.
Qed.

End InitTheorems.

(** ** Register image of a successful initialisation *)

(** The assert_param checks of lines 189-200 (IS_CAN_MODE, IS_CAN_SJW,
    IS_CAN_BS1, IS_CAN_BS2, IS_CAN_PRESCALER, IS_FUNCTIONAL_STATE). *)
Definition functional_state_ok (st : Z) : bool := (st =? DISABLE) || (st =? ENABLE).

Definition CAN_Init_params_ok (i : CAN_InitTypeDef) : bool :=
  functional_state_ok (CAN_TTCM i) && functional_state_ok (CAN_ABOM i) &&
  functional_state_ok (CAN_AWUM i) && functional_state_ok (CAN_NART i) &&
  functional_state_ok (CAN_RFLM i) && functional_state_ok (CAN_TXFP i) &&
  (0 <=? CAN_Mode i) && (CAN_Mode i <=? 3) && (0 <=? CAN_SJW i) && (CAN_SJW i <=? 3) &&
  (0 <=? CAN_BS1 i) && (CAN_BS1 i <=? 15) && (0 <=? CAN_BS2 i) && (CAN_BS2 i <=? 7) &&
  (1 <=? CAN_Prescaler i) && (CAN_Prescaler i <=? 1024).

(** Abstract view of the option write: one combined write that clears
    the low byte of MCR (INRQ, SLEEP and the six options) and sets the
    requested options. *)
Definition flag_bit (st bit : Z) : Z := if st =? ENABLE then bit else 0.

Definition CAN_options_bits (i : CAN_InitTypeDef) : Z :=
  Z.lor (flag_bit (CAN_TTCM i) CAN_MCR_TTCM)
  (Z.lor (flag_bit (CAN_ABOM i) CAN_MCR_ABOM)
  (Z.lor (flag_bit (CAN_AWUM i) CAN_MCR_AWUM)
  (Z.lor (flag_bit (CAN_NART i) CAN_MCR_NART)
  (Z.lor (flag_bit (CAN_RFLM i) CAN_MCR_RFLM) (flag_bit (CAN_TXFP i) CAN_MCR_TXFP))))).

Definition CAN_init_image (i : CAN_InitTypeDef) (c : CAN_TypeDef) : CAN_TypeDef :=
  set_BTR (set_MCR c (Z.lor (clear_bits (MCR c) 0xFF) (CAN_options_bits i))) (CAN_BTR_value i).

(** Field view of BTR: (mode, SJW, BS1, BS2, prescaler). *)
Definition CAN_BTR_fields (btr : Z) : Z * Z * Z * Z * Z :=
  (Z.land (Z.shiftr btr 30) (Z.ones 2), Z.land (Z.shiftr btr 24) (Z.ones 2),
   Z.land (Z.shiftr btr 16) (Z.ones 4), Z.land (Z.shiftr btr 20) (Z.ones 3),
   Z.land btr (Z.ones 10) + 1).

(** The six option bits of MCR as booleans (TTCM, ABOM, AWUM, NART, RFLM, TXFP). *)
Definition CAN_MCR_flags (mcr : Z) : bool * bool * bool * bool * bool * bool :=
  (Z.testbit mcr 7, Z.testbit mcr 6, Z.testbit mcr 5,
   Z.testbit mcr 4, Z.testbit mcr 3, Z.testbit mcr 2).

Lemma flag_update_same st bit mcr k :
  0 <= k < 32 -> Z.testbit bit k = true ->
  Z.testbit (flag_update st bit mcr) k = (st =? ENABLE).
Proof. intros Hk Hb. unfold flag_update. destruct (st =? ENABLE); regs_simpl; rewrite Hb; btauto. Qed.

Lemma flag_update_other st bit mcr k :
  0 <= k < 32 -> Z.testbit bit k = false ->
  Z.testbit (flag_update st bit mcr) k = Z.testbit mcr k.
Proof. intros Hk Hb. unfold flag_update. destruct (st =? ENABLE); regs_simpl; rewrite Hb; btauto. Qed.

Lemma testbit_flag_bit st bit k :
  Z.testbit (flag_bit st bit) k = (st =? ENABLE) && Z.testbit bit k.
Proof. unfold flag_bit. destruct (st =? ENABLE); simpl; auto using Z.testbit_0_l. Qed.

Lemma flag_update_range st bit mcr :
  0 <= mcr < 2 ^ 32 -> 0 <= bit < 2 ^ 32 -> 0 <= flag_update st bit mcr < 2 ^ 32.
Proof. intros. unfold flag_update. destruct (st =? ENABLE); auto with regs. Qed.

#[export] Hint Resolve flag_update_range : regs.
#[local] Hint Extern 1 (0 <= Zpos _ < _) => lia : regs.

Lemma flag_bit_range st bit : 0 <= bit < 2 ^ 8 -> 0 <= flag_bit st bit < 2 ^ 8.
Proof. intros. unfold flag_bit. destruct (st =? ENABLE); lia. Qed.

Lemma CAN_options_bits_range i : 0 <= CAN_options_bits i < 2 ^ 8.
Proof.
  unfold CAN_options_bits.
  repeat apply lor_range; try lia; apply flag_bit_range;
    unfold CAN_MCR_TTCM, CAN_MCR_ABOM, CAN_MCR_AWUM, CAN_MCR_NART, CAN_MCR_RFLM, CAN_MCR_TXFP; lia.
Qed.

(** (Equivalence) The six read-modify-write blocks of lines 218-258
    followed by the INRQ clear of line 273 equal one combined write:
    the low byte of MCR cleared, the requested options set, every other
    bit kept. *)
Theorem CAN_program_MCR c i :
  0 <= MCR c < 2 ^ 32 ->
  MCR (CAN_program i (CAN_request_init c)) = Z.lor (clear_bits (MCR c) 0xFF) (CAN_options_bits i).
Proof.
  intros Hc. apply Z.bits_inj'. intros k Hk.
  unfold CAN_program, CAN_request_init, CAN_options_bits, CAN_Init_options.
  cbn [MCR set_MCR set_BTR]. rewrite ?Z.lor_spec, ?testbit_flag_bit.
  unfold CAN_MCR_TTCM, CAN_MCR_ABOM, CAN_MCR_AWUM, CAN_MCR_NART, CAN_MCR_RFLM, CAN_MCR_TXFP,
    CAN_MCR_INRQ, CAN_MCR_SLEEP.
  destruct (Z.lt_ge_cases k 32) as [Hk32|Hk32].
  - regs_simpl. destruct (Z.lt_ge_cases k 8) as [Hk8|Hk8].
    + assert (k = 0 \/ k = 1 \/ k = 2 \/ k = 3 \/ k = 4 \/ k = 5 \/ k = 6 \/ k = 7) as Hks by lia.
      repeat destruct Hks as [->|Hks]; subst;
        repeat first [rewrite flag_update_same by (lia || reflexivity)
                     | rewrite flag_update_other by (lia || reflexivity)];
        regs_simpl; cbn; btauto.
    + repeat rewrite flag_update_other by (lia || (eapply (testbit_high _ 8); lia)).
      regs_simpl. rewrite !(testbit_high (Zpos _) 8 k) by lia. btauto.
  - rewrite testbit_clear_bits_high by (auto 10 with regs; lia).
    rewrite (testbit_clear_bits_high (MCR c)) by lia.
    rewrite !(testbit_high (Zpos _) 8 k) by lia. btauto.
Qed.

Lemma CAN_program_image c i :
  0 <= MCR c < 2 ^ 32 -> CAN_program i (CAN_request_init c) = CAN_init_image i c.
Proof.
  intros Hc. pose proof (CAN_program_MCR c i Hc) as HM.
  unfold CAN_init_image. revert HM. unfold CAN_program, CAN_request_init.
  cbn [MCR set_MCR set_BTR]. intros HM. unfold set_BTR, set_MCR; cbn. rewrite HM. reflexivity.
Qed.

(** With the fields in range (BS1 up to 16), no shift and no
    subtraction of lines 261-270 wraps. *)
Lemma CAN_BTR_value_nowrap i :
  0 <= CAN_Mode i <= 3 -> 0 <= CAN_SJW i <= 3 -> 0 <= CAN_BS1 i <= 16 ->
  0 <= CAN_BS2 i <= 7 -> 1 <= CAN_Prescaler i <= 1024 ->
  CAN_BTR_value i =
    Z.lor (Z.lor (Z.lor (Z.lor (Z.shiftl (CAN_Mode i) 30) (Z.shiftl (CAN_SJW i) 24))
                        (Z.shiftl (CAN_BS1 i) 16)) (Z.shiftl (CAN_BS2 i) 20))
          (CAN_Prescaler i - 1).
Proof.
  intros. unfold CAN_BTR_value.
  rewrite !(u32_id (Z.shiftl _ _)) by (rewrite Z.shiftl_mul_pow2 by lia; lia).
  rewrite u32_id by lia. reflexivity.
Qed.

(** The five fields of BTR decode back from the value of lines
    261-270 when each field is within its range. *)
Lemma CAN_BTR_fields_value i :
  0 <= CAN_Mode i <= 3 -> 0 <= CAN_SJW i <= 3 -> 0 <= CAN_BS1 i <= 15 ->
  0 <= CAN_BS2 i <= 7 -> 1 <= CAN_Prescaler i <= 1024 ->
  CAN_BTR_fields (CAN_BTR_value i) =
    (CAN_Mode i, CAN_SJW i, CAN_BS1 i, CAN_BS2 i, CAN_Prescaler i).
Proof.
  intros. unfold CAN_BTR_fields. rewrite CAN_BTR_value_nowrap by lia.
  remember (CAN_Prescaler i - 1) as q eqn:Hq.
  replace (CAN_Prescaler i) with (q + 1) by lia.
  repeat f_equal; Z.bitblast;
    field_bits (CAN_Mode i) 2; field_bits (CAN_SJW i) 2; field_bits (CAN_BS1 i) 4;
    field_bits (CAN_BS2 i) 3; field_bits q 10; btauto.
Qed.

(** C8: (Round trip) With parameters that pass the assert_param checks,
    the BTR value of lines 261-270 decodes back to mode, SJW, BS1, BS2
    and prescaler: no field overlaps another. *)
Theorem CAN_BTR_roundtrip i :
  CAN_Init_params_ok i = true ->
  CAN_BTR_fields (CAN_BTR_value i) =
    (CAN_Mode i, CAN_SJW i, CAN_BS1 i, CAN_BS2 i, CAN_Prescaler i).
Proof.
  unfold CAN_Init_params_ok. intros Hok. repeat rewrite andb_true_iff in Hok.
  rewrite ?Z.leb_le in Hok. destruct_and! Hok.
  apply CAN_BTR_fields_value; lia.
Qed.

(** C19: (Bounds) A prescaler of 0 fails IS_CAN_PRESCALER, and the check is
    compiled out.  [Prescaler - 1] then wraps to 0xFFFFFFFF and BTR
    becomes all ones, whatever the other fields hold: silent loopback
    mode with every timing field at its maximum. *)
Theorem CAN_BTR_prescaler0 i :
  CAN_Prescaler i = 0 -> CAN_BTR_value i = 0xFFFFFFFF.
Proof.
  intros Hp. unfold CAN_BTR_value. rewrite Hp.
  change (u32 (0 - 1)) with (Z.ones 32). change 0xFFFFFFFF with (Z.ones 32).
  apply Z.bits_inj'. intros k Hk. rewrite !Z.lor_spec.
  destruct (Z.lt_ge_cases k 32).
  - rewrite Z.ones_spec_low by lia. rewrite orb_true_r. reflexivity.
  - rewrite Z.ones_spec_high by lia.
    rewrite !(testbit_high (u32 _) 32 k) by (apply u32_range || lia). reflexivity.
Qed.

(** C20: (Error) A BS1 of 16 fails IS_CAN_BS1 (line 198), a check
    compiled out of a release build.  [BS1 << 16] then sets bit 20,
    the low bit of the BS2 field.  BTR decodes to BS1 = 0 (one time
    quantum instead of seventeen) and BS2 = BS2 | 1; the other fields
    are kept. *)
Theorem CAN_BTR_BS1_overflow i :
  CAN_BS1 i = 16 -> 0 <= CAN_Mode i <= 3 -> 0 <= CAN_SJW i <= 3 ->
  0 <= CAN_BS2 i <= 7 -> 1 <= CAN_Prescaler i <= 1024 ->
  CAN_BTR_fields (CAN_BTR_value i) =
    (CAN_Mode i, CAN_SJW i, 0, Z.lor (CAN_BS2 i) 1, CAN_Prescaler i).
Proof.
  intros HB Hm Hs Hb2 Hp. unfold CAN_BTR_fields. rewrite CAN_BTR_value_nowrap by lia.
  rewrite HB. change (Z.shiftl 16 16) with (Z.shiftl 1 20).
  remember (CAN_Prescaler i - 1) as q eqn:Hq.
  replace (CAN_Prescaler i) with (q + 1) by lia.
  repeat f_equal; Z.bitblast;
    field_bits (CAN_Mode i) 2; field_bits (CAN_SJW i) 2; field_bits (CAN_BS2 i) 3;
    field_bits q 10; rewrite testbit_one;
    match goal with |- context [?x =? 0] => destruct (Z.eqb_spec x 0) end; try lia; btauto.
Qed.

Section InitImage.
Context {H : Type} `{CanHardware H}.

(** (Functional) A [Success] result carries the documented image: BTR
    packed from the parameters, the low byte of MCR replaced by the
    requested options, and every other register untouched. *)
Theorem CAN_Init_success_image c i h c' h' :
  0 <= MCR c < 2 ^ 32 ->
  CAN_Init c i h = (CAN_InitStatus_Success, c', h') ->
  c' = CAN_init_image i c.
Proof.
  intros Hc Hinit. pose proof (CAN_Init_outcomes c i h) as Hout. rewrite Hinit in Hout.
  destruct Hout as [[_ ->]|[Hst _]]; [apply CAN_program_image, Hc | discriminate].
Qed.

Lemma CAN_init_image_MCR_bits i c k :
  0 <= MCR c < 2 ^ 32 -> 0 <= k ->
  Z.testbit (MCR (CAN_init_image i c)) k =
    if k <? 8 then Z.testbit (CAN_options_bits i) k else Z.testbit (MCR c) k.
Proof.
  intros Hc Hk. cbn [CAN_init_image MCR set_MCR set_BTR]. rewrite Z.lor_spec.
  destruct (Z.ltb_spec k 8).
  - unfold clear_bits. rewrite Z.land_spec, testbit_bnot32 by lia.
    replace (Z.testbit 0xFF k) with true; [btauto|].
    symmetry. change 0xFF with (Z.ones 8). apply Z.ones_spec_low. lia.
  - rewrite (testbit_high (CAN_options_bits i) 8) by (apply CAN_options_bits_range || lia).
    destruct (Z.lt_ge_cases k 32).
    + regs_simpl. rewrite (testbit_high 0xFF 8) by lia. btauto.
    + rewrite testbit_clear_bits_high, (testbit_high (MCR c) 32) by lia. reflexivity.
Qed.

(** C18: (P2, round trip) After a successful init each of the six options
    reads back as requested, whatever the other five are.  INRQ and
    SLEEP read 0, and MCR bits 8 to 31 keep their old values. *)
Theorem CAN_Init_flags_readback c i h c' h' :
  0 <= MCR c < 2 ^ 32 ->
  CAN_Init c i h = (CAN_InitStatus_Success, c', h') ->
  CAN_MCR_flags (MCR c') =
    (CAN_TTCM i =? ENABLE, CAN_ABOM i =? ENABLE, CAN_AWUM i =? ENABLE,
     CAN_NART i =? ENABLE, CAN_RFLM i =? ENABLE, CAN_TXFP i =? ENABLE) /\
  Z.testbit (MCR c') 0 = false /\ Z.testbit (MCR c') 1 = false /\
  (forall k, 8 <= k -> Z.testbit (MCR c') k = Z.testbit (MCR c) k).
Proof.
  intros Hc Hinit. rewrite (CAN_Init_success_image c i h c' h' Hc Hinit).
  unfold CAN_MCR_flags. rewrite !CAN_init_image_MCR_bits by lia. cbn [Z.ltb Z.compare].
  unfold CAN_options_bits. rewrite !Z.lor_spec, !testbit_flag_bit.
  split; [cbn; repeat f_equal; btauto|].
  split; [cbn; btauto|]. split; [cbn; btauto|].
  intros k Hk. rewrite CAN_init_image_MCR_bits by lia.
  destruct (Z.ltb_spec k 8); [lia | reflexivity].
Qed.

Lemma CAN_init_image_range i c :
  0 <= MCR c < 2 ^ 32 -> 0 <= MCR (CAN_init_image i c) < 2 ^ 32.
Proof.
  intros Hc. cbn [CAN_init_image MCR set_MCR set_BTR]. apply lor_range; [lia| auto with regs |].
  pose proof (CAN_options_bits_range i). lia.
Qed.

Lemma CAN_init_image_idem i c :
  0 <= MCR c < 2 ^ 32 -> CAN_init_image i (CAN_init_image i c) = CAN_init_image i c.
Proof.
  intros Hc. pose proof (CAN_init_image_range i c Hc) as Hr.
  assert (HM : MCR (CAN_init_image i (CAN_init_image i c)) = MCR (CAN_init_image i c)).
  { apply Z.bits_inj'. intros k Hk. rewrite !CAN_init_image_MCR_bits by lia.
    destruct (k <? 8); reflexivity. }
  revert HM. unfold CAN_init_image, set_BTR, set_MCR. cbn. intros HM. rewrite HM. reflexivity.
Qed.

(** (P1, idempotence) Running [CAN_Init] a second time with the same
    parameters on the result of a successful first run leaves exactly
    the same register image, whatever the hardware did in between. *)
Theorem CAN_Init_idempotent c i h c1 h1 h2 c2 h3 :
  0 <= MCR c < 2 ^ 32 ->
  CAN_Init c i h = (CAN_InitStatus_Success, c1, h1) ->
  CAN_Init c1 i h2 = (CAN_InitStatus_Success, c2, h3) ->
  c2 = c1.
Proof.
  intros Hc E1 E2. pose proof (CAN_Init_success_image _ _ _ _ _ Hc E1) as ->.
  rewrite (CAN_Init_success_image _ _ _ _ _ (CAN_init_image_range i c Hc) E2).
  apply CAN_init_image_idem, Hc.
Qed.

End InitImage.

(** ** Two implementations of the hardware interface *)

(** A scripted MSR: the [k]-th read returns [script_val k].  Every
    behaviour of the silicon is one such script. *)
Record MsrScript := { script_pos : nat; script_val : nat -> Z }.

#[export] Instance MsrScript_hw : CanHardware MsrScript :=
  fun s _ => (script_val s (script_pos s),
              {| script_pos := S (script_pos s); script_val := script_val s |}).

(** A controller that acknowledges a change of INRQ after a fixed
    number [lat] of MSR reads: [cnt] counts the reads still to go, and
    [inak] is the INAK bit the hardware currently shows. *)
Record LatencyHw := { lat : nat; cnt : nat; inak : bool }.

Definition msr_of (b : bool) : Z := if b then CAN_MSR_INAK else 0.

#[export] Instance LatencyHw_hw : CanHardware LatencyHw :=
  fun h mcr =>
    let req := Z.testbit mcr 0 in
    if Bool.eqb (inak h) req
    then (msr_of (inak h), {| lat := lat h; cnt := lat h; inak := inak h |})
    else match cnt h with
         | O => (msr_of req, {| lat := lat h; cnt := lat h; inak := req |})
         | S k => (msr_of (inak h), {| lat := lat h; cnt := k; inak := inak h |})
         end.

(** The controller at rest, outside initialisation mode. *)
Definition idle_hw (L : nat) : LatencyHw := {| lat := L; cnt := L; inak := false |}.

Lemma inak_set_msr_of b : inak_set (msr_of b) = b.
Proof. destruct b; reflexivity. Qed.

Section Latency.

Variable busy : Z -> bool.
Variable mcr : Z.
Variable req : bool.
Hypothesis Hreq : Z.testbit mcr 0 = req.
Hypothesis Hbusy_old : busy (msr_of (negb req)) = true.
Hypothesis Hbusy_new : busy (msr_of req) = false.

(** While a change is pending, the loop sees the old INAK for [cnt]
    reads, then the new one; after the switch the counter is reloaded. *)
Lemma latency_read_pending_0 L :
  can_msr {| lat := L; cnt := 0; inak := negb req |} mcr = (msr_of req, {| lat := L; cnt := L; inak := req |}).
Proof. unfold can_msr, LatencyHw_hw. cbn [inak cnt lat]. rewrite Hreq. destruct req; reflexivity. Qed.

Lemma latency_read_pending_S L k :
  can_msr {| lat := L; cnt := S k; inak := negb req |} mcr =
    (msr_of (negb req), {| lat := L; cnt := k; inak := negb req |}).
Proof. unfold can_msr, LatencyHw_hw. cbn [inak cnt lat]. rewrite Hreq. destruct req; reflexivity. Qed.

Lemma latency_polls n L k :
  polls busy mcr {| lat := L; cnt := k; inak := negb req |} n = Nat.min k n /\
  hw_after mcr {| lat := L; cnt := k; inak := negb req |} (S (Nat.min k n)) =
    if (k <=? n)%nat then {| lat := L; cnt := L; inak := req |}
    else {| lat := L; cnt := k - S n; inak := negb req |}.
Proof.
  revert k; induction n as [|n IH]; intros [|k];
    cbn [polls Nat.min hw_after Nat.leb];
    rewrite ?latency_read_pending_0, ?latency_read_pending_S; cbn [fst snd];
    rewrite ?Hbusy_old, ?Hbusy_new; auto.
  - split; [reflexivity| f_equal; lia].
  - destruct (IH k) as [-> IH2]. split; [reflexivity|].
    change (hw_after mcr (snd (can_msr ?h mcr)) ?m) with (hw_after mcr h (S m)).
    rewrite IH2. reflexivity.
Qed.

Lemma latency_read_settled L k :
  can_msr {| lat := L; cnt := k; inak := req |} mcr = (msr_of req, {| lat := L; cnt := L; inak := req |}).
Proof. unfold can_msr, LatencyHw_hw. cbn [inak cnt lat]. rewrite Hreq, eqb_reflx. reflexivity. Qed.

(** One handshake phase of [CAN_Init] against [LatencyHw]: a loop of
    at most [n + 1] reads followed by the check read.  It sees the new
    INAK iff the latency is at most [n + 1]; the hardware is then
    settled. *)
Lemma latency_phase_ok L n :
  let h := {| lat := L; cnt := L; inak := negb req |} in
  let p := polls busy mcr h n in
  (L <= S n)%nat ->
  fst (can_msr (hw_after mcr h (S p)) mcr) = msr_of req /\
  hw_after mcr h (S (S p)) = {| lat := L; cnt := L; inak := req |}.
Proof.
  cbn zeta. intros HL. destruct (latency_polls n L L) as [-> Hh].
  rewrite (hw_after_S mcr _ (S _)), Hh.
  destruct (Nat.leb_spec L n) as [Hle|Hgt].
  - rewrite latency_read_settled. auto.
  - replace (L - S n)%nat with O by lia. rewrite latency_read_pending_0. auto.
Qed.

Lemma latency_phase_late L n :
  let h := {| lat := L; cnt := L; inak := negb req |} in
  let p := polls busy mcr h n in
  (S n < L)%nat ->
  fst (can_msr (hw_after mcr h (S p)) mcr) = msr_of (negb req).
Proof.
  cbn zeta. intros HL. destruct (latency_polls n L L) as [-> Hh]. rewrite Hh.
  destruct (Nat.leb_spec L n) as [Hle|Hgt]; [lia|].
  replace (L - S n)%nat with (S (L - S (S n))) by lia.
  rewrite latency_read_pending_S. reflexivity.
Qed.

End Latency.

Lemma CAN_request_init_INRQ c : Z.testbit (MCR (CAN_request_init c)) 0 = true.
Proof. cbn [CAN_request_init MCR set_MCR]. regs_simpl. apply orb_true_r. Qed.

Lemma CAN_init_image_INRQ i c :
  0 <= MCR c < 2 ^ 32 -> Z.testbit (MCR (CAN_init_image i c)) 0 = false.
Proof.
  intros Hc. rewrite CAN_init_image_MCR_bits by lia. cbn [Z.ltb Z.compare].
  unfold CAN_options_bits. rewrite !Z.lor_spec, !testbit_flag_bit. cbn. btauto.
Qed.

(** C1: (End to end, P4 and P6) Against a controller that acknowledges
    each change of INRQ after [L] reads of MSR, [CAN_Init] succeeds and
    leaves the documented image iff [L <= 0x10000].  Otherwise it fails
    in the first phase with nothing programmed.  The tolerated latency
    is one read more than the 0xFFFF loop iterations, because the check
    of line 215 reads MSR once more after the loop. *)
Theorem CAN_Init_latency c i L :
  0 <= MCR c < 2 ^ 32 ->
  fst (CAN_Init c i (idle_hw L)) =
    if (L <=? S (Z.to_nat INAK_TIMEOUT))%nat
    then (CAN_InitStatus_Success, CAN_init_image i c)
    else (CAN_InitStatus_Failed, CAN_request_init c).
Proof.
  intros Hc. rewrite CAN_Init_phase1. cbn zeta. unfold nth_read, idle_hw.
  pose proof (CAN_request_init_INRQ c) as Hb1.
  destruct (Nat.leb_spec L (S (Z.to_nat INAK_TIMEOUT))) as [HL|HL].
  - destruct (latency_phase_ok (fun m => negb (inak_set m)) _ true Hb1 eq_refl eq_refl
                L (Z.to_nat INAK_TIMEOUT) HL) as [E1 E2].
    cbn [negb] in E1, E2. rewrite E1, E2. cbn [negb inak_set msr_of].
    rewrite (CAN_program_image c i Hc).
    pose proof (CAN_init_image_INRQ i c Hc) as Hb2.
    destruct (latency_phase_ok inak_set _ false Hb2 eq_refl eq_refl
                L (Z.to_nat INAK_TIMEOUT) HL) as [E3 _].
    cbn [negb] in E3. rewrite E3. reflexivity.
  - pose proof (latency_phase_late (fun m => negb (inak_set m)) _ true Hb1 eq_refl eq_refl
                  L (Z.to_nat INAK_TIMEOUT) HL) as E1.
    cbn [negb] in E1. rewrite E1. reflexivity.
Qed.

(** ** [CAN_FilterInit] *)

Definition set_FMR (c : CAN_TypeDef) (v : Z) : CAN_TypeDef :=
  {| MCR := MCR c; BTR := BTR c; FMR := v; FM1R := FM1R c; FS1R := FS1R c;
     FFA1R := FFA1R c; FA1R := FA1R c; sFilterRegister := sFilterRegister c |}.
Definition set_FM1R (c : CAN_TypeDef) (v : Z) : CAN_TypeDef :=
  {| MCR := MCR c; BTR := BTR c; FMR := FMR c; FM1R := v; FS1R := FS1R c;
     FFA1R := FFA1R c; FA1R := FA1R c; sFilterRegister := sFilterRegister c |}.
Definition set_FS1R (c : CAN_TypeDef) (v : Z) : CAN_TypeDef :=
  {| MCR := MCR c; BTR := BTR c; FMR := FMR c; FM1R := FM1R c; FS1R := v;
     FFA1R := FFA1R c; FA1R := FA1R c; sFilterRegister := sFilterRegister c |}.
Definition set_FFA1R (c : CAN_TypeDef) (v : Z) : CAN_TypeDef :=
  {| MCR := MCR c; BTR := BTR c; FMR := FMR c; FM1R := FM1R c; FS1R := FS1R c;
     FFA1R := v; FA1R := FA1R c; sFilterRegister := sFilterRegister c |}.
Definition set_FA1R (c : CAN_TypeDef) (v : Z) : CAN_TypeDef :=
  {| MCR := MCR c; BTR := BTR c; FMR := FMR c; FM1R := FM1R c; FS1R := FS1R c;
     FFA1R := FFA1R c; FA1R := v; sFilterRegister := sFilterRegister c |}.

(** [CAN1->sFilterRegister[n] = r]: the array has 28 banks in the
    device header.  An index out of range is undefined behaviour in C;
    stdpp's list insert leaves the list unchanged there, and every
    theorem below assumes [n < 28]. *)
Definition set_filter (c : CAN_TypeDef) (n : Z) (r : CAN_FilterRegister_TypeDef) : CAN_TypeDef :=
  {| MCR := MCR c; BTR := BTR c; FMR := FMR c; FM1R := FM1R c; FS1R := FS1R c;
     FFA1R := FFA1R c; FA1R := FA1R c;
     sFilterRegister := <[Z.to_nat n := r]> (sFilterRegister c) |}.

(** [filter_number_bit_pos = ((uint32_t)1) << CAN_FilterNumber] (line 316). *)
Definition filter_number_bit_pos (f : CAN_FilterInitTypeDef) : Z :=
  u32 (Z.shiftl 1 (CAN_FilterNumber f)).

(** [(0x0000FFFF & hi) << 16 | (0x0000FFFF & lo)] *)
Definition pack16 (hi lo : Z) : Z :=
  Z.lor (Z.shiftl (Z.land 0xFFFF hi) 16) (Z.land 0xFFFF lo).

(** Lines 316-366: enter filter-init mode, deactivate the bank, and
    program the scale bit and the two bank registers.  The two scale
    tests are separate [if]s: a scale value that is neither 16-bit nor
    32-bit programs neither. *)
Definition CAN_FilterInit_scale (c : CAN_TypeDef) (f : CAN_FilterInitTypeDef) : CAN_TypeDef :=
  let pos := filter_number_bit_pos f in
  let n := CAN_FilterNumber f in
  let c := set_FMR c (set_bits (FMR c) FMR_FINIT) in
  let c := set_FA1R c (clear_bits (FA1R c) pos) in
  let c := if CAN_FilterScale f =? CAN_FilterScale_16bit then
             let c := set_FS1R c (clear_bits (FS1R c) pos) in
             set_filter c n {| FR1 := pack16 (CAN_FilterMaskIdLow f) (CAN_FilterIdLow f);
                               FR2 := pack16 (CAN_FilterMaskIdHigh f) (CAN_FilterIdHigh f) |}
           else c in
  if CAN_FilterScale f =? CAN_FilterScale_32bit then
    let c := set_FS1R c (set_bits (FS1R c) pos) in
    set_filter c n {| FR1 := pack16 (CAN_FilterIdHigh f) (CAN_FilterIdLow f);
                      FR2 := pack16 (CAN_FilterMaskIdHigh f) (CAN_FilterMaskIdLow f) |}
  else c.

(** Line 368 on: the mode bit (lines 369-371 show the id/mask branch),
    the FIFO bit, the activation and the exit from filter-init mode.
    The source excerpt stops at line 371; the rest follows spec 4.2
    steps 4-7. *)
Definition CAN_FilterInit_finish (c : CAN_TypeDef) (f : CAN_FilterInitTypeDef) : CAN_TypeDef :=
  let pos := filter_number_bit_pos f in
  let c := if CAN_FilterMode f =? CAN_FilterMode_IdMask
           then set_FM1R c (clear_bits (FM1R c) pos)
           else set_FM1R c (set_bits (FM1R c) pos) in
  let c := if CAN_FilterFIFOAssignment f =? CAN_Filter_FIFO0
           then set_FFA1R c (clear_bits (FFA1R c) pos)
           else set_FFA1R c (set_bits (FFA1R c) pos) in
  let c := if CAN_FilterActivation f =? ENABLE then set_FA1R c (set_bits (FA1R c) pos) else c in
  set_FMR c (clear_bits (FMR c) FMR_FINIT).

(** [CAN_FilterInit] (line 302). *)
Definition CAN_FilterInit (c : CAN_TypeDef) (f : CAN_FilterInitTypeDef) : CAN_TypeDef :=
  CAN_FilterInit_finish (CAN_FilterInit_scale c f) f.

(** The assert_param checks of lines 306-314 (IS_CAN_FILTER_NUMBER is
    [<= 27] in the F37x header). *)
Definition CAN_FilterInit_params_ok (f : CAN_FilterInitTypeDef) : bool :=
  (0 <=? CAN_FilterNumber f) && (CAN_FilterNumber f <=? 27) &&
  ((CAN_FilterMode f =? CAN_FilterMode_IdMask) || (CAN_FilterMode f =? CAN_FilterMode_IdList)) &&
  ((CAN_FilterScale f =? CAN_FilterScale_16bit) || (CAN_FilterScale f =? CAN_FilterScale_32bit)) &&
  ((CAN_FilterFIFOAssignment f =? CAN_Filter_FIFO0) || (CAN_FilterFIFOAssignment f =? CAN_Filter_FIFO1)) &&
  functional_state_ok (CAN_FilterActivation f).

Lemma set_filter_twice c n r1 r2 :
  set_filter (set_filter c n r1) n r2 = set_filter c n r2.
Proof. unfold set_filter. cbn. rewrite list_insert_insert_eq. reflexivity. Qed.

(** ** [CAN_DeInit] *)

(** The address of the CAN1 register block ([CAN1_BASE] of stm32f37x.h). *)
Definition CAN1 : Z := 0x40006400.

(** [CAN_DeInit]: for the CAN1 pointer, the two calls that pulse its
    reset line on APB1; any other pointer makes no call. *)
Definition CAN_DeInit (CANx : Z) : list Rcc.RCC_Call :=
  if CANx =? CAN1 then
    [Rcc.RCC_APB1PeriphResetCmd Rcc.RCC_APB1Periph_CAN1 ENABLE;
     Rcc.RCC_APB1PeriphResetCmd Rcc.RCC_APB1Periph_CAN1 DISABLE]
  else [].

(** C24: [CAN_DeInit(CAN1)] puts the CAN registers at their reset
    values and releases the CAN1 reset line.  It changes no other reset
    line and no other peripheral's registers.  With any other pointer
    it makes no RCC call, so nothing changes, even a held peripheral. *)
Theorem CAN_DeInit_resets CANx {Regs : Type} (reset s : Regs) h q :
  (forall q', fst (Rcc.periph_run q reset (CAN_DeInit CANx) (h, s)) q' =
              if (CANx =? CAN1) && Rcc.rcc_eqb q' Rcc.RCC_APB1Periph_CAN1 then false else h q') /\
  snd (Rcc.periph_run q reset (CAN_DeInit CANx) (h, s)) =
    if CANx =? CAN1 then
      (if Rcc.rcc_eqb q Rcc.RCC_APB1Periph_CAN1 then reset else if h q then reset else s)
    else s.
Proof.
  unfold CAN_DeInit. destruct (CANx =? CAN1); [|split; reflexivity].
  change [_; _] with (Rcc.pulse Rcc.RCC_APB1Periph_CAN1).
  rewrite Rcc.fst_periph_run, Rcc.pulse_regs.
  split; [intros q'; apply Rcc.pulse_lines | reflexivity].
Qed.

(** ** Well-formedness of the register block *)

(** Every register holds a uint32, and the filter array has its 28
    banks of two uint32 registers each. *)
Definition bank_wf (r : CAN_FilterRegister_TypeDef) : bool := is_u32 (FR1 r) && is_u32 (FR2 r).

Definition CAN_wf (c : CAN_TypeDef) : bool :=
  is_u32 (MCR c) && is_u32 (BTR c) && is_u32 (FMR c) && is_u32 (FM1R c) &&
  is_u32 (FS1R c) && is_u32 (FFA1R c) && is_u32 (FA1R c) &&
  forallb bank_wf (sFilterRegister c) && (length (sFilterRegister c) =? 28)%nat.

Lemma CAN_wf_spec c :
  CAN_wf c = true <->
  is_u32 (MCR c) = true /\ is_u32 (BTR c) = true /\ is_u32 (FMR c) = true /\
  is_u32 (FM1R c) = true /\ is_u32 (FS1R c) = true /\ is_u32 (FFA1R c) = true /\
  is_u32 (FA1R c) = true /\ Forall (fun r => bank_wf r = true) (sFilterRegister c) /\
  length (sFilterRegister c) = 28%nat.
Proof.
  unfold CAN_wf. rewrite !andb_true_iff, forallb_forall, List.Forall_forall, Nat.eqb_eq. tauto.
Qed.

#[local] Hint Extern 3 (0 <= _ < _) =>
  (unfold FMR_FINIT, CAN_MCR_INRQ, CAN_MCR_SLEEP in *; lia) : regs.

(** [is_u32] goals of register expressions, by the range lemmas. *)
Ltac u32_goal := apply is_u32_spec; auto 10 with regs.

(** Register-wise view of [CAN_FilterInit]: each register's final
    value as a function of its initial value. *)
Definition bit_to (b : bool) (r pos : Z) : Z := if b then set_bits r pos else clear_bits r pos.

Definition filter_banks (f : CAN_FilterInitTypeDef) (l : list CAN_FilterRegister_TypeDef)
    : list CAN_FilterRegister_TypeDef :=
  let n := Z.to_nat (CAN_FilterNumber f) in
  if CAN_FilterScale f =? CAN_FilterScale_32bit then
    <[n := {| FR1 := pack16 (CAN_FilterIdHigh f) (CAN_FilterIdLow f);
              FR2 := pack16 (CAN_FilterMaskIdHigh f) (CAN_FilterMaskIdLow f) |}]> l
  else if CAN_FilterScale f =? CAN_FilterScale_16bit then
    <[n := {| FR1 := pack16 (CAN_FilterMaskIdLow f) (CAN_FilterIdLow f);
              FR2 := pack16 (CAN_FilterMaskIdHigh f) (CAN_FilterIdHigh f) |}]> l
  else l.

Definition filter_scale_bit (f : CAN_FilterInitTypeDef) (r pos : Z) : Z :=
  if CAN_FilterScale f =? CAN_FilterScale_32bit then set_bits r pos
  else if CAN_FilterScale f =? CAN_FilterScale_16bit then clear_bits r pos
  else r.

Definition CAN_FilterInit_regs (c : CAN_TypeDef) (f : CAN_FilterInitTypeDef) : CAN_TypeDef :=
  let pos := filter_number_bit_pos f in
  {| MCR := MCR c; BTR := BTR c;
     FMR := clear_bits (set_bits (FMR c) FMR_FINIT) FMR_FINIT;
     FM1R := bit_to (negb (CAN_FilterMode f =? CAN_FilterMode_IdMask)) (FM1R c) pos;
     FS1R := filter_scale_bit f (FS1R c) pos;
     FFA1R := bit_to (negb (CAN_FilterFIFOAssignment f =? CAN_Filter_FIFO0)) (FFA1R c) pos;
     FA1R := if CAN_FilterActivation f =? ENABLE then set_bits (clear_bits (FA1R c) pos) pos
             else clear_bits (FA1R c) pos;
     sFilterRegister := filter_banks f (sFilterRegister c) |}.

(** (Equivalence) The sequential code equals the register-wise view. *)
Lemma CAN_FilterInit_regs_eq c f : CAN_FilterInit c f = CAN_FilterInit_regs c f.
Proof.
  unfold CAN_FilterInit, CAN_FilterInit_finish, CAN_FilterInit_scale, CAN_FilterInit_regs,
    filter_banks, filter_scale_bit, bit_to.
  destruct (CAN_FilterScale f =? CAN_FilterScale_16bit) eqn:E16;
  destruct (CAN_FilterScale f =? CAN_FilterScale_32bit) eqn:E32;
  [unfold CAN_FilterScale_16bit, CAN_FilterScale_32bit in *; lia| | |];
  destruct (CAN_FilterMode f =? CAN_FilterMode_IdMask);
  destruct (CAN_FilterFIFOAssignment f =? CAN_Filter_FIFO0);
  destruct (CAN_FilterActivation f =? ENABLE); reflexivity.
Qed.

Lemma filter_number_bit_pos_range f : 0 <= filter_number_bit_pos f < 2 ^ 32.
Proof. apply u32_range. Qed.

Lemma bit_to_twice b1 b2 r pos :
  0 <= r < 2 ^ 32 -> 0 <= pos < 2 ^ 32 -> bit_to b2 (bit_to b1 r pos) pos = bit_to b2 r pos.
Proof. intros Hr Hp. destruct b1, b2; unfold bit_to; bits32. Qed.

(** C23: (P5, no residue) Reconfiguring a bank gives exactly the registers
    of configuring it once: nothing of the first configuration, such
    as its 16-bit packing or its FIFO or activation bits, survives the
    second.  The second configuration must have a valid scale; with an
    invalid one neither scale branch runs and the old FR1/FR2 stay. *)
Theorem CAN_FilterInit_last_wins c f1 f2 :
  CAN_wf c = true ->
  CAN_FilterNumber f1 = CAN_FilterNumber f2 ->
  (CAN_FilterScale f2 =? CAN_FilterScale_16bit) || (CAN_FilterScale f2 =? CAN_FilterScale_32bit) = true ->
  CAN_FilterInit (CAN_FilterInit c f1) f2 = CAN_FilterInit c f2.
Proof.
  intros Hwf Hn Hs. apply CAN_wf_spec in Hwf.
  destruct Hwf as (HM & HB & HF & HM1 & HS & HFA & HA & Hbanks & Hlen).
  apply is_u32_spec in HF, HM1, HS, HFA, HA.
  rewrite !CAN_FilterInit_regs_eq. unfold CAN_FilterInit_regs. cbn [MCR BTR FMR FM1R FS1R FFA1R FA1R sFilterRegister].
  pose proof (filter_number_bit_pos_range f2) as Hp.
  unfold filter_number_bit_pos in *. rewrite Hn. f_equal.
  - bits32.
  - apply bit_to_twice; assumption.
  - unfold filter_scale_bit. apply orb_true_iff in Hs.
    destruct (CAN_FilterScale f2 =? CAN_FilterScale_32bit) eqn:E32.
    + destruct (CAN_FilterScale f1 =? CAN_FilterScale_32bit), (CAN_FilterScale f1 =? CAN_FilterScale_16bit); bits32.
    + destruct Hs as [E16|E16]; [rewrite E16|congruence].
      destruct (CAN_FilterScale f1 =? CAN_FilterScale_32bit), (CAN_FilterScale f1 =? CAN_FilterScale_16bit); bits32.
  - apply bit_to_twice; assumption.
  - destruct (CAN_FilterActivation f1 =? ENABLE), (CAN_FilterActivation f2 =? ENABLE); bits32.
  - unfold filter_banks. rewrite Hn. apply orb_true_iff in Hs.
    destruct (CAN_FilterScale f2 =? CAN_FilterScale_32bit) eqn:E32.
    + destruct (CAN_FilterScale f1 =? CAN_FilterScale_32bit), (CAN_FilterScale f1 =? CAN_FilterScale_16bit);
        rewrite ?list_insert_insert_eq; reflexivity.
    + destruct Hs as [E16|E16]; [rewrite E16|congruence].
      destruct (CAN_FilterScale f1 =? CAN_FilterScale_32bit), (CAN_FilterScale f1 =? CAN_FilterScale_16bit);
        rewrite ?list_insert_insert_eq; reflexivity.
Qed.

Lemma filter_pos_pow2 f :
  0 <= CAN_FilterNumber f <= 27 -> filter_number_bit_pos f = 2 ^ CAN_FilterNumber f.
Proof.
  intros Hn. unfold filter_number_bit_pos. rewrite Z.shiftl_1_l. apply u32_id.
  split; [apply Z.pow_nonneg; lia|]. apply Z.pow_lt_mono_r; lia.
Qed.

Lemma testbit_pow2 n m : 0 <= n -> 0 <= m -> Z.testbit (2 ^ n) m = (n =? m).
Proof. intros. apply Z.pow2_bits_eqb; lia. Qed.

Lemma testbit_bit_to b r n m :
  0 <= n < 32 -> 0 <= m < 32 ->
  Z.testbit (bit_to b r (2 ^ n)) m = if n =? m then b else Z.testbit r m.
Proof.
  intros Hn Hm. unfold bit_to. destruct b; regs_simpl; rewrite testbit_pow2 by lia;
    destruct (n =? m); btauto.
Qed.

(** C21: (Functional) With parameters that pass the assert_param checks,
    [CAN_FilterInit] leaves filter-init mode (FINIT = 0).  It sets the
    bank's scale, mode, FIFO and activation bits as requested and
    stores the packed identifiers and masks in the bank's FR1/FR2. *)
Theorem CAN_FilterInit_bank c f :
  CAN_wf c = true -> CAN_FilterInit_params_ok f = true ->
  let n := CAN_FilterNumber f in
  let c' := CAN_FilterInit c f in
  Z.testbit (FMR c') 0 = false /\
  Z.testbit (FS1R c') n = (CAN_FilterScale f =? CAN_FilterScale_32bit) /\
  Z.testbit (FM1R c') n = (CAN_FilterMode f =? CAN_FilterMode_IdList) /\
  Z.testbit (FFA1R c') n = (CAN_FilterFIFOAssignment f =? CAN_Filter_FIFO1) /\
  Z.testbit (FA1R c') n = (CAN_FilterActivation f =? ENABLE) /\
  sFilterRegister c' !! Z.to_nat n =
    Some (if CAN_FilterScale f =? CAN_FilterScale_32bit
          then {| FR1 := pack16 (CAN_FilterIdHigh f) (CAN_FilterIdLow f);
                  FR2 := pack16 (CAN_FilterMaskIdHigh f) (CAN_FilterMaskIdLow f) |}
          else {| FR1 := pack16 (CAN_FilterMaskIdLow f) (CAN_FilterIdLow f);
                  FR2 := pack16 (CAN_FilterMaskIdHigh f) (CAN_FilterIdHigh f) |}).
Proof.
  intros Hwf Hok. apply CAN_wf_spec in Hwf.
  destruct Hwf as (_ & _ & _ & _ & _ & _ & _ & _ & Hlen).
  unfold CAN_FilterInit_params_ok, functional_state_ok in Hok.
  rewrite !andb_true_iff, !orb_true_iff, !Z.leb_le, !Z.eqb_eq in Hok.
  destruct Hok as [[[[[Hn0 Hn1] Hmode] Hscale] Hfifo] Hact].
  cbn zeta. rewrite CAN_FilterInit_regs_eq. unfold CAN_FilterInit_regs.
  cbn [MCR BTR FMR FM1R FS1R FFA1R FA1R sFilterRegister].
  rewrite filter_pos_pow2 by lia.
  unfold filter_scale_bit, filter_banks.
  unfold CAN_FilterScale_16bit, CAN_FilterScale_32bit, CAN_FilterMode_IdMask,
    CAN_FilterMode_IdList, CAN_Filter_FIFO0, CAN_Filter_FIFO1, DISABLE, ENABLE in *.
  repeat split.
  - unfold FMR_FINIT. regs_simpl. cbn. btauto.
  - destruct Hscale as [-> | ->]; cbn; regs_simpl; rewrite testbit_pow2, Z.eqb_refl by lia; btauto.
  - rewrite testbit_bit_to, Z.eqb_refl by lia.
    destruct Hmode as [-> | ->]; reflexivity.
  - rewrite testbit_bit_to, Z.eqb_refl by lia.
    destruct Hfifo as [-> | ->]; reflexivity.
  - destruct Hact as [-> | ->]; cbn; regs_simpl; rewrite testbit_pow2, Z.eqb_refl by lia; btauto.
  - destruct Hscale as [-> | ->]; cbn; apply list_lookup_insert_eq; lia.
Qed.

(** C22: (Frame) [CAN_FilterInit] touches no other bank: the bits of every
    other bank in FS1R, FM1R, FFA1R and FA1R keep their values, as do
    every other bank's FR1/FR2 and the MCR and BTR registers. *)
Theorem CAN_FilterInit_frame c f m :
  CAN_FilterInit_params_ok f = true ->
  0 <= m < 32 -> m <> CAN_FilterNumber f ->
  let c' := CAN_FilterInit c f in
  MCR c' = MCR c /\ BTR c' = BTR c /\
  Z.testbit (FS1R c') m = Z.testbit (FS1R c) m /\
  Z.testbit (FM1R c') m = Z.testbit (FM1R c) m /\
  Z.testbit (FFA1R c') m = Z.testbit (FFA1R c) m /\
  Z.testbit (FA1R c') m = Z.testbit (FA1R c) m /\
  sFilterRegister c' !! Z.to_nat m = sFilterRegister c !! Z.to_nat m.
Proof.
  intros Hok Hm Hne.
  unfold CAN_FilterInit_params_ok in Hok. rewrite !andb_true_iff, !Z.leb_le in Hok.
  destruct Hok as [[[[[Hn0 Hn1] _] _] _] _].
  cbn zeta. rewrite CAN_FilterInit_regs_eq. unfold CAN_FilterInit_regs.
  cbn [MCR BTR FMR FM1R FS1R FFA1R FA1R sFilterRegister].
  rewrite filter_pos_pow2 by lia.
  assert (Hb : (CAN_FilterNumber f =? m) = false) by (apply Z.eqb_neq; lia).
  repeat split; try reflexivity.
  - unfold filter_scale_bit.
    destruct (_ =? CAN_FilterScale_32bit); [|destruct (_ =? CAN_FilterScale_16bit)];
      regs_simpl; rewrite ?testbit_pow2, ?Hb by lia; btauto.
  - rewrite testbit_bit_to, Hb by lia. reflexivity.
  - rewrite testbit_bit_to, Hb by lia. reflexivity.
  - destruct (_ =? ENABLE); regs_simpl; rewrite ?testbit_pow2, ?Hb by lia; btauto.
  - unfold filter_banks.
    destruct (_ =? CAN_FilterScale_32bit); [|destruct (_ =? CAN_FilterScale_16bit)];
      rewrite ?list_lookup_insert_ne by lia; reflexivity.
Qed.

Lemma land16_range x : 0 <= Z.land 0xFFFF x < 2 ^ 16.
Proof.
  rewrite Z.land_comm. change 0xFFFF with (Z.ones 16). rewrite Z.land_ones by lia.
  apply Z.mod_pos_bound. lia.
Qed.

Lemma pack16_range hi lo : 0 <= pack16 hi lo < 2 ^ 32.
Proof.
  unfold pack16. pose proof (land16_range hi). pose proof (land16_range lo).
  apply lor_range; [lia| |lia].
  rewrite Z.shiftl_mul_pow2 by lia. lia.
Qed.

Lemma CAN_BTR_value_range i : 0 <= CAN_BTR_value i < 2 ^ 32.
Proof. unfold CAN_BTR_value. repeat apply lor_range; auto with regs; lia. Qed.

Lemma bit_to_range b r pos :
  0 <= r < 2 ^ 32 -> 0 <= pos < 2 ^ 32 -> 0 <= bit_to b r pos < 2 ^ 32.
Proof. intros. unfold bit_to. destruct b; auto with regs. Qed.

#[export] Hint Resolve pack16_range CAN_BTR_value_range bit_to_range filter_number_bit_pos_range : regs.

(** (Invariant) [CAN_FilterInit] preserves well-formedness, for any
    bank number and any parameter values. *)
Theorem CAN_FilterInit_wf c f :
  CAN_wf c = true -> CAN_wf (CAN_FilterInit c f) = true.
Proof.
  intros Hwf. apply CAN_wf_spec in Hwf. apply CAN_wf_spec.
  destruct Hwf as (HM & HB & HF & HM1 & HS & HFA & HA & Hbanks & Hlen).
  apply is_u32_spec in HF, HM1, HS, HFA, HA.
  rewrite CAN_FilterInit_regs_eq. unfold CAN_FilterInit_regs, filter_scale_bit, filter_banks.
  cbn [MCR BTR FMR FM1R FS1R FFA1R FA1R sFilterRegister].
  repeat split; auto; repeat case_match; try u32_goal;
    rewrite ?length_insert; auto;
    apply Forall_insert; auto; unfold bank_wf; cbn;
    rewrite !(proj2 (is_u32_spec _)) by apply pack16_range; reflexivity.
Qed.

(** ** Concrete instances *)

(** Reset values of the register block (reference manual): SLEEP and
    DBF set in MCR, the documented BTR and FMR reset values, 28 cleared
    filter banks. *)
Definition can_reset : CAN_TypeDef :=
  {| MCR := 0x00010002; BTR := 0x01230000; FMR := 0x2A1C0E01; FM1R := 0; FS1R := 0;
     FFA1R := 0; FA1R := 0; sFilterRegister := List.repeat {| FR1 := 0; FR2 := 0 |} 28 |}.

(** The spec's P6 parameters: BS1 = 6tq (code 5), BS2 = 3tq (code 2),
    SJW = 1tq (code 0), prescaler 10, loopback mode, ABOM only. *)
Definition can_example : CAN_InitTypeDef :=
  {| CAN_Prescaler := 10; CAN_Mode := 1; CAN_SJW := 0; CAN_BS1 := 5; CAN_BS2 := 2;
     CAN_TTCM := DISABLE; CAN_ABOM := ENABLE; CAN_AWUM := DISABLE; CAN_NART := DISABLE;
     CAN_RFLM := DISABLE; CAN_TXFP := DISABLE |}.

(** BS1 = 17tq requested as code 16, one past IS_CAN_BS1. *)
Definition can_example_bs16 : CAN_InitTypeDef :=
  {| CAN_Prescaler := 10; CAN_Mode := 1; CAN_SJW := 0; CAN_BS1 := 16; CAN_BS2 := 2;
     CAN_TTCM := DISABLE; CAN_ABOM := ENABLE; CAN_AWUM := DISABLE; CAN_NART := DISABLE;
     CAN_RFLM := DISABLE; CAN_TXFP := DISABLE |}.

Definition can_example_p0 : CAN_InitTypeDef :=
  {| CAN_Prescaler := 0; CAN_Mode := 1; CAN_SJW := 0; CAN_BS1 := 5; CAN_BS2 := 2;
     CAN_TTCM := DISABLE; CAN_ABOM := ENABLE; CAN_AWUM := DISABLE; CAN_NART := DISABLE;
     CAN_RFLM := DISABLE; CAN_TXFP := DISABLE |}.

(** A 32-bit id/mask filter on bank 3 to FIFO 1, and a 16-bit list
    filter on the same bank. *)
Definition filter_example32 : CAN_FilterInitTypeDef :=
  {| CAN_FilterIdHigh := 0x1234; CAN_FilterIdLow := 0x5678; CAN_FilterMaskIdHigh := 0xFFFF;
     CAN_FilterMaskIdLow := 0xFFF8; CAN_FilterFIFOAssignment := CAN_Filter_FIFO1;
     CAN_FilterNumber := 3; CAN_FilterMode := CAN_FilterMode_IdMask;
     CAN_FilterScale := CAN_FilterScale_32bit; CAN_FilterActivation := ENABLE |}.

Definition filter_example16 : CAN_FilterInitTypeDef :=
  {| CAN_FilterIdHigh := 0x0011; CAN_FilterIdLow := 0x0022; CAN_FilterMaskIdHigh := 0x0033;
     CAN_FilterMaskIdLow := 0x0044; CAN_FilterFIFOAssignment := CAN_Filter_FIFO0;
     CAN_FilterNumber := 3; CAN_FilterMode := CAN_FilterMode_IdList;
     CAN_FilterScale := CAN_FilterScale_16bit; CAN_FilterActivation := ENABLE |}.

(** A script whose MSR never shows INAK. *)
Definition never_ack : MsrScript := {| script_pos := 0; script_val := fun _ => 0 |}.

(** ** Witnesses: each theorem applied where its hypotheses hold *)

Lemma CAN_Init_latency_witness :
  fst (CAN_Init can_reset can_example (idle_hw 3)) =
    (CAN_InitStatus_Success, CAN_init_image can_example can_reset).
Proof. exact (CAN_Init_latency can_reset can_example 3 ltac:(cbn; lia)). Defined.

Lemma CAN_Init_no_ack_witness :
  CAN_Init can_reset can_example never_ack =
    (CAN_InitStatus_Failed, CAN_request_init can_reset,
     hw_after (MCR (CAN_request_init can_reset)) never_ack (Z.to_nat INAK_TIMEOUT + 2)).
Proof. apply CAN_Init_no_ack. vm_compute. reflexivity. Defined.

Lemma wait_ack_loop_fuel_irrelevant_witness :
  wait_ack_loop wait_fuel inak_set can_reset 0 never_ack =
    wait_ack_loop (S wait_fuel) inak_set can_reset 0 never_ack /\
  0 <= fst (wait_ack_loop wait_fuel inak_set can_reset 0 never_ack) <= INAK_TIMEOUT.
Proof.
  apply (wait_ack_loop_fuel_irrelevant wait_fuel (S wait_fuel) inak_set can_reset 0 never_ack);
    unfold wait_fuel, INAK_TIMEOUT; lia.
Defined.

Lemma CAN_Init_flags_readback_witness :
  CAN_MCR_flags (MCR (snd (fst (CAN_Init can_reset can_example (idle_hw 3))))) =
    (false, true, false, false, false, false).
Proof.
  destruct (CAN_Init can_reset can_example (idle_hw 3)) as [[st c'] h'] eqn:E.
  assert (Hst : st = CAN_InitStatus_Success) by (vm_compute in E |- *; congruence). subst st.
  exact (proj1 (CAN_Init_flags_readback can_reset can_example (idle_hw 3) c' h'
                  ltac:(cbn; lia) E)).
Defined.

Lemma CAN_BTR_roundtrip_witness :
  CAN_Init_params_ok can_example = true /\
  CAN_BTR_fields (CAN_BTR_value can_example) = (1, 0, 5, 2, 10).
Proof. split; [reflexivity | apply (CAN_BTR_roundtrip can_example); reflexivity]. Defined.

Lemma CAN_BTR_BS1_overflow_witness :
  CAN_BTR_fields (CAN_BTR_value can_example_bs16) = (1, 0, 0, 3, 10).
Proof. apply (CAN_BTR_BS1_overflow can_example_bs16); cbn; first [reflexivity | lia]. Defined.

Lemma CAN_BTR_prescaler0_witness : CAN_BTR_value can_example_p0 = 0xFFFFFFFF.
Proof. apply CAN_BTR_prescaler0. reflexivity. Defined.

Lemma CAN_Init_idempotent_witness :
  let r1 := CAN_Init can_reset can_example (idle_hw 3) in
  let r2 := CAN_Init (snd (fst r1)) can_example (idle_hw 3) in
  snd (fst r2) = snd (fst r1).
Proof.
  cbn zeta.
  destruct (CAN_Init can_reset can_example (idle_hw 3)) as [[st1 c1] h1] eqn:E1.
  assert (Hst1 : st1 = CAN_InitStatus_Success) by (vm_compute in E1 |- *; congruence). subst st1.
  cbn [fst snd].
  destruct (CAN_Init c1 can_example (idle_hw 3)) as [[st2 c2] h2'] eqn:E2.
  assert (Hc1 : c1 = CAN_init_image can_example can_reset) by (vm_compute in E1 |- *; congruence).
  assert (Hst2 : st2 = CAN_InitStatus_Success) by (subst c1; vm_compute in E2 |- *; congruence).
  subst st2. cbn [fst snd].
  exact (CAN_Init_idempotent can_reset can_example (idle_hw 3) c1 h1 (idle_hw 3) c2 h2'
           ltac:(cbn; lia) E1 E2).
Defined.

Lemma CAN_FilterInit_last_wins_witness :
  CAN_FilterInit (CAN_FilterInit can_reset filter_example16) filter_example32 =
    CAN_FilterInit can_reset filter_example32.
Proof. apply CAN_FilterInit_last_wins; reflexivity. Defined.

Lemma CAN_FilterInit_bank_witness :
  Z.testbit (FS1R (CAN_FilterInit can_reset filter_example32)) 3 = true /\
  Z.testbit (FFA1R (CAN_FilterInit can_reset filter_example32)) 3 = true.
Proof.
  destruct (CAN_FilterInit_bank can_reset filter_example32 ltac:(vm_compute; reflexivity)
              ltac:(vm_compute; reflexivity)) as (_ & H1 & _ & H3 & _).
  split; [exact H1 | exact H3].
Defined.

Lemma CAN_FilterInit_frame_witness :
  sFilterRegister (CAN_FilterInit can_reset filter_example32) !! 5%nat =
    sFilterRegister can_reset !! 5%nat.
Proof.
  destruct (CAN_FilterInit_frame can_reset filter_example32 5 ltac:(reflexivity)
              ltac:(lia) ltac:(cbn; lia)) as (_ & _ & _ & _ & _ & _ & H).
  exact H.
Defined.

Lemma CAN_FilterInit_wf_witness :
  CAN_wf (CAN_FilterInit can_reset filter_example16) = true.
Proof. apply CAN_FilterInit_wf. vm_compute. reflexivity. Defined.

End Can.
