(* ===== verification/Tim.v ===== *)
(** * The general-purpose and advanced timers (stm32f30x_tim.c)

    [Module Tim] models every routine with code in
    [src/Libraries/STM32F30x_StdPeriph_Driver/src/stm32f30x_tim.c]:
    [TIM_DeInit] (as the RCC calls it makes, see [Rcc]), the time-base
    unit, the CR1 control setters and the output-compare channel
    initialisation [TIM_OC1Init] to [TIM_OC6Init].
    The register block [TIM_TypeDef] is a Record.  It is a [RegFile]
    for the bus monad of [Bus]: every routine is a [bus] program whose
    trace is the ordered list of register stores.  The timer instance
    [TIMx] is an enumeration, because the code compares the pointer
    with [TIM1], [TIM8], ... to decide which registers exist. *)

From Stdlib Require Import ZArith Lia List Bool Btauto.
From coqutil Require Import Z.bitblast.
From S2P Require Import Prelude.
From S2P Require Import Bus.
From S2P Require Import Rcc.
Import ListNotations.
Open Scope Z_scope.

Module Tim.

(** ** Instances and registers *)

Inductive TIM_Instance :=
  TIM1 | TIM2 | TIM3 | TIM4 | TIM6 | TIM7 | TIM8 | TIM15 | TIM16 | TIM17.

Definition TIM_Instance_eq_dec (a b : TIM_Instance) : {a = b} + {a <> b}.
Proof. decide equality. Defined.

Definition tim_eqb (a b : TIM_Instance) : bool :=
  if TIM_Instance_eq_dec a b then true else false.

(** The registers the modelled routines touch, with the widths of
    the CMSIS declaration ([__IO uint16_t CR1], [__IO uint32_t CR2], ...). *)
Record TIM_TypeDef := mkTIM {
  CR1 : Z; CR2 : Z; CCMR1 : Z; CCMR2 : Z; CCMR3 : Z; CCER : Z;
  CNT : Z; PSC : Z; ARR : Z; RCR : Z; EGR : Z;
  CCR1 : Z; CCR2 : Z; CCR3 : Z; CCR4 : Z; CCR5 : Z; CCR6 : Z
}.

Inductive TIM_Reg :=
  R_CR1 | R_CR2 | R_CCMR1 | R_CCMR2 | R_CCMR3 | R_CCER
| R_CNT | R_PSC | R_ARR | R_RCR | R_EGR
| R_CCR1 | R_CCR2 | R_CCR3 | R_CCR4 | R_CCR5 | R_CCR6.

Definition TIM_Reg_eq_dec (a b : TIM_Reg) : {a = b} + {a <> b}.
Proof. decide equality. Defined.

Definition tim_get (r : TIM_Reg) (t : TIM_TypeDef) : Z :=
  match r with
  | R_CR1 => CR1 t | R_CR2 => CR2 t | R_CCMR1 => CCMR1 t | R_CCMR2 => CCMR2 t
  | R_CCMR3 => CCMR3 t | R_CCER => CCER t | R_CNT => CNT t | R_PSC => PSC t
  | R_ARR => ARR t | R_RCR => RCR t | R_EGR => EGR t | R_CCR1 => CCR1 t
  | R_CCR2 => CCR2 t | R_CCR3 => CCR3 t | R_CCR4 => CCR4 t | R_CCR5 => CCR5 t
  | R_CCR6 => CCR6 t
  end.

Definition tim_set (r : TIM_Reg) (v : Z) (t : TIM_TypeDef) : TIM_TypeDef :=
  let '(mkTIM cr1 cr2 m1 m2 m3 ccer cnt psc arr rcr egr c1 c2 c3 c4 c5 c6) := t in
  match r with
  | R_CR1 => mkTIM v cr2 m1 m2 m3 ccer cnt psc arr rcr egr c1 c2 c3 c4 c5 c6
  | R_CR2 => mkTIM cr1 v m1 m2 m3 ccer cnt psc arr rcr egr c1 c2 c3 c4 c5 c6
  | R_CCMR1 => mkTIM cr1 cr2 v m2 m3 ccer cnt psc arr rcr egr c1 c2 c3 c4 c5 c6
  | R_CCMR2 => mkTIM cr1 cr2 m1 v m3 ccer cnt psc arr rcr egr c1 c2 c3 c4 c5 c6
  | R_CCMR3 => mkTIM cr1 cr2 m1 m2 v ccer cnt psc arr rcr egr c1 c2 c3 c4 c5 c6
  | R_CCER => mkTIM cr1 cr2 m1 m2 m3 v cnt psc arr rcr egr c1 c2 c3 c4 c5 c6
  | R_CNT => mkTIM cr1 cr2 m1 m2 m3 ccer v psc arr rcr egr c1 c2 c3 c4 c5 c6
  | R_PSC => mkTIM cr1 cr2 m1 m2 m3 ccer cnt v arr rcr egr c1 c2 c3 c4 c5 c6
  | R_ARR => mkTIM cr1 cr2 m1 m2 m3 ccer cnt psc v rcr egr c1 c2 c3 c4 c5 c6
  | R_RCR => mkTIM cr1 cr2 m1 m2 m3 ccer cnt psc arr v egr c1 c2 c3 c4 c5 c6
  | R_EGR => mkTIM cr1 cr2 m1 m2 m3 ccer cnt psc arr rcr v c1 c2 c3 c4 c5 c6
  | R_CCR1 => mkTIM cr1 cr2 m1 m2 m3 ccer cnt psc arr rcr egr v c2 c3 c4 c5 c6
  | R_CCR2 => mkTIM cr1 cr2 m1 m2 m3 ccer cnt psc arr rcr egr c1 v c3 c4 c5 c6
  | R_CCR3 => mkTIM cr1 cr2 m1 m2 m3 ccer cnt psc arr rcr egr c1 c2 v c4 c5 c6
  | R_CCR4 => mkTIM cr1 cr2 m1 m2 m3 ccer cnt psc arr rcr egr c1 c2 c3 v c5 c6
  | R_CCR5 => mkTIM cr1 cr2 m1 m2 m3 ccer cnt psc arr rcr egr c1 c2 c3 c4 v c6
  | R_CCR6 => mkTIM cr1 cr2 m1 m2 m3 ccer cnt psc arr rcr egr c1 c2 c3 c4 c5 v
  end.

Definition tim_width (r : TIM_Reg) : Z :=
  match r with
  | R_CR1 | R_PSC | R_RCR | R_EGR => 16
  | _ => 32
  end.

Definition tim_regs : list TIM_Reg :=
  [R_CR1; R_CR2; R_CCMR1; R_CCMR2; R_CCMR3; R_CCER; R_CNT; R_PSC; R_ARR;
   R_RCR; R_EGR; R_CCR1; R_CCR2; R_CCR3; R_CCR4; R_CCR5; R_CCR6].

#[export] Instance TIM_RegFile : RegFile TIM_TypeDef TIM_Reg :=
  { reg_get := tim_get; reg_set := tim_set; reg_width := tim_width; reg_all := tim_regs }.

Abbreviation tim := (bus TIM_TypeDef TIM_Reg).

Local Open Scope bus_scope.

(** ** Header constants (stm32f30x.h, stm32f30x_tim.h) *)

Definition DISABLE := 0.
Definition ENABLE := 1.
Definition TIM_CR1_CEN := 0x0001.
Definition TIM_CR1_UDIS := 0x0002.
Definition TIM_CR1_URS := 0x0004.
Definition TIM_CR1_OPM := 0x0008.
Definition TIM_CR1_DIR := 0x0010.
Definition TIM_CR1_CMS := 0x0060.
Definition TIM_CR1_ARPE := 0x0080.
Definition TIM_CR1_CKD := 0x0300.
Definition TIM_CR1_UIFREMAP := 0x0800.

Definition TIM_CR2_OIS1 := 0x0100.
Definition TIM_CR2_OIS1N := 0x0200.
Definition TIM_CR2_OIS2 := 0x0400.
Definition TIM_CR2_OIS2N := 0x0800.
Definition TIM_CR2_OIS3 := 0x1000.
Definition TIM_CR2_OIS3N := 0x2000.
Definition TIM_CR2_OIS4 := 0x4000.
Definition TIM_CR2_OIS5 := 0x00010000.
Definition TIM_CR2_OIS6 := 0x00040000.

Definition TIM_CCMR1_CC1S := 0x00000003.
Definition TIM_CCMR1_OC1M := 0x00010070.
Definition TIM_CCMR1_CC2S := 0x00000300.
Definition TIM_CCMR1_OC2M := 0x01007000.
Definition TIM_CCMR2_CC3S := 0x00000003.
Definition TIM_CCMR2_OC3M := 0x00010070.
Definition TIM_CCMR2_CC4S := 0x00000300.
Definition TIM_CCMR2_OC4M := 0x01007000.
Definition TIM_CCMR3_OC5M := 0x00010070.
Definition TIM_CCMR3_OC6M := 0x01007000.

Definition TIM_CCER_CC1E := 0x00000001.
Definition TIM_CCER_CC1P := 0x00000002.
Definition TIM_CCER_CC1NE := 0x00000004.
Definition TIM_CCER_CC1NP := 0x00000008.
Definition TIM_CCER_CC2E := 0x00000010.
Definition TIM_CCER_CC2P := 0x00000020.
Definition TIM_CCER_CC2NE := 0x00000040.
Definition TIM_CCER_CC2NP := 0x00000080.
Definition TIM_CCER_CC3E := 0x00000100.
Definition TIM_CCER_CC3P := 0x00000200.
Definition TIM_CCER_CC3NE := 0x00000400.
Definition TIM_CCER_CC3NP := 0x00000800.
Definition TIM_CCER_CC4E := 0x00001000.
Definition TIM_CCER_CC4P := 0x00002000.
Definition TIM_CCER_CC5E := 0x00010000.
Definition TIM_CCER_CC5P := 0x00020000.
Definition TIM_CCER_CC6E := 0x00100000.
Definition TIM_CCER_CC6P := 0x00200000.

Definition TIM_CCR5_GC5C1 := 0x20000000.
Definition TIM_CCR5_GC5C2 := 0x40000000.

Definition TIM_PSCReloadMode_Update := 0x0000.
Definition TIM_PSCReloadMode_Immediate := 0x0001.
Definition TIM_UpdateSource_Global := 0x0000.
Definition TIM_CounterMode_Up := 0x0000.
Definition TIM_CKD_DIV1 := 0x0000.

Definition TIM_OCIdleState_Set := 0x0100.
Definition TIM_OCIdleState_Reset := 0x0000.
Definition TIM_OCNIdleState_Set := 0x0200.
Definition TIM_OCPolarity_Low := 0x0002.
Definition TIM_OCNPolarity_Low := 0x0008.
Definition TIM_OutputState_Enable := 0x0001.
Definition TIM_OutputNState_Enable := 0x0004.

(** [(uint16_t)~m]. *)
Definition bnot16 (m : Z) : Z := u16 (Z.lnot m).

(** [REG &= (uint16_t)~m] on a 16-bit operand. *)
Definition clear16 (r m : Z) : Z := Z.land r (bnot16 m).

(** ** Parameter structures *)

Record TIM_TimeBaseInitTypeDef := {
  TIM_Prescaler : Z;          (* uint16_t *)
  TIM_CounterMode : Z;        (* uint16_t *)
  TIM_Period : Z;             (* uint32_t *)
  TIM_ClockDivision : Z;      (* uint16_t *)
  TIM_RepetitionCounter : Z   (* uint16_t *)
}.

Record TIM_OCInitTypeDef := {
  TIM_OCMode : Z;             (* uint32_t *)
  TIM_OutputState : Z;        (* uint16_t *)
  TIM_OutputNState : Z;       (* uint16_t *)
  TIM_Pulse : Z;              (* uint32_t *)
  TIM_OCPolarity : Z;         (* uint16_t *)
  TIM_OCNPolarity : Z;        (* uint16_t *)
  TIM_OCIdleState : Z;        (* uint16_t *)
  TIM_OCNIdleState : Z        (* uint16_t *)
}.

(** The pointer tests of the routines. *)
Definition has_counter_mode (t : TIM_Instance) : bool :=
  match t with TIM1 | TIM8 | TIM2 | TIM3 | TIM4 => true | _ => false end.

Definition is_basic (t : TIM_Instance) : bool :=
  match t with TIM6 | TIM7 => true | _ => false end.

Definition has_rcr (t : TIM_Instance) : bool :=
  match t with TIM1 | TIM8 | TIM15 | TIM16 | TIM17 => true | _ => false end.

Definition is_advanced (t : TIM_Instance) : bool :=
  match t with TIM1 | TIM8 => true | _ => false end.

(** ** Time base *)

Definition TIM_TimeBaseInit (t : TIM_Instance) (p : TIM_TimeBaseInitTypeDef) : tim unit :=
  tmpcr1 <- rd R_CR1 ;;
  let tmpcr1 :=
    if has_counter_mode t
    then u16 (Z.lor (clear16 tmpcr1 (Z.lor TIM_CR1_DIR TIM_CR1_CMS)) (TIM_CounterMode p))
    else tmpcr1 in
  let tmpcr1 :=
    if negb (is_basic t)
    then u16 (Z.lor (clear16 tmpcr1 TIM_CR1_CKD) (TIM_ClockDivision p))
    else tmpcr1 in
  wr R_CR1 tmpcr1 ;;
  wr R_ARR (TIM_Period p) ;;
  wr R_PSC (TIM_Prescaler p) ;;
  (if has_rcr t then wr R_RCR (TIM_RepetitionCounter p) else ret tt) ;;
  wr R_EGR TIM_PSCReloadMode_Immediate.

Definition TIM_TimeBaseStructInit : TIM_TimeBaseInitTypeDef := {|
  TIM_Period := 0xFFFFFFFF;
  TIM_Prescaler := 0x0000;
  TIM_ClockDivision := TIM_CKD_DIV1;
  TIM_CounterMode := TIM_CounterMode_Up;
  TIM_RepetitionCounter := 0x0000 |}.

Definition TIM_PrescalerConfig (Prescaler TIM_PSCReloadMode : Z) : tim unit :=
  wr R_PSC Prescaler ;;
  wr R_EGR TIM_PSCReloadMode.

Definition TIM_CounterModeConfig (mode : Z) : tim unit :=
  tmpcr1 <- rd R_CR1 ;;
  let tmpcr1 := clear16 tmpcr1 (Z.lor TIM_CR1_DIR TIM_CR1_CMS) in
  let tmpcr1 := u16 (Z.lor tmpcr1 mode) in
  wr R_CR1 tmpcr1.

Definition TIM_SetCounter (Counter : Z) : tim unit := wr R_CNT Counter.

Definition TIM_SetAutoreload (Autoreload : Z) : tim unit := wr R_ARR Autoreload.

Definition TIM_GetCounter : tim Z := rd R_CNT.

Definition TIM_GetPrescaler : tim Z := rd R_PSC.

(** ** CR1 control bits *)

Definition TIM_UpdateDisableConfig (NewState : Z) : tim unit :=
  cr1 <- rd R_CR1 ;;
  if negb (NewState =? DISABLE) then wr R_CR1 (Z.lor cr1 TIM_CR1_UDIS)
  else wr R_CR1 (clear16 cr1 TIM_CR1_UDIS).

Definition TIM_UpdateRequestConfig (TIM_UpdateSource : Z) : tim unit :=
  cr1 <- rd R_CR1 ;;
  if negb (TIM_UpdateSource =? TIM_UpdateSource_Global) then wr R_CR1 (Z.lor cr1 TIM_CR1_URS)
  else wr R_CR1 (clear16 cr1 TIM_CR1_URS).

Definition TIM_UIFRemap (NewState : Z) : tim unit :=
  cr1 <- rd R_CR1 ;;
  if negb (NewState =? DISABLE) then wr R_CR1 (Z.lor cr1 TIM_CR1_UIFREMAP)
  else wr R_CR1 (clear16 cr1 TIM_CR1_UIFREMAP).

Definition TIM_ARRPreloadConfig (NewState : Z) : tim unit :=
  cr1 <- rd R_CR1 ;;
  if negb (NewState =? DISABLE) then wr R_CR1 (Z.lor cr1 TIM_CR1_ARPE)
  else wr R_CR1 (clear16 cr1 TIM_CR1_ARPE).

(** Two compound assignments to the volatile register: two stores. *)
Definition TIM_SelectOnePulseMode (TIM_OPMode : Z) : tim unit :=
  cr1 <- rd R_CR1 ;;
  wr R_CR1 (clear16 cr1 TIM_CR1_OPM) ;;
  cr1 <- rd R_CR1 ;;
  wr R_CR1 (Z.lor cr1 TIM_OPMode).

Definition TIM_SetClockDivision (TIM_CKD : Z) : tim unit :=
  cr1 <- rd R_CR1 ;;
  wr R_CR1 (clear16 cr1 TIM_CR1_CKD) ;;
  cr1 <- rd R_CR1 ;;
  wr R_CR1 (Z.lor cr1 TIM_CKD).

Definition TIM_Cmd (NewState : Z) : tim unit :=
  cr1 <- rd R_CR1 ;;
  if negb (NewState =? DISABLE) then wr R_CR1 (Z.lor cr1 TIM_CR1_CEN)
  else wr R_CR1 (clear16 cr1 TIM_CR1_CEN).

Definition TIM_SelectGC5C1 (NewState : Z) : tim unit :=
  ccr5 <- rd R_CCR5 ;;
  if negb (NewState =? DISABLE) then wr R_CCR5 (set_bits ccr5 TIM_CCR5_GC5C1)
  else wr R_CCR5 (clear_bits ccr5 TIM_CCR5_GC5C1).

Definition TIM_SelectGC5C2 (NewState : Z) : tim unit :=
  ccr5 <- rd R_CCR5 ;;
  if negb (NewState =? DISABLE) then wr R_CCR5 (set_bits ccr5 TIM_CCR5_GC5C2)
  else wr R_CCR5 (clear_bits ccr5 TIM_CCR5_GC5C2).

(** ** Output-compare channels

    Each routine first clears the channel's enable bit in CCER with a
    store of its own.  It then builds CCER, CR2 and CCMRx in locals and
    stores CR2, CCMRx, CCRx and CCER, in that order.  [tmpccer] and
    [tmpcr2] are [uint32_t], and the shifts are cast to [uint32_t],
    except for the idle state of channel 6, which is cast to
    [uint16_t]. *)

Definition oc1_has_n (t : TIM_Instance) : bool :=
  match t with TIM1 | TIM8 | TIM15 | TIM16 | TIM17 => true | _ => false end.

Definition TIM_OC1Init (t : TIM_Instance) (p : TIM_OCInitTypeDef) : tim unit :=
  ccer <- rd R_CCER ;;
  wr R_CCER (clear_bits ccer TIM_CCER_CC1E) ;;
  tmpccer <- rd R_CCER ;;
  tmpcr2 <- rd R_CR2 ;;
  tmpccmrx <- rd R_CCMR1 ;;
  let tmpccmrx := clear_bits (clear_bits tmpccmrx TIM_CCMR1_OC1M) TIM_CCMR1_CC1S in
  let tmpccmrx := set_bits tmpccmrx (TIM_OCMode p) in
  let tmpccer := set_bits (clear_bits tmpccer TIM_CCER_CC1P) (TIM_OCPolarity p) in
  let tmpccer := set_bits tmpccer (TIM_OutputState p) in
  let tmpccer :=
    if oc1_has_n t then
      set_bits (clear_bits (set_bits (clear_bits tmpccer TIM_CCER_CC1NP)
        (TIM_OCNPolarity p)) TIM_CCER_CC1NE) (TIM_OutputNState p)
    else tmpccer in
  let tmpcr2 :=
    if oc1_has_n t then
      set_bits (set_bits (clear_bits (clear_bits tmpcr2 TIM_CR2_OIS1) TIM_CR2_OIS1N)
        (TIM_OCIdleState p)) (TIM_OCNIdleState p)
    else tmpcr2 in
  wr R_CR2 tmpcr2 ;;
  wr R_CCMR1 tmpccmrx ;;
  wr R_CCR1 (TIM_Pulse p) ;;
  wr R_CCER tmpccer.

Definition TIM_OC2Init (t : TIM_Instance) (p : TIM_OCInitTypeDef) : tim unit :=
  ccer <- rd R_CCER ;;
  wr R_CCER (clear_bits ccer TIM_CCER_CC2E) ;;
  tmpccer <- rd R_CCER ;;
  tmpcr2 <- rd R_CR2 ;;
  tmpccmrx <- rd R_CCMR1 ;;
  let tmpccmrx := clear_bits (clear_bits tmpccmrx TIM_CCMR1_OC2M) TIM_CCMR1_CC2S in
  let tmpccmrx := set_bits tmpccmrx (u32 (Z.shiftl (TIM_OCMode p) 8)) in
  let tmpccer := set_bits (clear_bits tmpccer TIM_CCER_CC2P) (u32 (Z.shiftl (TIM_OCPolarity p) 4)) in
  let tmpccer := set_bits tmpccer (u32 (Z.shiftl (TIM_OutputState p) 4)) in
  let tmpccer :=
    if is_advanced t then
      set_bits (clear_bits (set_bits (clear_bits tmpccer TIM_CCER_CC2NP)
        (u32 (Z.shiftl (TIM_OCNPolarity p) 4))) TIM_CCER_CC2NE)
        (u32 (Z.shiftl (TIM_OutputNState p) 4))
    else tmpccer in
  let tmpcr2 :=
    if is_advanced t then
      set_bits (set_bits (clear_bits (clear_bits tmpcr2 TIM_CR2_OIS2) TIM_CR2_OIS2N)
        (u32 (Z.shiftl (TIM_OCIdleState p) 2))) (u32 (Z.shiftl (TIM_OCNIdleState p) 2))
    else tmpcr2 in
  wr R_CR2 tmpcr2 ;;
  wr R_CCMR1 tmpccmrx ;;
  wr R_CCR2 (TIM_Pulse p) ;;
  wr R_CCER tmpccer.

Definition TIM_OC3Init (t : TIM_Instance) (p : TIM_OCInitTypeDef) : tim unit :=
  ccer <- rd R_CCER ;;
  wr R_CCER (clear_bits ccer TIM_CCER_CC3E) ;;
  tmpccer <- rd R_CCER ;;
  tmpcr2 <- rd R_CR2 ;;
  tmpccmrx <- rd R_CCMR2 ;;
  let tmpccmrx := clear_bits (clear_bits tmpccmrx TIM_CCMR2_OC3M) TIM_CCMR2_CC3S in
  let tmpccmrx := set_bits tmpccmrx (TIM_OCMode p) in
  let tmpccer := set_bits (clear_bits tmpccer TIM_CCER_CC3P) (u32 (Z.shiftl (TIM_OCPolarity p) 8)) in
  let tmpccer := set_bits tmpccer (u32 (Z.shiftl (TIM_OutputState p) 8)) in
  let tmpccer :=
    if is_advanced t then
      set_bits (clear_bits (set_bits (clear_bits tmpccer TIM_CCER_CC3NP)
        (u32 (Z.shiftl (TIM_OCNPolarity p) 8))) TIM_CCER_CC3NE)
        (u32 (Z.shiftl (TIM_OutputNState p) 8))
    else tmpccer in
  let tmpcr2 :=
    if is_advanced t then
      set_bits (set_bits (clear_bits (clear_bits tmpcr2 TIM_CR2_OIS3) TIM_CR2_OIS3N)
        (u32 (Z.shiftl (TIM_OCIdleState p) 4))) (u32 (Z.shiftl (TIM_OCNIdleState p) 4))
    else tmpcr2 in
  wr R_CR2 tmpcr2 ;;
  wr R_CCMR2 tmpccmrx ;;
  wr R_CCR3 (TIM_Pulse p) ;;
  wr R_CCER tmpccer.

Definition TIM_OC4Init (t : TIM_Instance) (p : TIM_OCInitTypeDef) : tim unit :=
  ccer <- rd R_CCER ;;
  wr R_CCER (clear_bits ccer TIM_CCER_CC4E) ;;
  tmpccer <- rd R_CCER ;;
  tmpcr2 <- rd R_CR2 ;;
  tmpccmrx <- rd R_CCMR2 ;;
  let tmpccmrx := clear_bits (clear_bits tmpccmrx TIM_CCMR2_OC4M) TIM_CCMR2_CC4S in
  let tmpccmrx := set_bits tmpccmrx (u32 (Z.shiftl (TIM_OCMode p) 8)) in
  let tmpccer := set_bits (clear_bits tmpccer TIM_CCER_CC4P) (u32 (Z.shiftl (TIM_OCPolarity p) 12)) in
  let tmpccer := set_bits tmpccer (u32 (Z.shiftl (TIM_OutputState p) 12)) in
  let tmpcr2 :=
    if is_advanced t then
      set_bits (clear_bits tmpcr2 TIM_CR2_OIS4) (u32 (Z.shiftl (TIM_OCIdleState p) 6))
    else tmpcr2 in
  wr R_CR2 tmpcr2 ;;
  wr R_CCMR2 tmpccmrx ;;
  wr R_CCR4 (TIM_Pulse p) ;;
  wr R_CCER tmpccer.

Definition TIM_OC5Init (t : TIM_Instance) (p : TIM_OCInitTypeDef) : tim unit :=
  ccer <- rd R_CCER ;;
  wr R_CCER (clear_bits ccer TIM_CCER_CC5E) ;;
  tmpccer <- rd R_CCER ;;
  tmpcr2 <- rd R_CR2 ;;
  tmpccmrx <- rd R_CCMR3 ;;
  let tmpccmrx := clear_bits tmpccmrx TIM_CCMR3_OC5M in
  let tmpccmrx := set_bits tmpccmrx (TIM_OCMode p) in
  let tmpccer := set_bits (clear_bits tmpccer TIM_CCER_CC5P) (u32 (Z.shiftl (TIM_OCPolarity p) 16)) in
  let tmpccer := set_bits tmpccer (u32 (Z.shiftl (TIM_OutputState p) 16)) in
  let tmpcr2 :=
    if is_advanced t then
      set_bits (clear_bits tmpcr2 TIM_CR2_OIS5) (u32 (Z.shiftl (TIM_OCIdleState p) 16))
    else tmpcr2 in
  wr R_CR2 tmpcr2 ;;
  wr R_CCMR3 tmpccmrx ;;
  wr R_CCR5 (TIM_Pulse p) ;;
  wr R_CCER tmpccer.

Definition TIM_OC6Init (t : TIM_Instance) (p : TIM_OCInitTypeDef) : tim unit :=
  ccer <- rd R_CCER ;;
  wr R_CCER (clear_bits ccer TIM_CCER_CC6E) ;;
  tmpccer <- rd R_CCER ;;
  tmpcr2 <- rd R_CR2 ;;
  tmpccmrx <- rd R_CCMR3 ;;
  let tmpccmrx := clear_bits tmpccmrx TIM_CCMR3_OC6M in
  let tmpccmrx := set_bits tmpccmrx (u32 (Z.shiftl (TIM_OCMode p) 8)) in
  let tmpccer := set_bits (clear_bits tmpccer TIM_CCER_CC6P) (u32 (Z.shiftl (TIM_OCPolarity p) 20)) in
  let tmpccer := set_bits tmpccer (u32 (Z.shiftl (TIM_OutputState p) 20)) in
  let tmpcr2 :=
    if is_advanced t then
      set_bits (clear_bits tmpcr2 TIM_CR2_OIS6) (u16 (Z.shiftl (TIM_OCIdleState p) 18))
    else tmpcr2 in
  wr R_CR2 tmpcr2 ;;
  wr R_CCMR3 tmpccmrx ;;
  wr R_CCR6 (TIM_Pulse p) ;;
  wr R_CCER tmpccer.

(** ** Parameter checks ([assert_param], stm32f30x_tim.h) *)

Definition IS_TIM_OC_MODE (m : Z) : bool :=
  existsb (Z.eqb m) [0x0000; 0x0010; 0x0020; 0x0030; 0x0060; 0x0070;
                     0x00010000; 0x00010010; 0x00010040; 0x00010050;
                     0x00010060; 0x00010070].
Definition IS_TIM_OUTPUT_STATE (x : Z) : bool := existsb (Z.eqb x) [0x0000; 0x0001].
Definition IS_TIM_OUTPUTN_STATE (x : Z) : bool := existsb (Z.eqb x) [0x0000; 0x0004].
Definition IS_TIM_OC_POLARITY (x : Z) : bool := existsb (Z.eqb x) [0x0000; 0x0002].
Definition IS_TIM_OCN_POLARITY (x : Z) : bool := existsb (Z.eqb x) [0x0000; 0x0008].
Definition IS_TIM_OCIDLE_STATE (x : Z) : bool := existsb (Z.eqb x) [0x0000; 0x0100].
Definition IS_TIM_OCNIDLE_STATE (x : Z) : bool := existsb (Z.eqb x) [0x0000; 0x0200].
Definition IS_TIM_COUNTER_MODE (m : Z) : bool :=
  existsb (Z.eqb m) [0x0000; 0x0010; 0x0020; 0x0040; 0x0060].
Definition IS_TIM_CKD_DIV (x : Z) : bool := existsb (Z.eqb x) [0x0000; 0x0100; 0x0200].
Definition IS_TIM_OPM_MODE (x : Z) : bool := existsb (Z.eqb x) [0x0008; 0x0000].

(** ** The six channels as one family *)

Inductive Channel := Ch1 | Ch2 | Ch3 | Ch4 | Ch5 | Ch6.

Definition TIM_OCInit (ch : Channel) : TIM_Instance -> TIM_OCInitTypeDef -> tim unit :=
  match ch with
  | Ch1 => TIM_OC1Init | Ch2 => TIM_OC2Init | Ch3 => TIM_OC3Init
  | Ch4 => TIM_OC4Init | Ch5 => TIM_OC5Init | Ch6 => TIM_OC6Init
  end.

(** Whether the routine programs the complementary output (the
    [TIMx == TIM1 || ...] tests) and the idle states. *)
Definition oc_has_n (ch : Channel) (t : TIM_Instance) : bool :=
  match ch with Ch1 => oc1_has_n t | Ch2 | Ch3 => is_advanced t | _ => false end.

Definition oc_has_idle (ch : Channel) (t : TIM_Instance) : bool :=
  match ch with Ch1 => oc1_has_n t | _ => is_advanced t end.

(** The [assert_param] checks each routine makes, where it makes them. *)
Definition oc_params_ok (ch : Channel) (t : TIM_Instance) (p : TIM_OCInitTypeDef) : bool :=
  IS_TIM_OC_MODE (TIM_OCMode p) && IS_TIM_OUTPUT_STATE (TIM_OutputState p) &&
  IS_TIM_OC_POLARITY (TIM_OCPolarity p) &&
  (if oc_has_idle ch t then
     IS_TIM_OCIDLE_STATE (TIM_OCIdleState p) &&
     (if oc_has_n ch t then
        IS_TIM_OUTPUTN_STATE (TIM_OutputNState p) && IS_TIM_OCN_POLARITY (TIM_OCNPolarity p) &&
        IS_TIM_OCNIDLE_STATE (TIM_OCNIdleState p)
      else true)
   else true).

(** ** What a channel initialisation is meant to do

    The register layout of the reference manual: channel [k] (from 0)
    owns CCER bits [4k .. 4k+3] (CCxE, CCxP, CCxNE, CCxNP), the output
    idle bits [8+2k] (OISx) and [9+2k] (OISxN) of CR2, and the mode
    field of its CCMR register at offset 0 or 8.  Initialising a channel
    replaces exactly its fields by the requested values. *)

Definition oc_index (ch : Channel) : Z :=
  match ch with Ch1 => 0 | Ch2 => 1 | Ch3 => 2 | Ch4 => 3 | Ch5 => 4 | Ch6 => 5 end.

Definition oc_ccmr (ch : Channel) : TIM_Reg :=
  match ch with Ch1 | Ch2 => R_CCMR1 | Ch3 | Ch4 => R_CCMR2 | _ => R_CCMR3 end.

Definition oc_ccr (ch : Channel) : TIM_Reg :=
  match ch with
  | Ch1 => R_CCR1 | Ch2 => R_CCR2 | Ch3 => R_CCR3
  | Ch4 => R_CCR4 | Ch5 => R_CCR5 | Ch6 => R_CCR6
  end.

Definition oc_mode_shift (ch : Channel) : Z :=
  match ch with Ch1 | Ch3 | Ch5 => 0 | _ => 8 end.

(** OCxM with CCxS; CCMR3 has no CCxS field. *)
Definition oc_mode_mask (ch : Channel) : Z :=
  Z.shiftl (match ch with Ch5 | Ch6 => 0x10070 | _ => 0x10073 end) (oc_mode_shift ch).

Definition oc_spec (ch : Channel) (t : TIM_Instance) (p : TIM_OCInitTypeDef)
    (s : TIM_TypeDef) : TIM_TypeDef :=
  let k := oc_index ch in
  let n := oc_has_n ch t in
  let cr2 :=
    if oc_has_idle ch t then
      ins (CR2 s) (Z.shiftl (if n then 0x300 else 0x100) (2 * k))
        (Z.shiftl (Z.lor (TIM_OCIdleState p) (if n then TIM_OCNIdleState p else 0)) (2 * k))
    else CR2 s in
  let ccmr := ins (tim_get (oc_ccmr ch) s) (oc_mode_mask ch)
                (Z.shiftl (TIM_OCMode p) (oc_mode_shift ch)) in
  let ccer := ins (CCER s) (Z.shiftl (if n then 0xF else 0x3) (4 * k))
    (Z.shiftl (Z.lor (Z.lor (TIM_OCPolarity p) (TIM_OutputState p))
                     (if n then Z.lor (TIM_OCNPolarity p) (TIM_OutputNState p) else 0)) (4 * k)) in
  tim_set R_CCER ccer
    (tim_set (oc_ccr ch) (u32 (TIM_Pulse p))
      (tim_set (oc_ccmr ch) ccmr (tim_set R_CR2 cr2 s))).

(** ** De-initialisation through the RCC *)

(** [TIM_DeInit]: the chain of pointer comparisons, each branch pulsing
    one reset line with the [RCC_APBxPeriphResetCmd] of its bus; a
    pointer that is none of the ten instances makes no call. *)
Definition TIM_DeInit (TIMx : TIM_Instance) : list Rcc.RCC_Call :=
  let apb1 p := [Rcc.RCC_APB1PeriphResetCmd p ENABLE; Rcc.RCC_APB1PeriphResetCmd p DISABLE] in
  let apb2 p := [Rcc.RCC_APB2PeriphResetCmd p ENABLE; Rcc.RCC_APB2PeriphResetCmd p DISABLE] in
  if tim_eqb TIMx TIM1 then apb2 Rcc.RCC_APB2Periph_TIM1
  else if tim_eqb TIMx TIM2 then apb1 Rcc.RCC_APB1Periph_TIM2
  else if tim_eqb TIMx TIM3 then apb1 Rcc.RCC_APB1Periph_TIM3
  else if tim_eqb TIMx TIM4 then apb1 Rcc.RCC_APB1Periph_TIM4
  else if tim_eqb TIMx TIM6 then apb1 Rcc.RCC_APB1Periph_TIM6
  else if tim_eqb TIMx TIM7 then apb1 Rcc.RCC_APB1Periph_TIM7
  else if tim_eqb TIMx TIM8 then apb2 Rcc.RCC_APB2Periph_TIM8
  else if tim_eqb TIMx TIM15 then apb2 Rcc.RCC_APB2Periph_TIM15
  else if tim_eqb TIMx TIM16 then apb2 Rcc.RCC_APB2Periph_TIM16
  else if tim_eqb TIMx TIM17 then apb2 Rcc.RCC_APB2Periph_TIM17
  else [].

(** The reset line of each timer instance (the [RCC_APBxPeriph_TIMx]
    mask of its clock-enable and reset bits). *)
Definition tim_rcc (t : TIM_Instance) : Rcc.RCC_Periph :=
  match t with
  | TIM1 => Rcc.RCC_APB2Periph_TIM1 | TIM2 => Rcc.RCC_APB1Periph_TIM2
  | TIM3 => Rcc.RCC_APB1Periph_TIM3 | TIM4 => Rcc.RCC_APB1Periph_TIM4
  | TIM6 => Rcc.RCC_APB1Periph_TIM6 | TIM7 => Rcc.RCC_APB1Periph_TIM7
  | TIM8 => Rcc.RCC_APB2Periph_TIM8 | TIM15 => Rcc.RCC_APB2Periph_TIM15
  | TIM16 => Rcc.RCC_APB2Periph_TIM16 | TIM17 => Rcc.RCC_APB2Periph_TIM17
  end.

(** * Theorems *)

#[export] Instance TIM_RegFileLaws : RegFileLaws TIM_TypeDef TIM_Reg.
Proof.
  split.
  - exact TIM_Reg_eq_dec.
  - intros [] v []; reflexivity.
  - intros [] [] v [] H; solve [reflexivity | congruence].
  - intros []; cbn; lia.
  - intros []; cbn; tauto.
Qed.

Lemma in_width_fields s : in_width s = true ->
  0 <= CR1 s < 2 ^ 16 /\ 0 <= CR2 s < 2 ^ 32 /\ 0 <= CCMR1 s < 2 ^ 32 /\
  0 <= CCMR2 s < 2 ^ 32 /\ 0 <= CCMR3 s < 2 ^ 32 /\ 0 <= CCER s < 2 ^ 32 /\
  0 <= CCR5 s < 2 ^ 32.
Proof.
  rewrite in_width_spec. intros H.
  repeat split; first [apply (H R_CR1) | apply (H R_CR2) | apply (H R_CCMR1)
    | apply (H R_CCMR2) | apply (H R_CCMR3) | apply (H R_CCER) | apply (H R_CCR5)].
Qed.

(** [oc_masks]: turn the parameter checks into mask equations. *)
Ltac oc_masks :=
  repeat match goal with
  | H : _ && _ = true |- _ => apply andb_true_iff in H as [? ?]
  end;
  repeat match goal with
  | H : IS_TIM_OC_MODE ?x = true |- _ => rewrite (choice_mask _ 0x10070 x H eq_refl); clear H
  | H : IS_TIM_OUTPUT_STATE ?x = true |- _ => rewrite (choice_mask _ 1 x H eq_refl); clear H
  | H : IS_TIM_OUTPUTN_STATE ?x = true |- _ => rewrite (choice_mask _ 4 x H eq_refl); clear H
  | H : IS_TIM_OC_POLARITY ?x = true |- _ => rewrite (choice_mask _ 2 x H eq_refl); clear H
  | H : IS_TIM_OCN_POLARITY ?x = true |- _ => rewrite (choice_mask _ 8 x H eq_refl); clear H
  | H : IS_TIM_OCIDLE_STATE ?x = true |- _ => rewrite (choice_mask _ 0x100 x H eq_refl); clear H
  | H : IS_TIM_OCNIDLE_STATE ?x = true |- _ => rewrite (choice_mask _ 0x200 x H eq_refl); clear H
  end.

(** [tim_run]: execute a bus program on a symbolic register file. *)
Ltac tim_run :=
  cbv [final result trace bind ret rd wr truncate reg_get reg_set reg_width
       TIM_RegFile tim_get tim_set tim_width fst snd
       CR1 CR2 CCMR1 CCMR2 CCMR3 CCER CNT PSC ARR RCR EGR
       CCR1 CCR2 CCR3 CCR4 CCR5 CCR6].

(** C4: For parameters that pass the assert_param checks, TIM_OCxInit
    (x = 1..6) leaves the register file the per-channel specification
    describes: channel x's CCER bits, CCMR mode field, CCRx and (on
    timers with break outputs) OISx/OISxN replaced by the requested
    values, everything else unchanged; channels 5 and 6 only when the
    idle state is Reset on TIM1/TIM8. *)
Theorem TIM_OCInit_refines ch t p s :
  in_width s = true -> oc_params_ok ch t p = true ->
  (ch = Ch5 \/ ch = Ch6 -> is_advanced t = true -> TIM_OCIdleState p = TIM_OCIdleState_Reset) ->
  final (TIM_OCInit ch t p) s = oc_spec ch t p s.
Proof.
  intros Hw Hok Hidle.
  destruct s as [cr1 cr2 m1 m2 m3 ccer cnt psc arr rcr egr c1 c2 c3 c4 c5 c6].
  destruct (in_width_fields _ Hw) as (H1 & H2 & H3 & H4 & H5 & H6 & H7). clear Hw.
  cbn [CR1 CR2 CCMR1 CCMR2 CCMR3 CCER CCR5] in H1, H2, H3, H4, H5, H6, H7.
  destruct ch; cbn [TIM_OCInit] in *;
  unfold TIM_OC1Init, TIM_OC2Init, TIM_OC3Init, TIM_OC4Init, TIM_OC5Init, TIM_OC6Init, oc_params_ok, oc_spec in *;
  destruct p as [mode st nst pulse pol npol idle nidle]; tim_run;
  cbn [TIM_OCMode TIM_OutputState TIM_OutputNState TIM_Pulse TIM_OCPolarity TIM_OCNPolarity TIM_OCIdleState TIM_OCNIdleState
       oc_has_n oc_has_idle oc_index oc_ccmr oc_ccr oc_mode_shift oc_mode_mask] in *;
  [destruct (oc1_has_n t) | destruct (is_advanced t) ..];
  try (rewrite Hidle by auto);
  oc_masks; f_equal; unfold ins; bits_enum.
Qed.


Lemma clear_bits_u32_bit x m k :
  0 <= k < 32 -> Z.testbit m k = true -> Z.testbit (clear_bits x m mod 2 ^ 32) k = false.
Proof.
  intros Hk Hm. rewrite Z.mod_pow2_bits_low by lia.
  rewrite testbit_clear_bits, Hm by lia. apply andb_false_r.
Qed.

(** C25: Every TIM_OCxInit stores CCER, CR2, CCMR, CCRx and CCER in
    that order, its effect is exactly those stores, and after each of
    the first four stores channel x's output-enable bit CCxE is 0. *)
Theorem TIM_OCInit_disabled_while_configured ch t p s :
  let tr := trace (TIM_OCInit ch t p) s in
  map fst tr = [R_CCER; R_CR2; oc_ccmr ch; oc_ccr ch; R_CCER] /\
  final (TIM_OCInit ch t p) s = replay tr s /\
  forall n, (1 <= n <= 4)%nat ->
    Z.testbit (CCER (replay (firstn n tr) s)) (4 * oc_index ch) = false.
Proof.
  destruct s; destruct ch; cbn [TIM_OCInit oc_index oc_ccmr oc_ccr];
  unfold TIM_OC1Init, TIM_OC2Init, TIM_OC3Init, TIM_OC4Init, TIM_OC5Init, TIM_OC6Init, replay;
  tim_run; (split; [reflexivity | split; [reflexivity |]]);
  intros n Hn; (destruct n as [|[|[|[|[|n]]]]]; [lia| | | | | lia]);
  cbn [firstn fold_left fst snd tim_set CCER]; apply clear_bits_u32_bit;
  first [lia | reflexivity].
Qed.

(** C9: On TIM1/TIM8 with idle state Set, TIM_OC5Init clears OIS5 (CR2
    bit 16) and sets CR2 bit 24 instead, because it shifts 0x0100 left
    by 16 instead of 8. *)
Theorem TIM_OC5Init_idle_misplaced t p s :
  in_width s = true -> is_advanced t = true ->
  TIM_OCIdleState p = TIM_OCIdleState_Set ->
  CR2 (final (TIM_OC5Init t p) s) = set_bits (clear_bits (CR2 s) TIM_CR2_OIS5) 0x01000000 /\
  Z.testbit (CR2 (final (TIM_OC5Init t p) s)) 16 = false /\
  Z.testbit (CR2 (final (TIM_OC5Init t p) s)) 24 = true.
Proof.
  intros Hw Ht Hi. destruct s as [cr1 cr2 m1 m2 m3 ccer cnt psc arr rcr egr c1 c2 c3 c4 c5 c6].
  destruct (in_width_fields _ Hw) as (_ & H2 & _). cbn [CR2] in H2 |- *.
  unfold TIM_OC5Init. tim_run. rewrite Ht, Hi.
  assert (E : (set_bits (clear_bits cr2 TIM_CR2_OIS5) (u32 (Z.shiftl TIM_OCIdleState_Set 16))) mod 2 ^ 32
              = set_bits (clear_bits cr2 TIM_CR2_OIS5) 0x01000000) by bits_enum.
  rewrite E. split; [reflexivity|]. split; regs_simpl; norm_bits; btauto.
Qed.

(** C10: For any valid idle state TIM_OC6Init leaves CR2 equal to the
    old CR2 with OIS6 cleared on TIM1/TIM8 (unchanged otherwise): the
    (uint16_t) cast of OCIdleState << 18 is always 0, so OIS6 can
    never be set. *)
Theorem TIM_OC6Init_idle_dropped t p s :
  in_width s = true -> IS_TIM_OCIDLE_STATE (TIM_OCIdleState p) = true ->
  CR2 (final (TIM_OC6Init t p) s) =
    (if is_advanced t then clear_bits (CR2 s) TIM_CR2_OIS6 else CR2 s).
Proof.
  intros Hw Hi. destruct s as [cr1 cr2 m1 m2 m3 ccer cnt psc arr rcr egr c1 c2 c3 c4 c5 c6].
  destruct (in_width_fields _ Hw) as (_ & H2 & _). cbn [CR2] in H2 |- *.
  unfold TIM_OC6Init. tim_run.
  unfold IS_TIM_OCIDLE_STATE in Hi. cbn in Hi.
  destruct (is_advanced t); destruct (Z.eqb_spec (TIM_OCIdleState p) 0) as [->|_];
  [| destruct (Z.eqb_spec (TIM_OCIdleState p) 0x100) as [->|]; [|discriminate] | |]; bits_enum.
Qed.

(** C26: TIM_TimeBaseInit replaces DIR/CMS (only on TIM1/2/3/4/8) and
    CKD (except on TIM6/7) in CR1, writes ARR, PSC, RCR (only on
    TIM1/8/15/16/17) and EGR = UG, and leaves every other register
    unchanged. *)
Theorem TIM_TimeBaseInit_spec t p s :
  in_width s = true ->
  IS_TIM_COUNTER_MODE (TIM_CounterMode p) = true -> IS_TIM_CKD_DIV (TIM_ClockDivision p) = true ->
  let s' := final (TIM_TimeBaseInit t p) s in
  CR1 s' = ins (CR1 s)
             (Z.lor (if has_counter_mode t then 0x70 else 0) (if is_basic t then 0 else 0x300))
             (Z.lor (if has_counter_mode t then TIM_CounterMode p else 0)
                    (if is_basic t then 0 else TIM_ClockDivision p)) /\
  ARR s' = u32 (TIM_Period p) /\ PSC s' = u16 (TIM_Prescaler p) /\
  RCR s' = (if has_rcr t then u16 (TIM_RepetitionCounter p) else RCR s) /\
  EGR s' = TIM_PSCReloadMode_Immediate /\
  (forall r, ~ In r [R_CR1; R_ARR; R_PSC; R_RCR; R_EGR] -> tim_get r s' = tim_get r s).
Proof.
  intros Hw Hm Hc. destruct s as [cr1 cr2 m1 m2 m3 ccer cnt psc arr rcr egr c1 c2 c3 c4 c5 c6].
  destruct (in_width_fields _ Hw) as (H1 & _). cbn [CR1] in H1.
  destruct p as [presc mode period ckd rep]; cbn [TIM_CounterMode TIM_ClockDivision] in *.
  rewrite (choice_mask _ 0x70 mode Hm eq_refl), (choice_mask _ 0x300 ckd Hc eq_refl).
  unfold TIM_TimeBaseInit. cbn [TIM_CounterMode TIM_ClockDivision TIM_Period TIM_Prescaler TIM_RepetitionCounter].
  destruct t; cbn [has_counter_mode is_basic has_rcr negb]; tim_run;
  (split; [unfold ins, clear16, bnot16; bits_enum|]);
  (repeat split); try reflexivity; intros [] Hr; first [reflexivity | exfalso; apply Hr; cbn; tauto].
Qed.

(** Setting or clearing bit [b] of the 16-bit CR1 in one store. *)
Lemma cr1_set_bit (x m b i : Z) :
  m = 2 ^ b -> 0 <= x < 2 ^ 16 -> 0 <= b < 16 -> 0 <= i ->
  Z.testbit (Z.lor x m mod 2 ^ 16) i = (if i =? b then true else Z.testbit x i).
Proof.
  intros -> Hx Hb Hi. destruct (Z.lt_ge_cases i 16) as [Hl|Hh].
  - rewrite Z.mod_pow2_bits_low, Z.lor_spec, Z.pow2_bits_eqb by lia.
    destruct (Z.eqb_spec b i), (Z.eqb_spec i b); subst; try lia; btauto.
  - rewrite Z.mod_pow2_bits_high, (testbit_high x 16 i) by lia.
    destruct (Z.eqb_spec i b); [lia|reflexivity].
Qed.

Lemma cr1_clear_bit (x m b i : Z) :
  m = 2 ^ b -> 0 <= x < 2 ^ 16 -> 0 <= b < 16 -> 0 <= i ->
  Z.testbit (clear16 x m mod 2 ^ 16) i = (if i =? b then false else Z.testbit x i).
Proof.
  intros -> Hx Hb Hi. unfold clear16, bnot16, u16. destruct (Z.lt_ge_cases i 16) as [Hl|Hh].
  - rewrite !Z.mod_pow2_bits_low, Z.land_spec, Z.mod_pow2_bits_low, Z.lnot_spec, Z.pow2_bits_eqb by lia.
    destruct (Z.eqb_spec b i), (Z.eqb_spec i b); subst; try lia; btauto.
  - rewrite Z.mod_pow2_bits_high, (testbit_high x 16 i) by lia.
    destruct (Z.eqb_spec i b); [lia|reflexivity].
Qed.

(** TIM_Cmd, TIM_UpdateDisableConfig, TIM_UpdateRequestConfig,
    TIM_ARRPreloadConfig and TIM_UIFRemap each change only their own
    CR1 bit (CEN, UDIS, URS, ARPE, UIFREMAP), setting it iff the
    argument is nonzero. *)
Theorem TIM_CR1_flag_setters s st i :
  in_width s = true -> 0 <= i ->
  let flag (f : tim unit) (b : Z) :=
    Z.testbit (CR1 (final f s)) i = (if i =? b then negb (st =? DISABLE) else Z.testbit (CR1 s) i) in
  flag (TIM_Cmd st) 0 /\ flag (TIM_UpdateDisableConfig st) 1 /\
  flag (TIM_UpdateRequestConfig st) 2 /\ flag (TIM_ARRPreloadConfig st) 7 /\
  flag (TIM_UIFRemap st) 11.
Proof.
  intros Hw Hi. destruct s as [cr1 cr2 m1 m2 m3 ccer cnt psc arr rcr egr c1 c2 c3 c4 c5 c6].
  destruct (in_width_fields _ Hw) as (H1 & _). cbn [CR1] in H1 |- *.
  unfold TIM_Cmd, TIM_UpdateDisableConfig, TIM_UpdateRequestConfig, TIM_ARRPreloadConfig,
    TIM_UIFRemap, TIM_UpdateSource_Global, DISABLE.
  repeat split; destruct (negb (st =? 0)); tim_run;
  first [eapply cr1_set_bit | eapply cr1_clear_bit]; first [reflexivity | lia].
Qed.

(** For valid arguments TIM_CounterModeConfig,
    TIM_SetClockDivision and TIM_SelectOnePulseMode replace exactly
    the DIR/CMS, CKD and OPM fields of CR1. *)
Theorem TIM_CR1_field_setters s m :
  in_width s = true ->
  (IS_TIM_COUNTER_MODE m = true -> CR1 (final (TIM_CounterModeConfig m) s) = ins (CR1 s) 0x70 m) /\
  (IS_TIM_CKD_DIV m = true -> CR1 (final (TIM_SetClockDivision m) s) = ins (CR1 s) 0x300 m) /\
  (IS_TIM_OPM_MODE m = true -> CR1 (final (TIM_SelectOnePulseMode m) s) = ins (CR1 s) 0x8 m).
Proof.
  intros Hw. destruct s as [cr1 cr2 m1 m2 m3 ccer cnt psc arr rcr egr c1 c2 c3 c4 c5 c6].
  destruct (in_width_fields _ Hw) as (H1 & _). cbn [CR1] in H1 |- *.
  unfold TIM_CounterModeConfig, TIM_SetClockDivision, TIM_SelectOnePulseMode.
  repeat split; intros Hm; tim_run;
  [ rewrite (choice_mask _ 0x70 m Hm eq_refl)
  | rewrite (choice_mask _ 0x300 m Hm eq_refl)
  | rewrite (choice_mask _ 0x8 m Hm eq_refl) ];
  unfold ins, clear16, bnot16; bits_enum.
Qed.

(** Every modelled TIM routine keeps each register within its width:
    16 bits for CR1, PSC, RCR and EGR, 32 bits for the others. *)
Theorem TIM_ops_keep_width :
  (forall ch t p, preserves (fun s => in_width s = true) (TIM_OCInit ch t p)) /\
  (forall t p, preserves (fun s => in_width s = true) (TIM_TimeBaseInit t p)) /\
  (forall a b, preserves (fun s => in_width s = true) (TIM_PrescalerConfig a b)) /\
  (forall m, preserves (fun s => in_width s = true) (TIM_CounterModeConfig m)) /\
  (forall v, preserves (fun s => in_width s = true) (TIM_SetCounter v)) /\
  (forall v, preserves (fun s => in_width s = true) (TIM_SetAutoreload v)) /\
  (forall v, preserves (fun s => in_width s = true) (TIM_UpdateDisableConfig v)) /\
  (forall v, preserves (fun s => in_width s = true) (TIM_UpdateRequestConfig v)) /\
  (forall v, preserves (fun s => in_width s = true) (TIM_UIFRemap v)) /\
  (forall v, preserves (fun s => in_width s = true) (TIM_ARRPreloadConfig v)) /\
  (forall v, preserves (fun s => in_width s = true) (TIM_SelectOnePulseMode v)) /\
  (forall v, preserves (fun s => in_width s = true) (TIM_SetClockDivision v)) /\
  (forall v, preserves (fun s => in_width s = true) (TIM_Cmd v)) /\
  (forall v, preserves (fun s => in_width s = true) (TIM_SelectGC5C1 v)) /\
  (forall v, preserves (fun s => in_width s = true) (TIM_SelectGC5C2 v)).
Proof.
  repeat split; intros; try destruct ch;
  cbv [TIM_OCInit TIM_OC1Init TIM_OC2Init TIM_OC3Init TIM_OC4Init TIM_OC5Init TIM_OC6Init
       TIM_TimeBaseInit TIM_PrescalerConfig TIM_CounterModeConfig TIM_SetCounter TIM_SetAutoreload
       TIM_UpdateDisableConfig TIM_UpdateRequestConfig TIM_UIFRemap TIM_ARRPreloadConfig
       TIM_SelectOnePulseMode TIM_SetClockDivision TIM_Cmd TIM_SelectGC5C1 TIM_SelectGC5C2];
  bus_preserves.
Qed.

Lemma TIM_DeInit_pulse t : TIM_DeInit t = Rcc.pulse (tim_rcc t).
Proof. destruct t; reflexivity. Qed.

(** C27: [TIM_DeInit] on any of the ten timers pulses that timer's own
    reset line on the bus it sits on.  Afterwards the timer's registers
    hold their reset values and its line is released.  Every other
    reset line is as it was, and every other peripheral keeps its
    registers. *)
Theorem TIM_DeInit_resets t {Regs : Type} (reset s : Regs) h q :
  (forall q', fst (Rcc.periph_run q reset (TIM_DeInit t) (h, s)) q' =
              if Rcc.rcc_eqb q' (tim_rcc t) then false else h q') /\
  snd (Rcc.periph_run q reset (TIM_DeInit t) (h, s)) =
    if Rcc.rcc_eqb q (tim_rcc t) then reset else if h q then reset else s.
Proof.
  rewrite TIM_DeInit_pulse, Rcc.fst_periph_run, Rcc.pulse_regs.
  split; [intros q'; apply Rcc.pulse_lines | reflexivity].
Qed.

(** ** Concrete register files and parameters *)

(** TIM1 after reset: every register 0 but the auto-reload 0xFFFF. *)
Definition tim1_reset : TIM_TypeDef := mkTIM 0 0 0 0 0 0 0 0 0xFFFF 0 0 0 0 0 0 0 0.

(** PWM mode 1, both outputs enabled, active low, idle high. *)
Definition pwm1_example : TIM_OCInitTypeDef := {|
  TIM_OCMode := 0x0060; TIM_OutputState := TIM_OutputState_Enable;
  TIM_OutputNState := TIM_OutputNState_Enable; TIM_Pulse := 500;
  TIM_OCPolarity := TIM_OCPolarity_Low; TIM_OCNPolarity := 0;
  TIM_OCIdleState := TIM_OCIdleState_Set; TIM_OCNIdleState := 0 |}.

(** Prescaler 72, center-aligned mode 1, period 1000, CKD/2, RCR 3. *)
Definition timebase_example : TIM_TimeBaseInitTypeDef := {|
  TIM_Prescaler := 71; TIM_CounterMode := 0x0020; TIM_Period := 999;
  TIM_ClockDivision := 0x0100; TIM_RepetitionCounter := 3 |}.


(** ** Witnesses *)

Lemma TIM_OCInit_refines_witness :
  in_width tim1_reset = true /\ oc_params_ok Ch1 TIM1 pwm1_example = true /\
  final (TIM_OCInit Ch1 TIM1 pwm1_example) tim1_reset = oc_spec Ch1 TIM1 pwm1_example tim1_reset.
Proof.
  split; [vm_compute; reflexivity|]. split; [vm_compute; reflexivity|].
  apply TIM_OCInit_refines; [vm_compute; reflexivity | vm_compute; reflexivity |].
  intros [H|H]; discriminate.
Defined.

Lemma TIM_OC5Init_idle_misplaced_witness :
  Z.testbit (CR2 (final (TIM_OC5Init TIM1 pwm1_example) tim1_reset)) 24 = true.
Proof.
  apply (TIM_OC5Init_idle_misplaced TIM1 pwm1_example tim1_reset);
    [vm_compute; reflexivity | reflexivity | reflexivity].
Defined.

Lemma TIM_OC6Init_idle_dropped_witness :
  CR2 (final (TIM_OC6Init TIM8 pwm1_example) tim1_reset) = clear_bits 0 TIM_CR2_OIS6.
Proof.
  apply (TIM_OC6Init_idle_dropped TIM8 pwm1_example tim1_reset);
    vm_compute; reflexivity.
Defined.

Lemma TIM_TimeBaseInit_spec_witness :
  EGR (final (TIM_TimeBaseInit TIM1 timebase_example) tim1_reset) = TIM_PSCReloadMode_Immediate.
Proof.
  apply (TIM_TimeBaseInit_spec TIM1 timebase_example tim1_reset);
    vm_compute; reflexivity.
Defined.

Lemma TIM_CR1_flag_setters_witness :
  Z.testbit (CR1 (final (TIM_Cmd 1) tim1_reset)) 0 = true.
Proof.
  apply (TIM_CR1_flag_setters tim1_reset 1 0); [vm_compute; reflexivity | lia].
Defined.

Lemma TIM_CR1_field_setters_witness :
  CR1 (final (TIM_SetClockDivision 0x0200) tim1_reset) = ins 0 0x300 0x0200.
Proof.
  destruct (TIM_CR1_field_setters tim1_reset 0x0200) as [_ [H _]]; [vm_compute; reflexivity|].
  apply H. vm_compute. reflexivity.
Defined.

End Tim.
