(* ===== verification/MiscLib.v ===== *)
(** * String and memory utilities (misc_lib.c)

    [Module MiscLib] models
    [src/Utilities/STM32_EVAL/STM3210B_EVAL/misc_lib.c].  Memory is a
    list of bytes (each a [Z] in [0, 256)), addressed by [nat].  Address
    0 is [NULL].  A routine is a computation in the option-state monad
    [M]: it reads and writes the memory.  A read or write outside the
    memory is undefined behaviour in C, and the model returns [None].
    [char] is unsigned, as on ARM.  The 12-byte stack buffer [tmp] of
    [DECToASCII] and [HexToASCII] is a local list of length 12.  Storing
    past its end is again [None], so the bound theorems rule overflow
    out.  Loops that walk memory recurse on the memory's length, or on
    fuel that the theorems show is never exhausted. *)

From stdpp Require Import base list.
From Stdlib Require Import ZArith Lia.
From S2P Require Import Prelude.
Open Scope Z_scope.

Module MiscLib.

(** ** Memory and the option-state monad *)

Definition ptr := nat.
Definition NULL : ptr := 0%nat.

Definition M (A : Type) : Type := list Z -> option (A * list Z).

#[export] Instance M_ret : MRet M := fun A a m => Some (a, m).
#[export] Instance M_bind : MBind M := fun A B f x m =>
  match x m with Some (a, m') => f a m' | None => None end.

Definition lift {A} (o : option A) : M A := fun m =>
  match o with Some a => Some (a, m) | None => None end.

(** [*p]. *)
Definition load (p : ptr) : M Z := fun m =>
  match m !! p with Some v => Some (v, m) | None => None end.

(** [*p = v]. *)
Definition store (p : ptr) (v : Z) : M unit := fun m =>
  if decide (p < length m)%nat then Some (tt, <[p:=v]> m) else None.

(** A store into the local array [tmp]. *)
Definition tmp_store (tmp : list Z) (i : nat) (v : Z) : option (list Z) :=
  if decide (i < length tmp)%nat then Some (<[i:=v]> tmp) else None.

(** ** DECToASCII and HexToASCII *)

(** [while (dat) { *stmp++ = dat % 10 + '0'; dat = dat / 10; }] *)
Fixpoint dec_push (fuel : nat) (dat : Z) (tmp : list Z) (stmp : nat) : option (list Z * nat) :=
  match fuel with
  | O => None
  | S f =>
      if dat =? 0 then Some (tmp, stmp)
      else tmp' ← tmp_store tmp stmp (dat mod 10 + 48); dec_push f (dat / 10) tmp' (S stmp)
  end.

(** [i = dat & 0x0f; *stmp++ = i < 10 ? '0' + i : 'a' + i - 0xa; dat >>= 4;] *)
Fixpoint hex_push (fuel : nat) (dat : Z) (tmp : list Z) (stmp : nat) : option (list Z * nat) :=
  match fuel with
  | O => None
  | S f =>
      if dat =? 0 then Some (tmp, stmp)
      else
        let i := Z.land dat 0x0f in
        tmp' ← tmp_store tmp stmp (if i <? 10 then 48 + i else 97 + i - 0xa);
        hex_push f (Z.shiftr dat 4) tmp' (S stmp)
  end.

(** [while ( *(--stmp)) *str++ = *stmp;] *)
Fixpoint copy_back (stmp : nat) (tmp : list Z) (str : ptr) : M ptr :=
  match stmp with
  | O => lift None
  | S k =>
      c ← lift (tmp !! k);
      if c =? 0 then mret str
      else store str c;; copy_back k tmp (S str)
  end.

(** A uint32 has at most 10 decimal and 8 hexadecimal digits; the loop
    needs one more step to see [dat == 0]. *)
Definition dec_fuel : nat := 11.
Definition hex_fuel : nat := 9.

(** The stack buffer [char tmp[12]]; its initial contents are never
    read (the scan stops at the 0 stored in [tmp[0]]). *)
Definition tmp_init : list Z := replicate 12 0.

Definition DECToASCII (dat : Z) (str : ptr) : M ptr :=
  tmp ← lift (tmp_store tmp_init 0 0);
  str ← (if dat =? 0 then store str 48;; mret (S str) else mret str);
  '(tmp, stmp) ← lift (dec_push dec_fuel dat tmp 1);
  str ← copy_back stmp tmp str;
  store str 0;; mret str.

Definition HexToASCII (dat : Z) (str : ptr) : M ptr :=
  tmp ← lift (tmp_store tmp_init 0 0);
  store str 48;; store (S str) 120;;
  let str := (str + 2)%nat in
  str ← (if dat =? 0 then store str 48;; mret (S str) else mret str);
  '(tmp, stmp) ← lift (hex_push hex_fuel dat tmp 1);
  str ← copy_back stmp tmp str;
  store str 0;; mret str.

(** ** Memory routines *)

(** [while ((c--) > 0) *(dst++) = *(src++);]: a forward byte copy, each
    store visible to the later loads. *)
Fixpoint Memcpy_loop (n : nat) (dst src : ptr) : M unit :=
  match n with
  | O => mret tt
  | S n' => v ← load src; store dst v;; Memcpy_loop n' (S dst) (S src)
  end.

Definition Memcpy (destination source : ptr) (c : Z) : M unit :=
  Memcpy_loop (Z.to_nat c) destination source.

(** [while ((num--) > 0) *(p++) = c;] *)
Fixpoint MemSet_loop (n : nat) (p : ptr) (c : Z) : M unit :=
  match n with
  | O => mret tt
  | S n' => store p c;; MemSet_loop n' (S p) c
  end.

Definition MemSet (des : ptr) (c : Z) (num : Z) : M unit := MemSet_loop (Z.to_nat num) des c.

(** [while ( *destion++ != NULL) ; destion--;]: the address of the NUL. *)
Fixpoint find_nul (fuel : nat) (p : ptr) : M ptr :=
  match fuel with
  | O => lift None
  | S f => c ← load p; if c =? 0 then mret p else find_nul f (S p)
  end.

(** [while ( *source != NULL) { *(destion++) = *(source++); }] *)
Fixpoint cat_copy (fuel : nat) (d s : ptr) : M ptr :=
  match fuel with
  | O => lift None
  | S f => c ← load s; if c =? 0 then mret d else store d c;; cat_copy f (S d) (S s)
  end.

(** Both loops advance through memory, so [S (length m)] iterations
    are more than a run that stays inside it can take. *)
Definition StrCat (destion source : ptr) : M ptr := fun m =>
  (if (destion =? NULL)%nat || (source =? NULL)%nat then mret NULL
   else
     d ← find_nul (S (length m)) destion;
     d ← cat_copy (S (length m)) d source;
     store d 0;; mret d) m.

(** ** Read-only scans *)

(** [while ( *(string++)) i++;] over the bytes from [string] on. *)
Fixpoint StrLen_loop (l : list Z) (i : Z) : option Z :=
  match l with
  | [] => None
  | c :: l' => if c =? 0 then Some i else StrLen_loop l' (i + 1)
  end.

Definition StrLen (m : list Z) (string : ptr) : option Z := StrLen_loop (drop string m) 0.

(** [while ( *(string++)) { if ((precision != -1) && (i >= precision)) break; i++; }] *)
Fixpoint StrNLen_loop (l : list Z) (precision i : Z) : option Z :=
  match l with
  | [] => None
  | c :: l' =>
      if c =? 0 then Some i
      else if negb (precision =? -1) && (precision <=? i) then Some i
      else StrNLen_loop l' precision (i + 1)
  end.

Definition StrNLen (m : list Z) (string : ptr) (precision : Z) : option Z :=
  StrNLen_loop (drop string m) precision 0.

(** [for (i = 0; i < len; i++) { if (( *s1 - *s2)) return ( *s1 - *s2); s1++; s2++; }] *)
Fixpoint MemCmp_loop (l1 l2 : list Z) (n : nat) {struct n} : option Z :=
  match n with
  | O => Some 0
  | S n' =>
      match l1, l2 with
      | c1 :: l1', c2 :: l2' => if negb (c1 - c2 =? 0) then Some (c1 - c2) else MemCmp_loop l1' l2' n'
      | _, _ => None
      end
  end.

Definition MemCmp (m : list Z) (str1 str2 : ptr) (len : Z) : option Z :=
  MemCmp_loop (drop str1 m) (drop str2 m) (Z.to_nat len).

(** ** Specification *)

(** The memory after storing the bytes [l] from address [p] on. *)
Fixpoint write_at (m : list Z) (p : nat) (l : list Z) : list Z :=
  match l with [] => m | x :: l' => write_at (<[p:=x]> m) (S p) l' end.

(** The base-[b] digits of [n], least significant first. *)
Fixpoint lsd (b : Z) (fuel : nat) (n : Z) : list Z :=
  match fuel with
  | O => []
  | S f => if n =? 0 then [] else n mod b :: lsd b f (n / b)
  end.

(** The digit-push loop of both conversions, for any base and digit
    character. *)
Fixpoint push_gen (b : Z) (chr : Z -> Z) (fuel : nat) (dat : Z) (tmp : list Z) (stmp : nat)
    : option (list Z * nat) :=
  match fuel with
  | O => None
  | S f => if dat =? 0 then Some (tmp, stmp)
           else tmp' ← tmp_store tmp stmp (chr (dat mod b)); push_gen b chr f (dat / b) tmp' (S stmp)
  end.

(** The character [HexToASCII] stores for a hexadecimal digit. *)
Definition hex_chr (d : Z) : Z := if d <? 10 then 48 + d else 97 + d - 0xa.

(** The value of a decimal string, as [atoi] reads it. *)
Definition dec_value (s : list Z) : Z := fold_left (fun acc c => acc * 10 + (c - 48)) s 0.

(** The value of a lowercase hexadecimal digit character. *)
Definition hex_digit (c : Z) : Z := if c <=? 57 then c - 48 else c - 87.

(** The value of a lowercase hexadecimal string. *)
Definition hex_value (s : list Z) : Z := fold_left (fun acc c => acc * 16 + hex_digit c) s 0.

(** The digits [DECToASCII] and [HexToASCII] write for [dat], most
    significant first ("0" for zero). *)
Definition dec_string (dat : Z) : list Z :=
  if dat =? 0 then [48] else rev (map (fun d => d + 48) (lsd 10 11 dat)).
Definition hex_string (dat : Z) : list Z :=
  if dat =? 0 then [48] else rev (map hex_chr (lsd 16 9 dat)).

(** [s] followed by a NUL is stored at [p]. *)
Definition cstring_at (m : list Z) (p : ptr) (s : list Z) : Prop :=
  Forall (fun c => c <> 0) s /\
  forall k, (k <= length s)%nat -> m !! (p + k)%nat = (s ++ [0]) !! k.

(** * Theorems *)

Lemma length_write_at m p l : length (write_at m p l) = length m.
Proof. revert m p; induction l as [|x l IH]; intros m p; cbn; [done|]. by rewrite IH, length_insert. Qed.

Lemma lookup_write_at m p l j :
  (p + length l <= length m)%nat ->
  write_at m p l !! j = if decide (p <= j < p + length l)%nat then l !! (j - p)%nat else m !! j.
Proof.
  revert m p; induction l as [|x l IH]; intros m p Hl; cbn in *.
  - case_decide; [lia|done].
  - rewrite IH by (rewrite length_insert; lia).
    repeat case_decide; try lia.
    + replace (j - p)%nat with (S (j - S p)) by lia. done.
    + assert (j = p) as -> by lia. rewrite Nat.sub_diag. cbn. apply list_lookup_insert_eq. lia.
    + rewrite list_lookup_insert_ne by lia. done.
Qed.

Lemma dec_push_gen f dat tmp stmp :
  dec_push f dat tmp stmp = push_gen 10 (fun d => d + 48) f dat tmp stmp.
Proof.
  revert dat tmp stmp; induction f as [|f IH]; intros; cbn; [done|].
  destruct (dat =? 0); [done|]. destruct (tmp_store _ _ _); cbn; [apply IH|done].
Qed.

Lemma hex_push_gen f dat tmp stmp : 0 <= dat ->
  hex_push f dat tmp stmp = push_gen 16 hex_chr f dat tmp stmp.
Proof.
  revert dat tmp stmp; induction f as [|f IH]; intros dat tmp stmp Hd; cbn; [done|].
  destruct (dat =? 0); [done|].
  replace (Z.land dat 15) with (dat mod 16)
    by (change 15 with (Z.ones 4); rewrite Z.land_ones by lia; reflexivity).
  rewrite Z.shiftr_div_pow2 by lia. change (2 ^ 4) with 16.
  unfold hex_chr. destruct (tmp_store _ _ _); cbn; [|done].
  apply IH. apply Z.div_pos; lia.
Qed.

Lemma push_gen_S b chr f dat tmp stmp :
  push_gen b chr (S f) dat tmp stmp =
  if dat =? 0 then Some (tmp, stmp)
  else tmp' ← tmp_store tmp stmp (chr (dat mod b)); push_gen b chr f (dat / b) tmp' (S stmp).
Proof. reflexivity. Qed.

Lemma lsd_S b f n : lsd b (S f) n = if n =? 0 then [] else n mod b :: lsd b f (n / b).
Proof. reflexivity. Qed.

Lemma push_gen_spec b chr f dat tmp stmp :
  1 < b -> 0 <= dat < b ^ Z.of_nat f ->
  (stmp + length (lsd b (S f) dat) <= length tmp)%nat ->
  push_gen b chr (S f) dat tmp stmp =
    Some (write_at tmp stmp (map chr (lsd b (S f) dat)), (stmp + length (lsd b (S f) dat))%nat).
Proof.
  revert dat tmp stmp; induction f as [|f IH]; intros dat tmp stmp Hb Hd Hl.
  - cbn in Hd. assert (dat = 0) as -> by lia. cbn. by rewrite Nat.add_0_r.
  - rewrite push_gen_S, !(lsd_S b (S f) dat) in *.
    destruct (Z.eqb_spec dat 0) as [->|Hn]; [cbn; by rewrite Nat.add_0_r|].
    cbn [length map write_at] in Hl |- *.
    unfold tmp_store. rewrite decide_True by lia. cbn [mbind option_bind].
    rewrite IH; [| lia | |].
    + do 2 f_equal. lia.
    + split; [apply Z.div_pos; lia|]. apply Z.div_lt_upper_bound; [lia|].
      rewrite Nat2Z.inj_succ, Z.pow_succ_r in Hd by lia. lia.
    + rewrite length_insert. lia.
Qed.

Lemma store_ok p v m : (p < length m)%nat -> store p v m = Some (tt, <[p:=v]> m).
Proof. intros H. unfold store. by rewrite decide_True. Qed.

Lemma bind_lift_Some {A B} (a : A) (f : A -> M B) m : (lift (Some a) ≫= f) m = f a m.
Proof. reflexivity. Qed.

Lemma bind_store {B} p v (f : unit -> M B) m :
  (p < length m)%nat -> (store p v ≫= f) m = f tt (<[p:=v]> m).
Proof. intros H. unfold store, mbind, M_bind. by rewrite decide_True. Qed.

Lemma run_mret {A} (a : A) m : (mret a : M A) m = Some (a, m).
Proof. reflexivity. Qed.

Lemma write_at_app m p l1 l2 :
  write_at m p (l1 ++ l2) = write_at (write_at m p l1) (p + length l1) l2.
Proof.
  revert m p; induction l1 as [|x l1 IH]; intros m p; cbn; [by rewrite Nat.add_0_r|].
  rewrite IH, Nat.add_succ_r. reflexivity.
Qed.

Lemma copy_back_S k tmp str :
  copy_back (S k) tmp str =
  (c ← lift (tmp !! k); if c =? 0 then mret str else store str c;; copy_back k tmp (S str)).
Proof. reflexivity. Qed.

Lemma copy_back_spec (tmp L : list Z) str m :
  tmp !! 0%nat = Some 0 ->
  (forall j, (j < length L)%nat -> tmp !! S j = L !! j) ->
  Forall (fun c => c <> 0) L ->
  (str + length L <= length m)%nat ->
  copy_back (S (length L)) tmp str m = Some ((str + length L)%nat, write_at m str (rev L)).
Proof.
  revert str m. induction L as [|x L IH] using rev_ind; intros str m H0 HL Hnz Hm.
  - cbn [length]. rewrite copy_back_S, H0, bind_lift_Some. cbn. by rewrite Nat.add_0_r.
  - rewrite length_app in *. cbn [length] in *. rewrite Nat.add_1_r, copy_back_S.
    apply Forall_app in Hnz as [Hnz Hx]. apply Forall_cons_1 in Hx as [Hx _].
    rewrite HL, lookup_app_r, Nat.sub_diag by lia. cbn [lookup list_lookup].
    rewrite bind_lift_Some, (proj2 (Z.eqb_neq _ _) Hx), bind_store by lia. rewrite IH; [| done | | done | rewrite length_insert; lia].
    + rewrite rev_app_distr. cbn. do 2 f_equal. lia.
    + intros j Hj. rewrite HL by lia. rewrite lookup_app_l by lia. done.
Qed.

Lemma lsd_zero b f : lsd b f 0 = [].
Proof. destruct f; reflexivity. Qed.

Lemma lsd_value b f n :
  1 < b -> 0 <= n < b ^ Z.of_nat f -> fold_right (fun d acc => d + b * acc) 0 (lsd b f n) = n.
Proof.
  revert n; induction f as [|f IH]; intros n Hb Hn.
  - cbn in Hn. assert (n = 0) as -> by lia. reflexivity.
  - rewrite lsd_S. destruct (Z.eqb_spec n 0) as [->|Hn0]; [reflexivity|]. cbn [fold_right].
    rewrite IH; [pose proof (Z.div_mod n b); lia | lia |].
    rewrite Nat2Z.inj_succ, Z.pow_succ_r in Hn by lia.
    split; [apply Z.div_pos; lia | apply Z.div_lt_upper_bound; lia].
Qed.

Lemma lsd_digits b f n : 1 < b -> Forall (fun d => 0 <= d < b) (lsd b f n).
Proof.
  revert n; induction f as [|f IH]; intros n Hb; [constructor|].
  rewrite lsd_S. destruct (n =? 0); [constructor|].
  constructor; [apply Z.mod_pos_bound; lia | auto].
Qed.

Lemma lsd_length b f n k :
  1 < b -> 0 <= n < b ^ Z.of_nat k -> (length (lsd b f n) <= k)%nat.
Proof.
  revert n k; induction f as [|f IH]; intros n k Hb Hn; cbn [lsd length]; [lia|].
  destruct (Z.eqb_spec n 0) as [->|Hn0]; cbn [length]; [lia|].
  destruct k as [|k]; [cbn in Hn; lia|].
  rewrite Nat2Z.inj_succ, Z.pow_succ_r in Hn by lia.
  enough (length (lsd b f (n / b)) <= k)%nat by lia.
  apply IH; [lia|]. split; [apply Z.div_pos; lia | apply Z.div_lt_upper_bound; lia].
Qed.

Lemma lsd_last b f n :
  1 < b -> 0 < n < b ^ Z.of_nat f -> lsd b f n <> [] /\ List.last (lsd b f n) 0 <> 0.
Proof.
  revert n; induction f as [|f IH]; intros n Hb Hn; [cbn in Hn; lia|].
  rewrite lsd_S. rewrite (proj2 (Z.eqb_neq n 0)) by lia.
  split; [done|].
  destruct (Z.eqb_spec (n / b) 0) as [Hq|Hq].
  - rewrite Hq, lsd_zero. cbn. pose proof (Z.div_mod n b). lia.
  - rewrite Nat2Z.inj_succ, Z.pow_succ_r in Hn by lia.
    destruct (IH (n / b)) as [Hne Hl]; [lia| |].
    + split; [pose proof (Z.div_pos n b); lia | apply Z.div_lt_upper_bound; lia].
    + destruct (lsd b f (n / b)); [done|]. exact Hl.
Qed.

Lemma hd_rev (l : list Z) : hd 0 (rev l) = List.last l 0.
Proof.
  induction l as [|x l IH] using rev_ind; [done|].
  rewrite rev_app_distr, List.last_last. reflexivity.
Qed.

Lemma fold_left_rev {A B} (f : A -> B -> A) (l : list B) (i : A) :
  fold_left f (rev l) i = fold_right (fun x y => f y x) i l.
Proof.
  transitivity (fold_right (fun x y => f y x) i (rev (rev l))).
  - rewrite List.fold_left_rev_right. reflexivity.
  - by rewrite rev_involutive.
Qed.

Lemma value_rev b (chr dig : Z -> Z) (L : list Z) :
  Forall (fun d => dig (chr d) = d) L ->
  fold_left (fun acc c => acc * b + dig c) (rev (map chr L)) 0 =
  fold_right (fun d acc => d + b * acc) 0 L.
Proof.
  intros HL. rewrite fold_left_rev.
  induction HL as [|d L Hd HL IH]; cbn; [done|]. rewrite IH, Hd. lia.
Qed.

(** The digit emission both conversions share: push the digits into
    [tmp], copy them back reversed, store the NUL. *)

Lemma bind_run {A B} (x : M A) (f : A -> M B) m a m' :
  x m = Some (a, m') -> (x ≫= f) m = f a m'.
Proof. intros H. unfold mbind, M_bind. by rewrite H. Qed.

Lemma emit_digits b chr f dat tmp str m :
  1 < b -> 0 < dat < b ^ Z.of_nat f -> (forall d, 0 <= d < b -> chr d <> 0) ->
  tmp !! 0%nat = Some 0 -> (1 + length (lsd b (S f) dat) <= length tmp)%nat ->
  (str + length (lsd b (S f) dat) < length m)%nat ->
  (('(tmp, stmp) ← lift (push_gen b chr (S f) dat tmp 1);
    str ← copy_back stmp tmp str; store str 0;; mret str) : M ptr) m
  = Some ((str + length (lsd b (S f) dat))%nat,
          write_at m str (rev (map chr (lsd b (S f) dat)) ++ [0])).
Proof.
  intros Hb Hd Hchr H0 Ht Hm.
  assert (Hd' : 0 <= dat < b ^ Z.of_nat f) by lia.
  rewrite (push_gen_spec b chr f dat tmp 1 Hb Hd' Ht), bind_lift_Some. cbn beta iota.
  set (L := lsd b (S f) dat) in *.
  assert (HL : length (map chr L) = length L) by apply length_map.
  change (1 + length L)%nat with (S (length L)). rewrite <- HL.
  erewrite bind_run; [| apply copy_back_spec].
  - rewrite bind_store by (rewrite length_write_at; lia).
    rewrite run_mret, write_at_app, List.length_rev. reflexivity.
  - rewrite lookup_write_at by lia. rewrite decide_False by lia. done.
  - intros j Hj. rewrite lookup_write_at by lia.
    rewrite decide_True by lia. f_equal. lia.
  - apply Forall_map. eapply Forall_impl; [apply lsd_digits; lia|]. intros d Hd0. by apply Hchr.
  - lia.
Qed.

Lemma bind_mret {A B} (a : A) (f : A -> M B) m : (mret a ≫= f) m = f a m.
Proof. reflexivity. Qed.

Lemma tmp_store_init : tmp_store tmp_init 0 0 = Some tmp_init.
Proof. reflexivity. Qed.

Lemma rev_map_hd (chr : Z -> Z) (L : list Z) :
  L <> [] -> hd 0 (rev (map chr L)) = chr (List.last L 0).
Proof.
  intros Hne. destruct (exists_last Hne) as (L' & x & ->).
  rewrite map_app, rev_app_distr, List.last_last. reflexivity.
Qed.

(** The characters and length of the digit strings. *)
Lemma dec_string_chars dat : 0 <= dat < 2 ^ 32 ->
  Forall (fun c => 48 <= c <= 57) (dec_string dat) /\ (1 <= length (dec_string dat) <= 10)%nat.
Proof.
  intros Hd. unfold dec_string. destruct (Z.eqb_spec dat 0) as [->|Hn].
  - split; [repeat constructor; lia | cbn; lia].
  - assert (Hlen : (length (lsd 10 (S 10) dat) <= 10)%nat) by (apply (lsd_length 10 _ _ 10); cbn; lia).
    destruct (lsd_last 10 (S 10) dat) as [Hne _]; [lia | cbn; lia|].
    rewrite List.length_rev, length_map. split.
    + apply Forall_rev, Forall_map. eapply Forall_impl; [apply (lsd_digits 10); lia|].
      intros d Hd0. cbn in *. lia.
    + enough (length (lsd 10 (S 10) dat) <> 0%nat) by lia. rewrite length_zero_iff_nil. exact Hne.
Qed.

Lemma hex_string_chars dat : 0 <= dat < 2 ^ 32 ->
  Forall (fun c => 48 <= c <= 57 \/ 97 <= c <= 102) (hex_string dat) /\
  (1 <= length (hex_string dat) <= 8)%nat.
Proof.
  intros Hd. unfold hex_string. destruct (Z.eqb_spec dat 0) as [->|Hn].
  - split; [repeat constructor; lia | cbn; lia].
  - assert (Hlen : (length (lsd 16 (S 8) dat) <= 8)%nat) by (apply (lsd_length 16 _ _ 8); cbn; lia).
    destruct (lsd_last 16 (S 8) dat) as [Hne _]; [lia | cbn; lia|].
    rewrite List.length_rev, length_map. split.
    + apply Forall_rev, Forall_map. eapply Forall_impl; [apply (lsd_digits 16); lia|].
      intros d Hd0. cbn in *. unfold hex_chr. destruct (Z.ltb_spec d 10); lia.
    + enough (length (lsd 16 (S 8) dat) <> 0%nat) by lia. rewrite length_zero_iff_nil. exact Hne.
Qed.

Lemma DECToASCII_exact dat str m :
  0 <= dat < 2 ^ 32 -> (str + 11 <= length m)%nat ->
  DECToASCII dat str m =
    Some ((str + length (dec_string dat))%nat, write_at m str (dec_string dat ++ [0])).
Proof.
  intros Hd Hm. unfold DECToASCII, dec_string. rewrite tmp_store_init, bind_lift_Some.
  destruct (Z.eqb_spec dat 0) as [->|Hn].
  - erewrite bind_run; [| rewrite bind_store by lia; reflexivity].
    replace (dec_push dec_fuel 0 tmp_init 1) with (Some (tmp_init, 1%nat)) by reflexivity.
    rewrite bind_lift_Some. cbn beta iota.
    erewrite bind_run; [| reflexivity].
    rewrite bind_store by (rewrite length_insert; lia). rewrite run_mret.
    cbn. by rewrite Nat.add_1_r.
  - rewrite bind_mret, dec_push_gen.
    assert (Hlen : (length (lsd 10 (S 10) dat) <= 10)%nat) by (apply (lsd_length 10 _ _ 10); cbn; lia).
    rewrite List.length_rev, length_map.
    rewrite (emit_digits 10 (fun d => d + 48) 10); [reflexivity | lia | cbn; lia | intros; lia | reflexivity
      | change (length tmp_init) with 12%nat; lia | lia].
Qed.

(** C28: For every uint32 value and an 11-byte output buffer,
    DECToASCII writes 1 to 10 ASCII decimal digits without a leading
    zero followed by a NUL, returns the address of that NUL, and the
    digits read back (atoi-style) to the value; the 12-byte stack
    buffer never overflows. *)
Theorem DECToASCII_roundtrip dat str m :
  0 <= dat < 2 ^ 32 -> (str + 11 <= length m)%nat ->
  exists s, DECToASCII dat str m = Some ((str + length s)%nat, write_at m str (s ++ [0])) /\
    dec_value s = dat /\ Forall (fun c => 48 <= c <= 57) s /\ (1 <= length s <= 10)%nat /\
    (dat <> 0 -> hd 0 s <> 48).
Proof.
  intros Hd Hm. exists (dec_string dat). split; [apply DECToASCII_exact; lia|].
  destruct (dec_string_chars dat Hd) as [Hc Hl]. split; [|split; [exact Hc|split; [exact Hl|]]];
    unfold dec_string; destruct (Z.eqb_spec dat 0) as [->|Hn]; try done.
  - destruct (lsd_last 10 (S 10) dat) as [Hne Hlast]; [lia | cbn; lia|].
    unfold dec_value. rewrite (value_rev 10 (fun d => d + 48) (fun c => c - 48)).
    + apply lsd_value; cbn; lia.
    + apply Forall_forall. intros d _. lia.
  - destruct (lsd_last 10 (S 10) dat) as [Hne Hlast]; [lia | cbn; lia|].
    intros _. rewrite rev_map_hd by done. cbv beta. lia.
Qed.

Lemma HexToASCII_exact dat str m :
  0 <= dat < 2 ^ 32 -> (str + 11 <= length m)%nat ->
  HexToASCII dat str m =
    Some ((str + 2 + length (hex_string dat))%nat, write_at m str ([48; 120] ++ hex_string dat ++ [0])).
Proof.
  intros Hd Hm. unfold HexToASCII, hex_string. rewrite tmp_store_init, bind_lift_Some.
  rewrite bind_store by lia. rewrite bind_store by (rewrite length_insert; lia).
  replace (str + 2)%nat with (S (S str)) by lia.
  set (m1 := <[S str:=120]> (<[str:=48]> m)).
  assert (Hm1 : length m1 = length m) by (unfold m1; rewrite !length_insert; done).
  destruct (Z.eqb_spec dat 0) as [->|Hn].
  - erewrite bind_run; [| rewrite bind_store by lia; reflexivity].
    replace (hex_push hex_fuel 0 tmp_init 1) with (Some (tmp_init, 1%nat)) by reflexivity.
    rewrite bind_lift_Some. cbn beta iota.
    erewrite bind_run; [| reflexivity].
    rewrite bind_store by (rewrite length_insert; lia). rewrite run_mret.
    cbn. do 3 f_equal. lia.
  - rewrite bind_mret, hex_push_gen by lia.
    assert (Hlen : (length (lsd 16 (S 8) dat) <= 8)%nat) by (apply (lsd_length 16 _ _ 8); cbn; lia).
    rewrite List.length_rev, length_map.
    rewrite (emit_digits 16 hex_chr 8);
      [| lia | cbn; lia | intros d Hd0; unfold hex_chr; destruct (Z.ltb_spec d 10); lia
       | reflexivity | change (length tmp_init) with 12%nat; lia | lia].
    cbn [write_at app]. fold m1. do 2 f_equal.
Qed.

(** C29: For every uint32 value and an 11-byte output buffer,
    HexToASCII writes "0x", 1 to 8 lowercase hex digits without a
    leading zero and a NUL, returns the address of the NUL, and the
    digits read back to the value. *)
Theorem HexToASCII_roundtrip dat str m :
  0 <= dat < 2 ^ 32 -> (str + 11 <= length m)%nat ->
  exists s, HexToASCII dat str m =
      Some ((str + 2 + length s)%nat, write_at m str ([48; 120] ++ s ++ [0])) /\
    hex_value s = dat /\ Forall (fun c => 48 <= c <= 57 \/ 97 <= c <= 102) s /\
    (1 <= length s <= 8)%nat /\ (dat <> 0 -> hd 0 s <> 48).
Proof.
  intros Hd Hm. exists (hex_string dat). split; [apply HexToASCII_exact; lia|].
  destruct (hex_string_chars dat Hd) as [Hc Hl]. split; [|split; [exact Hc|split; [exact Hl|]]];
    unfold hex_string; destruct (Z.eqb_spec dat 0) as [->|Hn]; try done.
  - unfold hex_value. rewrite (value_rev 16 hex_chr hex_digit).
    + apply lsd_value; cbn; lia.
    + eapply Forall_impl; [apply (lsd_digits 16); lia|]. intros d Hd0. cbn in Hd0.
      unfold hex_digit, hex_chr.
      destruct (Z.ltb_spec d 10);
        [rewrite (proj2 (Z.leb_le _ _)) by lia | rewrite (proj2 (Z.leb_gt _ _)) by lia]; lia.
  - destruct (lsd_last 16 (S 8) dat) as [Hne Hlast]; [lia | cbn; lia|].
    intros _. rewrite rev_map_hd by done. unfold hex_chr. destruct (Z.ltb_spec (List.last (lsd 16 (S 8) dat) 0) 10); lia.
Qed.

Lemma bind_load {B} p v (f : Z -> M B) m : m !! p = Some v -> (load p ≫= f) m = f v m.
Proof. intros H. unfold load, mbind, M_bind. by rewrite H. Qed.

(** Reading [n] bytes from [src] in a memory after a store outside them. *)

Lemma take_drop_insert_out n k j v (m : list Z) :
  (j < k \/ k + n <= j)%nat -> take n (drop k (<[j:=v]> m)) = take n (drop k m).
Proof.
  intros Hj. apply list_eq. intros i.
  destruct (decide (i < n)%nat).
  - rewrite !lookup_take_lt, !lookup_drop by lia. rewrite list_lookup_insert_ne by lia. done.
  - rewrite !lookup_take_ge by lia. done.
Qed.

(** For non-overlapping in-bounds regions Memcpy copies exactly c
    bytes from source to destination and changes nothing else; a non-
    positive count copies nothing. *)
Theorem Memcpy_spec dst src c m :
  (dst + Z.to_nat c <= length m)%nat -> (src + Z.to_nat c <= length m)%nat ->
  (dst + Z.to_nat c <= src \/ src + Z.to_nat c <= dst)%nat ->
  Memcpy dst src c m = Some (tt, write_at m dst (take (Z.to_nat c) (drop src m))).
Proof.
  unfold Memcpy. generalize (Z.to_nat c) as n. clear c.
  intros n; revert dst src m; induction n as [|n IH]; intros dst src m Hd Hs Hov; [done|].
  cbn [Memcpy_loop]. destruct (lookup_lt_is_Some_2 m src) as [v Hv]; [lia|].
  rewrite (bind_load src v _ m Hv). rewrite bind_store by lia.
  rewrite IH by (rewrite ?length_insert; lia).
  rewrite take_drop_insert_out by lia.
  rewrite (drop_S m v src Hv). reflexivity.
Qed.

(** C31: Memcpy(src+1, src, n) copies forward byte by byte, so it
    fills the n bytes after src with the byte at src instead of moving
    the block. *)
Theorem Memcpy_overlap_smear src n x m :
  m !! src = Some x -> (S src + n <= length m)%nat ->
  Memcpy (S src) src (Z.of_nat n) m = Some (tt, write_at m (S src) (replicate n x)).
Proof.
  unfold Memcpy. rewrite Nat2Z.id. revert src m; induction n as [|n IH]; intros src m Hx Hl; [done|].
  cbn [Memcpy_loop]. rewrite (bind_load src x _ m Hx), bind_store by lia.
  rewrite IH; [reflexivity | | rewrite length_insert; lia].
  apply list_lookup_insert_eq. lia.
Qed.

(** MemSet stores the byte c into the num bytes from des (none
    when num <= 0) and changes nothing else. *)
Theorem MemSet_spec des c num m :
  (des + Z.to_nat num <= length m)%nat ->
  MemSet des c num m = Some (tt, write_at m des (replicate (Z.to_nat num) c)).
Proof.
  unfold MemSet. generalize (Z.to_nat num) as n. clear num.
  intros n; revert des m; induction n as [|n IH]; intros des m Hl; [done|].
  cbn [MemSet_loop]. rewrite bind_store by lia. rewrite IH by (rewrite length_insert; lia).
  reflexivity.
Qed.

Lemma cstring_at_drop m p s :
  cstring_at m p s -> forall k, (k <= length s)%nat -> drop p m !! k = (s ++ [0]) !! k.
Proof. intros [_ H] k Hk. rewrite lookup_drop. auto. Qed.

Lemma StrLen_loop_spec l s i :
  Forall (fun c => c <> 0) s -> (forall k, (k <= length s)%nat -> l !! k = (s ++ [0]) !! k) ->
  StrLen_loop l i = Some (i + Z.of_nat (length s)).
Proof.
  revert l i; induction s as [|c s IH]; intros l i Hs Hl.
  - destruct l as [|c l]; [specialize (Hl 0%nat); cbn in Hl; discriminate (Hl ltac:(lia))|].
    specialize (Hl 0%nat ltac:(lia)). cbn in Hl. injection Hl as ->. cbn. f_equal; lia.
  - apply Forall_cons_1 in Hs as [Hc Hs].
    destruct l as [|c' l]; [specialize (Hl 0%nat); cbn in Hl; discriminate (Hl ltac:(lia))|].
    pose proof (Hl 0%nat ltac:(lia)) as H0. cbn in H0. injection H0 as ->.
    cbn. rewrite (proj2 (Z.eqb_neq _ _) Hc). rewrite IH; [f_equal; lia | done |].
    intros k Hk. apply (Hl (S k)). cbn. lia.
Qed.

Lemma StrLen_loop_none l i : Forall (fun c => c <> 0) l -> StrLen_loop l i = None.
Proof.
  revert i; induction l as [|c l IH]; intros i Hl; [done|].
  apply Forall_cons_1 in Hl as [Hc Hl]. cbn. rewrite (proj2 (Z.eqb_neq _ _) Hc). auto.
Qed.

(** C33: StrLen returns the length of the C string at its argument;
    when no NUL follows inside memory the scan runs off the end
    (undefined behaviour, None in the model). *)
Theorem StrLen_spec m p :
  (forall s, cstring_at m p s -> StrLen m p = Some (Z.of_nat (length s))) /\
  (Forall (fun c => c <> 0) (drop p m) -> StrLen m p = None).
Proof.
  split.
  - intros s Hs. unfold StrLen. rewrite (StrLen_loop_spec _ s); [done | apply Hs |].
    apply cstring_at_drop, Hs.
  - intros H. by apply StrLen_loop_none.
Qed.

Lemma StrNLen_loop_spec l s prec i :
  0 <= i -> Forall (fun c => c <> 0) s -> (forall k, (k <= length s)%nat -> l !! k = (s ++ [0]) !! k) ->
  StrNLen_loop l prec i =
    Some (if prec =? -1 then i + Z.of_nat (length s) else Z.min (i + Z.of_nat (length s)) (Z.max prec i)).
Proof.
  revert l i; induction s as [|c s IH]; intros l i Hi Hs Hl.
  - destruct l as [|c l]; [specialize (Hl 0%nat); cbn in Hl; discriminate (Hl ltac:(lia))|].
    specialize (Hl 0%nat ltac:(lia)). cbn in Hl. injection Hl as ->. cbn.
    f_equal. destruct (prec =? -1); lia.
  - apply Forall_cons_1 in Hs as [Hc Hs].
    destruct l as [|c' l]; [specialize (Hl 0%nat); cbn in Hl; discriminate (Hl ltac:(lia))|].
    pose proof (Hl 0%nat ltac:(lia)) as H0. cbn in H0. injection H0 as ->.
    cbn [StrNLen_loop]. rewrite (proj2 (Z.eqb_neq _ _) Hc). cbn [length].
    destruct (prec =? -1) eqn:Hp; cbn [negb andb].
    + rewrite IH; [f_equal; lia | lia | done |].
      intros k Hk. apply (Hl (S k)). cbn. lia.
    + destruct (Z.leb_spec prec i).
      * f_equal. lia.
      * rewrite IH; [| lia | done |].
        -- f_equal. lia.
        -- intros k Hk. apply (Hl (S k)). cbn. lia.
Qed.

(** C34: StrNLen returns the string length when precision is -1 and
    min(length, max(precision, 0)) otherwise, so any other negative
    precision gives 0. *)
Theorem StrNLen_spec m p s precision :
  cstring_at m p s ->
  StrNLen m p precision =
    Some (if precision =? -1 then Z.of_nat (length s)
          else Z.min (Z.of_nat (length s)) (Z.max precision 0)).
Proof.
  intros Hs. unfold StrNLen. rewrite (StrNLen_loop_spec _ s); [| lia | apply Hs | apply cstring_at_drop, Hs].
  done.
Qed.

Lemma MemCmp_loop_spec l1 l2 n :
  (n <= length l1)%nat -> (n <= length l2)%nat ->
  exists r, MemCmp_loop l1 l2 n = Some r /\ MemCmp_loop l2 l1 n = Some (- r) /\
    (r = 0 <-> take n l1 = take n l2) /\
    (r <> 0 -> exists k c1 c2, (k < n)%nat /\ take k l1 = take k l2 /\
       l1 !! k = Some c1 /\ l2 !! k = Some c2 /\ r = c1 - c2).
Proof.
  revert l1 l2; induction n as [|n IH]; intros l1 l2 H1 H2.
  - exists 0. split; [reflexivity|]. split; [reflexivity|]. split; [cbn; tauto|]. intros H; lia.
  - destruct l1 as [|c1 l1], l2 as [|c2 l2]; cbn in H1, H2; try lia.
    cbn [MemCmp_loop take].
    destruct (Z.eqb_spec (c1 - c2) 0) as [Heq|Hne]; cbn [negb].
    + destruct (IH l1 l2) as (r & Hr & Hr' & Hiff & Hk); [lia | lia |].
      exists r. rewrite (proj2 (Z.eqb_eq (c2 - c1) 0)) by lia. cbn [negb].
      split; [done|]. split; [done|]. split.
      * rewrite Hiff. assert (c1 = c2) as -> by lia. split; [intros ->|intros H; injection H]; done.
      * intros Hr0. destruct (Hk Hr0) as (k & d1 & d2 & Hkn & Ht & Hd1 & Hd2 & ->).
        exists (S k), d1, d2. cbn. assert (c1 = c2) as -> by lia.
        repeat split; try done; [lia | by rewrite Ht].
    + exists (c1 - c2). rewrite (proj2 (Z.eqb_neq (c2 - c1) 0)) by lia. cbn [negb].
      split; [done|]. split; [f_equal; lia|]. split.
      * split; [lia | intros H; injection H; lia].
      * intros _. exists 0%nat, c1, c2. repeat split; [lia].
Qed.

(** C32: For in-bounds operands MemCmp returns 0 iff the first len
    bytes agree, otherwise the difference of the first differing
    bytes, and swapping the operands negates the result. *)
Theorem MemCmp_spec m p1 p2 len :
  (p1 + Z.to_nat len <= length m)%nat -> (p2 + Z.to_nat len <= length m)%nat ->
  exists r, MemCmp m p1 p2 len = Some r /\ MemCmp m p2 p1 len = Some (- r) /\
    (r = 0 <-> take (Z.to_nat len) (drop p1 m) = take (Z.to_nat len) (drop p2 m)) /\
    (r <> 0 -> exists k c1 c2, (k < Z.to_nat len)%nat /\
       take k (drop p1 m) = take k (drop p2 m) /\
       m !! (p1 + k)%nat = Some c1 /\ m !! (p2 + k)%nat = Some c2 /\ r = c1 - c2).
Proof.
  intros H1 H2. unfold MemCmp.
  destruct (MemCmp_loop_spec (drop p1 m) (drop p2 m) (Z.to_nat len)) as (r & Hr & Hr' & Hiff & Hk);
    [rewrite length_drop; lia | rewrite length_drop; lia |].
  exists r. repeat split; try done; [apply Hiff | apply Hiff|].
  intros Hr0. destruct (Hk Hr0) as (k & c1 & c2 & Hkn & Ht & Hc1 & Hc2 & ->).
  rewrite !lookup_drop in *. eauto 10.
Qed.

Lemma cstring_at_cons m p c s :
  cstring_at m p (c :: s) -> m !! p = Some c /\ c <> 0 /\ cstring_at m (S p) s.
Proof.
  intros [Hf Hl]. apply Forall_cons_1 in Hf as [Hc Hf].
  split; [rewrite <- (Nat.add_0_r p); apply (Hl 0%nat); cbn; lia|].
  split; [done|]. split; [done|].
  intros k Hk. replace (S p + k)%nat with (p + S k)%nat by lia. apply (Hl (S k)). cbn. lia.
Qed.

Lemma cstring_at_nil m p : cstring_at m p [] -> m !! p = Some 0.
Proof. intros [_ Hl]. rewrite <- (Nat.add_0_r p). apply (Hl 0%nat). cbn. lia. Qed.

Lemma cstring_at_insert_out m p s j v :
  (j < p \/ p + length s < j)%nat -> cstring_at m p s -> cstring_at (<[j:=v]> m) p s.
Proof.
  intros Hj [Hf Hl]. split; [done|]. intros k Hk.
  rewrite list_lookup_insert_ne by lia. auto.
Qed.

Lemma find_nul_spec fuel m p s :
  cstring_at m p s -> (length s < fuel)%nat -> find_nul fuel p m = Some ((p + length s)%nat, m).
Proof.
  revert fuel p; induction s as [|c s IH]; intros fuel p Hs Hf;
    (destruct fuel as [|fuel]; [cbn in Hf; lia|]); cbn [find_nul].
  - rewrite (bind_load p 0 _ m (cstring_at_nil m p Hs)). cbn. by rewrite Nat.add_0_r.
  - destruct (cstring_at_cons m p c s Hs) as (Hp & Hc & Hs').
    rewrite (bind_load p c _ m Hp), (proj2 (Z.eqb_neq _ _) Hc).
    rewrite IH by (done || cbn in Hf; lia). cbn. do 2 f_equal. lia.
Qed.

Lemma cat_copy_spec fuel m d s ss :
  cstring_at m s ss -> (length ss < fuel)%nat -> (d + length ss <= length m)%nat ->
  (d + length ss <= s \/ s + length ss < d)%nat ->
  cat_copy fuel d s m = Some ((d + length ss)%nat, write_at m d ss).
Proof.
  revert fuel d s m; induction ss as [|c ss IH]; intros fuel d s m Hs Hf Hd Hov;
    (destruct fuel as [|fuel]; [cbn in Hf; lia|]); cbn [cat_copy].
  - rewrite (bind_load s 0 _ m (cstring_at_nil m s Hs)). cbn. by rewrite Nat.add_0_r.
  - destruct (cstring_at_cons m s c ss Hs) as (Hp & Hc & Hs').
    cbn [length] in *.
    rewrite (bind_load s c _ m Hp), (proj2 (Z.eqb_neq _ _) Hc), bind_store by lia.
    rewrite IH; [do 2 f_equal; lia | | lia | rewrite length_insert; lia | lia].
    apply cstring_at_insert_out; [lia | done].
Qed.

(** C30: StrCat returns NULL when either pointer is NULL; otherwise,
    for C strings with room and a source outside the written bytes, it
    appends the source and its NUL at the destination's NUL and
    returns the address of the new terminating NUL, not the
    destination. *)
Theorem StrCat_spec m destion source :
  StrCat NULL source m = Some (NULL, m) /\ StrCat destion NULL m = Some (NULL, m) /\
  forall ds ss,
    destion <> NULL -> source <> NULL ->
    cstring_at m destion ds -> cstring_at m source ss ->
    (destion + length ds + length ss < length m)%nat ->
    (destion + length ds + length ss <= source \/ source + length ss < destion + length ds)%nat ->
    StrCat destion source m =
      Some ((destion + length ds + length ss)%nat, write_at m (destion + length ds) (ss ++ [0])).
Proof.
  split; [reflexivity|]. split; [unfold StrCat; by rewrite orb_true_r|].
  intros ds ss Hd Hs Hds Hss Hlen Hov. unfold StrCat.
  rewrite (proj2 (Nat.eqb_neq _ _) Hd), (proj2 (Nat.eqb_neq _ _) Hs). cbn [orb].
  assert (Hds_len : (length ds < S (length m))%nat) by lia.
  erewrite bind_run; [| apply (find_nul_spec _ m destion ds Hds Hds_len)].
  erewrite bind_run; [| apply cat_copy_spec; [exact Hss | lia | lia | lia]].
  rewrite bind_store by (rewrite length_write_at; lia). rewrite run_mret.
  rewrite write_at_app. cbn [write_at]. reflexivity.
Qed.

(** ** Concrete memories *)

Definition buf16 : list Z := replicate 16 0.

(** "hi" at address 1 and "!" at address 4, in a 10-byte memory. *)
Definition hi_mem : list Z := [0; 104; 105; 0; 33; 0; 0; 0; 0; 0].

(** ** Witnesses *)

Lemma DECToASCII_roundtrip_witness :
  exists s, DECToASCII 4294967295 1%nat buf16 = Some ((1 + length s)%nat, write_at buf16 1%nat (s ++ [0])) /\
    dec_value s = 4294967295.
Proof.
  destruct (DECToASCII_roundtrip 4294967295 1%nat buf16) as (s & H1 & H2 & _);
    [lia | vm_compute; lia |].
  exists s. split; assumption.
Defined.

Lemma HexToASCII_roundtrip_witness :
  exists s, HexToASCII 0xdeadbeef 1%nat buf16 =
      Some ((1 + 2 + length s)%nat, write_at buf16 1%nat ([48; 120] ++ s ++ [0])) /\
    hex_value s = 0xdeadbeef.
Proof.
  destruct (HexToASCII_roundtrip 0xdeadbeef 1%nat buf16) as (s & H1 & H2 & _);
    [lia | vm_compute; lia |].
  exists s. split; assumption.
Defined.

Lemma Memcpy_spec_witness :
  Memcpy 6%nat 1%nat 3 hi_mem = Some (tt, write_at hi_mem 6%nat [104; 105; 0]).
Proof. apply (Memcpy_spec 6%nat 1%nat 3 hi_mem); vm_compute; lia. Defined.

Lemma Memcpy_overlap_smear_witness :
  Memcpy 2%nat 1%nat (Z.of_nat 3) hi_mem = Some (tt, write_at hi_mem 2%nat (replicate 3%nat 104)).
Proof. apply (Memcpy_overlap_smear 1%nat 3%nat 104 hi_mem); [reflexivity | vm_compute; lia]. Defined.

Lemma MemSet_spec_witness :
  MemSet 5%nat 0xAA 4 hi_mem = Some (tt, write_at hi_mem 5%nat (replicate 4%nat 0xAA)).
Proof. apply (MemSet_spec 5%nat 0xAA 4 hi_mem). vm_compute. lia. Defined.

Lemma hi_cstring : cstring_at hi_mem 1%nat [104; 105].
Proof.
  split; [repeat constructor; lia|].
  intros k Hk. destruct k as [|[|[|k]]]; [reflexivity | reflexivity | reflexivity | cbn in Hk; lia].
Qed.

Lemma excl_cstring : cstring_at hi_mem 4%nat [33].
Proof.
  split; [repeat constructor; lia|].
  intros k Hk. destruct k as [|[|k]]; [reflexivity | reflexivity | cbn in Hk; lia].
Qed.

Lemma StrLen_spec_witness : StrLen hi_mem 1%nat = Some 2.
Proof. apply (proj1 (StrLen_spec hi_mem 1%nat) [104; 105] hi_cstring). Defined.

Lemma StrNLen_spec_witness : StrNLen hi_mem 1%nat 1 = Some 1.
Proof. apply (StrNLen_spec hi_mem 1%nat [104; 105] 1 hi_cstring). Defined.

Lemma MemCmp_spec_witness :
  exists r, MemCmp hi_mem 1%nat 4%nat 2 = Some r /\ MemCmp hi_mem 4%nat 1%nat 2 = Some (- r) /\ r <> 0.
Proof.
  destruct (MemCmp_spec hi_mem 1%nat 4%nat 2) as (r & H1 & H2 & Hiff & _); [vm_compute; lia | vm_compute; lia |].
  exists r. split; [exact H1|]. split; [exact H2|].
  intros ->. pose proof (proj1 Hiff eq_refl) as Ht. vm_compute in Ht. discriminate.
Defined.

Lemma StrCat_spec_witness :
  StrCat 1%nat 4%nat hi_mem = Some (4%nat, write_at hi_mem 3%nat [33; 0]).
Proof.
  apply (proj2 (proj2 (StrCat_spec hi_mem 1%nat 4%nat)) [104; 105] [33]);
    [unfold NULL; lia | unfold NULL; lia | exact hi_cstring | exact excl_cstring | vm_compute; lia | vm_compute; lia].
Defined.

End MiscLib.
