(* ===== verification/Adc.v ===== *)
(** * The analog-to-digital converter (stm32f37x_adc.c)

    [Module Adc] models every routine of
    [src/Libraries/STM32F37x_StdPeriph_Driver/src/stm32f37x_adc.c].
    These are [ADC_DeInit], [ADC_Init] with [ADC_StructInit], the
    CR2 control bits ([ADC_Cmd], the two calibration starts,
    [ADC_TempSensorVrefintCmd]) and the analog watchdog set-up.  The
    register block is a Record of 32-bit registers.  It is a [RegFile]
    of the bus monad of [Bus], like the timer.  [ADC_DeInit] is the list
    of RCC calls it makes (see [Rcc]). *)

From Stdlib Require Import ZArith Lia List Bool Btauto.
From coqutil Require Import Z.bitblast.
From S2P Require Import Prelude.
From S2P Require Import Bus.
From S2P Require Import Rcc.
Import ListNotations.
Open Scope Z_scope.

Module Adc.

(** ** Registers *)

Record ADC_TypeDef := mkADC { CR1 : Z; CR2 : Z; SQR1 : Z; HTR : Z; LTR : Z }.

Inductive ADC_Reg := R_CR1 | R_CR2 | R_SQR1 | R_HTR | R_LTR.

Definition ADC_Reg_eq_dec (a b : ADC_Reg) : {a = b} + {a <> b}.
Proof. decide equality. Defined.

Definition adc_get (r : ADC_Reg) (a : ADC_TypeDef) : Z :=
  match r with
  | R_CR1 => CR1 a | R_CR2 => CR2 a | R_SQR1 => SQR1 a | R_HTR => HTR a | R_LTR => LTR a
  end.

Definition adc_set (r : ADC_Reg) (v : Z) (a : ADC_TypeDef) : ADC_TypeDef :=
  let '(mkADC cr1 cr2 sqr1 htr ltr) := a in
  match r with
  | R_CR1 => mkADC v cr2 sqr1 htr ltr
  | R_CR2 => mkADC cr1 v sqr1 htr ltr
  | R_SQR1 => mkADC cr1 cr2 v htr ltr
  | R_HTR => mkADC cr1 cr2 sqr1 v ltr
  | R_LTR => mkADC cr1 cr2 sqr1 htr v
  end.

#[export] Instance ADC_RegFile : RegFile ADC_TypeDef ADC_Reg :=
  { reg_get := adc_get; reg_set := adc_set; reg_width := fun _ => 32;
    reg_all := [R_CR1; R_CR2; R_SQR1; R_HTR; R_LTR] }.

Abbreviation adc := (bus ADC_TypeDef ADC_Reg).

Local Open Scope bus_scope.

(** ** Constants (stm32f37x_adc.c lines 97-105 and the device header) *)

Definition ADC_CR2_CLEAR_MASK : Z := 0xFFF1F7FD.
Definition DISABLE : Z := 0.
Definition ADC_CR1_AWDCH : Z := 0x0000001F.
Definition ADC_CR1_SCAN : Z := 0x00000100.
Definition ADC_CR1_AWDSGL : Z := 0x00000200.
Definition ADC_CR1_JAWDEN : Z := 0x00400000.
Definition ADC_CR1_AWDEN : Z := 0x00800000.
Definition ADC_CR2_ADON : Z := 0x00000001.
Definition ADC_CR2_CAL : Z := 0x00000004.
Definition ADC_CR2_RSTCAL : Z := 0x00000008.
Definition ADC_CR2_TSVREFE : Z := 0x00800000.
Definition ADC_SQR1_L : Z := 0x00F00000.
Definition ADC_ExternalTrigConv_T19_TRGO : Z := 0x00000000.
Definition ADC_DataAlign_Right : Z := 0x00000000.

Record ADC_InitTypeDef := {
  ADC_ScanConvMode : Z;        (* FunctionalState *)
  ADC_ContinuousConvMode : Z;  (* FunctionalState *)
  ADC_ExternalTrigConv : Z;    (* uint32_t *)
  ADC_DataAlign : Z;           (* uint32_t *)
  ADC_NbrOfChannel : Z         (* uint8_t *)
}.

(** ** Parameter checks ([assert_param], stm32f37x_adc.h) *)

Definition IS_FUNCTIONAL_STATE (x : Z) : bool := existsb (Z.eqb x) [0; 1].
Definition IS_ADC_EXT_TRIG (x : Z) : bool :=
  existsb (Z.eqb x) [0x00000000; 0x00020000; 0x00040000; 0x00060000;
                     0x00080000; 0x000A0000; 0x000C0000; 0x000E0000].
Definition IS_ADC_DATA_ALIGN (x : Z) : bool := existsb (Z.eqb x) [0x00000000; 0x00000800].
Definition IS_ADC_REGULAR_LENGTH (x : Z) : bool := (1 <=? x) && (x <=? 16).
Definition IS_ADC_ANALOG_WATCHDOG (x : Z) : bool :=
  existsb (Z.eqb x) [0x00800200; 0x00400200; 0x00C00200; 0x00800000;
                     0x00400000; 0x00C00000; 0x00000000].
Definition IS_ADC_CHANNEL (x : Z) : bool := (0 <=? x) && (x <=? 18).
Definition IS_ADC_THRESHOLD (x : Z) : bool := (0 <=? x) && (x <=? 0xFFF).

Definition ADC_Init_params_ok (p : ADC_InitTypeDef) : bool :=
  IS_FUNCTIONAL_STATE (ADC_ScanConvMode p) && IS_FUNCTIONAL_STATE (ADC_ContinuousConvMode p) &&
  IS_ADC_EXT_TRIG (ADC_ExternalTrigConv p) && IS_ADC_DATA_ALIGN (ADC_DataAlign p) &&
  IS_ADC_REGULAR_LENGTH (ADC_NbrOfChannel p).

(** ** Routines *)

Definition ADC_Init (p : ADC_InitTypeDef) : adc unit :=
  tmpreg1 <- rd R_CR1 ;;
  let tmpreg1 := clear_bits tmpreg1 ADC_CR1_SCAN in
  let tmpreg1 := set_bits tmpreg1 (u32 (Z.shiftl (ADC_ScanConvMode p) 8)) in
  wr R_CR1 tmpreg1 ;;
  tmpreg1 <- rd R_CR2 ;;
  let tmpreg1 := Z.land tmpreg1 ADC_CR2_CLEAR_MASK in
  let tmpreg1 := set_bits tmpreg1
    (u32 (Z.lor (Z.lor (ADC_DataAlign p) (ADC_ExternalTrigConv p))
                (u32 (Z.shiftl (ADC_ContinuousConvMode p) 1)))) in
  wr R_CR2 tmpreg1 ;;
  tmpreg1 <- rd R_SQR1 ;;
  let tmpreg1 := clear_bits tmpreg1 ADC_SQR1_L in
  let tmpreg2 := u8 (Z.lor 0 (u8 (ADC_NbrOfChannel p - 1))) in
  let tmpreg1 := set_bits tmpreg1 (u32 (Z.shiftl tmpreg2 20)) in
  wr R_SQR1 tmpreg1.

Definition ADC_StructInit : ADC_InitTypeDef := {|
  ADC_ScanConvMode := DISABLE;
  ADC_ContinuousConvMode := DISABLE;
  ADC_ExternalTrigConv := ADC_ExternalTrigConv_T19_TRGO;
  ADC_DataAlign := ADC_DataAlign_Right;
  ADC_NbrOfChannel := 1 |}.

(** The reset values of the registers (HTR resets to 0xFFF). *)
Definition ADC_RESET_VALUE : ADC_TypeDef := mkADC 0 0 0 0xFFF 0.

(** [ADC_DeInit]: the two calls that pulse the ADC1 reset line on APB2,
    with ENABLE and then DISABLE.  No ADC register is written through
    the bus. *)
Definition ADC_DeInit : list Rcc.RCC_Call :=
  [Rcc.RCC_APB2PeriphResetCmd Rcc.RCC_APB2Periph_ADC1 Rcc.ENABLE;
   Rcc.RCC_APB2PeriphResetCmd Rcc.RCC_APB2Periph_ADC1 Rcc.DISABLE].

Definition ADC_Cmd (NewState : Z) : adc unit :=
  cr2 <- rd R_CR2 ;;
  if negb (NewState =? DISABLE) then wr R_CR2 (set_bits cr2 ADC_CR2_ADON)
  else wr R_CR2 (clear_bits cr2 ADC_CR2_ADON).

Definition ADC_StartCalibration : adc unit :=
  cr2 <- rd R_CR2 ;; wr R_CR2 (set_bits cr2 ADC_CR2_CAL).

Definition ADC_ResetCalibration : adc unit :=
  cr2 <- rd R_CR2 ;; wr R_CR2 (set_bits cr2 ADC_CR2_RSTCAL).

Definition ADC_AnalogWatchdogCmd (ADC_AnalogWatchdog : Z) : adc unit :=
  tmpreg <- rd R_CR1 ;;
  let tmpreg := clear_bits tmpreg (Z.lor (Z.lor ADC_CR1_JAWDEN ADC_CR1_AWDEN) ADC_CR1_AWDSGL) in
  let tmpreg := set_bits tmpreg ADC_AnalogWatchdog in
  wr R_CR1 tmpreg.

(** [HighThreshold] and [LowThreshold] are [uint16_t] parameters. *)
Definition ADC_AnalogWatchdogThresholdsConfig (HighThreshold LowThreshold : Z) : adc unit :=
  wr R_HTR (u16 HighThreshold) ;;
  wr R_LTR (u16 LowThreshold).

(** [ADC_Channel] is a [uint8_t] parameter. *)
Definition ADC_AnalogWatchdogSingleChannelConfig (ADC_Channel : Z) : adc unit :=
  tmpreg <- rd R_CR1 ;;
  let tmpreg := clear_bits tmpreg ADC_CR1_AWDCH in
  let tmpreg := set_bits tmpreg (u8 ADC_Channel) in
  wr R_CR1 tmpreg.

(** The routine writes [ADC1] directly; the model has the one ADC. *)
Definition ADC_TempSensorVrefintCmd (NewState : Z) : adc unit :=
  cr2 <- rd R_CR2 ;;
  if negb (NewState =? DISABLE) then wr R_CR2 (set_bits cr2 ADC_CR2_TSVREFE)
  else wr R_CR2 (clear_bits cr2 ADC_CR2_TSVREFE).

(** * Theorems *)

#[export] Instance ADC_RegFileLaws : RegFileLaws ADC_TypeDef ADC_Reg.
Proof.
  split.
  - exact ADC_Reg_eq_dec.
  - intros [] v []; reflexivity.
  - intros [] [] v [] H; solve [reflexivity | congruence].
  - intros []; cbn; lia.
  - intros []; cbn; tauto.
Qed.

Lemma adc_in_width_fields s : in_width s = true ->
  0 <= CR1 s < 2 ^ 32 /\ 0 <= CR2 s < 2 ^ 32 /\ 0 <= SQR1 s < 2 ^ 32.
Proof.
  rewrite in_width_spec. intros H.
  repeat split; first [apply (H R_CR1) | apply (H R_CR2) | apply (H R_SQR1)].
Qed.

(** [adc_run]: execute a bus program on a symbolic register file. *)
Ltac adc_run :=
  cbv [final result trace bind ret rd wr truncate reg_get reg_set reg_width
       ADC_RegFile adc_get adc_set fst snd CR1 CR2 SQR1 HTR LTR].

(** [adc_masks]: turn the parameter checks into mask equations. *)
Ltac adc_masks :=
  repeat match goal with
  | H : _ && _ = true |- _ => apply andb_true_iff in H as [? ?]
  end;
  repeat match goal with
  | H : IS_FUNCTIONAL_STATE ?x = true |- _ => rewrite (choice_mask _ 1 x H eq_refl); clear H
  | H : IS_ADC_EXT_TRIG ?x = true |- _ => rewrite (choice_mask _ 0xE0000 x H eq_refl); clear H
  | H : IS_ADC_DATA_ALIGN ?x = true |- _ => rewrite (choice_mask _ 0x800 x H eq_refl); clear H
  | H : IS_ADC_ANALOG_WATCHDOG ?x = true |- _ => rewrite (choice_mask _ 0xC00200 x H eq_refl); clear H
  end.

(** A sequence length [n] with [1 <= n <= 16] is stored as [n - 1],
    a 4-bit value. *)
Lemma regular_length_field n :
  IS_ADC_REGULAR_LENGTH n = true ->
  u8 (Z.lor 0 (u8 (n - 1))) = n - 1 /\ 0 <= n - 1 < 2 ^ 4.
Proof.
  unfold IS_ADC_REGULAR_LENGTH, u8. rewrite andb_true_iff, Z.leb_le, Z.leb_le. intros Hn.
  rewrite Z.lor_0_l, Z.mod_mod, Z.mod_small by lia. lia.
Qed.

(** C35: For parameters that pass the [assert_param] checks, [ADC_Init]
    stores CR1, CR2 and SQR1, in that order.  It replaces the SCAN bit
    of CR1, the CONT, ALIGN and EXTSEL fields of CR2 (the bits that
    [ADC_CR2_CLEAR_MASK] clears) and the L field of SQR1 by the
    requested values, with L = NbrOfChannel - 1.  The watchdog
    thresholds are unchanged. *)
Theorem ADC_Init_spec p s :
  in_width s = true -> ADC_Init_params_ok p = true ->
  let s' := final (ADC_Init p) s in
  map fst (trace (ADC_Init p) s) = [R_CR1; R_CR2; R_SQR1] /\
  CR1 s' = ins (CR1 s) ADC_CR1_SCAN (Z.shiftl (ADC_ScanConvMode p) 8) /\
  CR2 s' = ins (CR2 s) 0x000E0802
             (Z.lor (Z.lor (ADC_DataAlign p) (ADC_ExternalTrigConv p))
                    (Z.shiftl (ADC_ContinuousConvMode p) 1)) /\
  SQR1 s' = ins (SQR1 s) ADC_SQR1_L (Z.shiftl (ADC_NbrOfChannel p - 1) 20) /\
  HTR s' = HTR s /\ LTR s' = LTR s.
Proof.
  intros Hw Hok. destruct s as [cr1 cr2 sqr1 htr ltr].
  destruct (adc_in_width_fields _ Hw) as (H1 & H2 & H3). cbn [CR1 CR2 SQR1] in H1, H2, H3.
  destruct p as [scan cont ext align n]. unfold ADC_Init_params_ok, ADC_Init in *.
  cbn [ADC_ScanConvMode ADC_ContinuousConvMode ADC_ExternalTrigConv ADC_DataAlign ADC_NbrOfChannel] in *.
  apply andb_true_iff in Hok as [Hok Hn]. destruct (regular_length_field n Hn) as [-> Hk].
  generalize dependent (n - 1). intros k Hk. adc_masks. adc_run.
  split; [reflexivity|]. repeat split; unfold ins; bits_enum.
Qed.

(** C36: [ADC_Init] computes L in a [uint8_t] as [NbrOfChannel - 1] and
    ORs all eight bits in at bit 20, over the 4-bit L field (bits
    20-23).  Bits 24-27 of the new SQR1 are the old ones ORed with the
    high nibble of that byte.  So [NbrOfChannel = 0], which the
    compiled-out [assert_param] would reject, wraps to 255.  It then
    requests 16 conversions and sets the reserved bits 24-27. *)
Theorem ADC_Init_length_wrap p s :
  in_width s = true ->
  let s' := final (ADC_Init p) s in
  Z.land (SQR1 s') 0x0FF00000 =
    Z.lor (Z.land (SQR1 s) 0x0F000000) (Z.shiftl (u8 (ADC_NbrOfChannel p - 1)) 20) /\
  (ADC_NbrOfChannel p = 0 -> Z.land (SQR1 s') 0x0FF00000 = 0x0FF00000).
Proof.
  intros Hw s'. destruct s as [cr1 cr2 sqr1 htr ltr].
  destruct (adc_in_width_fields _ Hw) as (_ & _ & H3). cbn [SQR1] in H3.
  assert (E : Z.land (SQR1 s') 0x0FF00000 =
    Z.lor (Z.land sqr1 0x0F000000) (Z.shiftl (u8 (ADC_NbrOfChannel p - 1)) 20)).
  { subst s'. unfold ADC_Init. adc_run. rewrite Z.lor_0_l, u8_idem.
    pose proof (u8_range (ADC_NbrOfChannel p - 1)) as Hk.
    generalize dependent (u8 (ADC_NbrOfChannel p - 1)). intros k Hk. bits_enum. }
  split; [exact E|]. intros Hn. rewrite E, Hn. change (u8 (0 - 1)) with 255. bits_enum.
Qed.

(** [ADC_Cmd], [ADC_TempSensorVrefintCmd], [ADC_StartCalibration]
    and [ADC_ResetCalibration] each store CR2 once and change only
    their own bit of it: ADON (bit 0) and TSVREFE (bit 23), set iff
    the argument is nonzero, CAL (bit 2) and RSTCAL (bit 3), set.
    The other registers are unchanged. *)
Theorem ADC_CR2_bit_setters s st i :
  in_width s = true -> 0 <= i ->
  let flag (f : adc unit) (b : Z) (v : bool) :=
    map fst (trace f s) = [R_CR2] /\
    Z.testbit (CR2 (final f s)) i = (if i =? b then v else Z.testbit (CR2 s) i) /\
    (forall r, r <> R_CR2 -> adc_get r (final f s) = adc_get r s) in
  flag (ADC_Cmd st) 0 (negb (st =? DISABLE)) /\
  flag (ADC_TempSensorVrefintCmd st) 23 (negb (st =? DISABLE)) /\
  flag ADC_StartCalibration 2 true /\ flag ADC_ResetCalibration 3 true.
Proof.
  intros Hw Hi. destruct s as [cr1 cr2 sqr1 htr ltr].
  destruct (adc_in_width_fields _ Hw) as (_ & H2 & _). cbn [CR2] in H2 |- *.
  unfold ADC_Cmd, ADC_TempSensorVrefintCmd, ADC_StartCalibration, ADC_ResetCalibration.
  repeat split; destruct (negb (st =? DISABLE)); adc_run;
  try reflexivity;
  try (intros [] Hr; solve [reflexivity | congruence]);
  first [eapply set_bit32 | eapply clear_bit32]; first [reflexivity | lia].
Qed.

(** C37: For arguments that pass the [assert_param] checks,
    [ADC_AnalogWatchdogCmd] replaces the AWDEN, JAWDEN and AWDSGL bits
    of CR1, and [ADC_AnalogWatchdogSingleChannelConfig] replaces its
    AWDCH field.  [ADC_AnalogWatchdogThresholdsConfig] stores the
    12-bit thresholds in HTR, then LTR. *)
Theorem ADC_watchdog_config s w c h l :
  in_width s = true ->
  (IS_ADC_ANALOG_WATCHDOG w = true ->
   CR1 (final (ADC_AnalogWatchdogCmd w) s) =
     ins (CR1 s) (Z.lor (Z.lor ADC_CR1_JAWDEN ADC_CR1_AWDEN) ADC_CR1_AWDSGL) w) /\
  (IS_ADC_CHANNEL c = true ->
   CR1 (final (ADC_AnalogWatchdogSingleChannelConfig c) s) = ins (CR1 s) ADC_CR1_AWDCH c) /\
  (IS_ADC_THRESHOLD h = true -> IS_ADC_THRESHOLD l = true ->
   trace (ADC_AnalogWatchdogThresholdsConfig h l) s = [(R_HTR, h); (R_LTR, l)] /\
   HTR (final (ADC_AnalogWatchdogThresholdsConfig h l) s) = h /\
   LTR (final (ADC_AnalogWatchdogThresholdsConfig h l) s) = l).
Proof.
  intros Hw. destruct s as [cr1 cr2 sqr1 htr ltr].
  destruct (adc_in_width_fields _ Hw) as (H1 & _). cbn [CR1] in H1 |- *.
  unfold ADC_AnalogWatchdogCmd, ADC_AnalogWatchdogSingleChannelConfig,
    ADC_AnalogWatchdogThresholdsConfig, IS_ADC_CHANNEL, IS_ADC_THRESHOLD.
  repeat split; intros; adc_masks; adc_run; repeat rewrite andb_true_iff, !Z.leb_le in *;
  unfold ins; rewrite ?u16_id, ?Z.mod_small by lia; try reflexivity.
  - bits_enum.
  - unfold u8. rewrite (Z.mod_small c) by lia.
    assert (0 <= c < 2 ^ 5) by lia. bits_enum.
Qed.

(** Every modelled ADC routine keeps each register a 32-bit
    value. *)
Theorem ADC_ops_keep_width :
  (forall p, preserves (fun s => in_width s = true) (ADC_Init p)) /\
  (forall v, preserves (fun s => in_width s = true) (ADC_Cmd v)) /\
  preserves (fun s => in_width s = true) ADC_StartCalibration /\
  preserves (fun s => in_width s = true) ADC_ResetCalibration /\
  (forall w, preserves (fun s => in_width s = true) (ADC_AnalogWatchdogCmd w)) /\
  (forall h l, preserves (fun s => in_width s = true) (ADC_AnalogWatchdogThresholdsConfig h l)) /\
  (forall c, preserves (fun s => in_width s = true) (ADC_AnalogWatchdogSingleChannelConfig c)) /\
  (forall v, preserves (fun s => in_width s = true) (ADC_TempSensorVrefintCmd v)).
Proof.
  unfold ADC_Init, ADC_Cmd, ADC_StartCalibration, ADC_ResetCalibration, ADC_AnalogWatchdogCmd,
    ADC_AnalogWatchdogThresholdsConfig, ADC_AnalogWatchdogSingleChannelConfig, ADC_TempSensorVrefintCmd.
  repeat split; intros; bus_preserves.
Qed.

(** [ADC_DeInit] leaves the ADC registers at their reset values, which
    are within their widths, and releases the ADC1 reset line. *)
Lemma ADC_DeInit_resets (s : ADC_TypeDef) h :
  snd (Rcc.periph_run Rcc.RCC_APB2Periph_ADC1 ADC_RESET_VALUE ADC_DeInit (h, s)) = ADC_RESET_VALUE /\
  in_width ADC_RESET_VALUE = true /\
  fst (Rcc.periph_run Rcc.RCC_APB2Periph_ADC1 ADC_RESET_VALUE ADC_DeInit (h, s))
    Rcc.RCC_APB2Periph_ADC1 = false.
Proof.
  change ADC_DeInit with (Rcc.pulse Rcc.RCC_APB2Periph_ADC1).
  rewrite Rcc.fst_periph_run, Rcc.pulse_regs, Rcc.pulse_lines, Rcc.rcc_eqb_refl.
  repeat split.
Qed.

(** ** Witnesses, on the reset register file. *)

Definition adc_no_channel : ADC_InitTypeDef :=
  {| ADC_ScanConvMode := DISABLE; ADC_ContinuousConvMode := DISABLE;
     ADC_ExternalTrigConv := ADC_ExternalTrigConv_T19_TRGO;
     ADC_DataAlign := ADC_DataAlign_Right; ADC_NbrOfChannel := 0 |}.

Lemma ADC_Init_spec_witness :
  SQR1 (final (ADC_Init ADC_StructInit) ADC_RESET_VALUE) = ins 0 ADC_SQR1_L (Z.shiftl 0 20).
Proof.
  apply (ADC_Init_spec ADC_StructInit ADC_RESET_VALUE); vm_compute; reflexivity.
Defined.

Lemma ADC_Init_length_wrap_witness :
  Z.land (SQR1 (final (ADC_Init adc_no_channel) ADC_RESET_VALUE)) 0x0FF00000 = 0x0FF00000.
Proof.
  apply (ADC_Init_length_wrap adc_no_channel ADC_RESET_VALUE); vm_compute; reflexivity.
Defined.

Lemma ADC_CR2_bit_setters_witness :
  Z.testbit (CR2 (final (ADC_Cmd 1) ADC_RESET_VALUE)) 0 = true.
Proof.
  apply (ADC_CR2_bit_setters ADC_RESET_VALUE 1 0); [vm_compute; reflexivity | lia].
Defined.

Lemma ADC_watchdog_config_witness :
  CR1 (final (ADC_AnalogWatchdogSingleChannelConfig 17) ADC_RESET_VALUE) = ins 0 ADC_CR1_AWDCH 17.
Proof.
  apply (ADC_watchdog_config ADC_RESET_VALUE 0 17 0 0); vm_compute; reflexivity.
Defined.

End Adc.
