(* ===== verification/SysTimer.v ===== *)
(** * The system tick and the busy delays (sys_timer.c)

    [Module SysTimer] models [src/Utilities/STM32_EVAL/STM3210B_EVAL/sys_timer.c].
    The state is the two volatile counters [tick_count] and
    [sys_int_times] and the interrupt mask.  [SysTick_Handler] is a
    function on that state, and a busy delay is a program counter over
    the code's two polling loops.  A run of a delay interleaves the
    program's steps with tick interrupts.  [step] executes one event,
    and [reachn n] is the reachability relation of all interleavings
    with [n] ticks.  Counters are [uint32_t] and wrap. *)

From Stdlib Require Import ZArith Lia List Bool.
From S2P Require Import Prelude.
Import ListNotations.
Open Scope Z_scope.

Module SysTimer.

(** [SYS_TIMER_FREQ] (sys_timer.h): 10 kHz, one tick every 100 us. *)
Definition SYS_TIMER_FREQ : Z := 10000.

Record SysTimer := mkSysTimer {
  tick_count : Z;       (* volatile uint32_t tick_count *)
  sys_int_times : Z;    (* volatile uint32_t sys_int_times *)
  irq_enabled : bool    (* PRIMASK clear *)
}.

(** The counters as the C start-up code leaves them: both initialised
    to 0, and interrupts enabled. *)
Definition sys_timer_reset : SysTimer := mkSysTimer 0 0 true.

(** [SysTick_Config] (CMSIS core): a reload value that does not fit
    the 24-bit LOAD register is refused with 1.  Otherwise SysTick is
    programmed and 0 is returned. *)
Definition SysTick_Config (ticks : Z) : Z :=
  if 0xFFFFFF <? u32 (ticks - 1) then 1 else 0.

(** [init_sys_timer], given [SYSCLK_Frequency] as read by
    [RCC_GetClocksFreq]. *)
Definition init_sys_timer (SYSCLK_Frequency : Z) : Z :=
  u8 (SysTick_Config (SYSCLK_Frequency / SYS_TIMER_FREQ)).

Definition SysTick_Handler (s : SysTimer) : SysTimer :=
  let sys := u32 (sys_int_times s + 1) in
  let tc := u32 (tick_count s + 1) in
  mkSysTimer (if 200 <=? tc then 0 else tc) sys (irq_enabled s).

Definition get_sys_tick (s : SysTimer) : Z := sys_int_times s.

(** ** The busy delays

    [busy_delay_ms] and [busy_delay_100us] differ only in the tick
    count [d] they add to [sys_int_times]: [time_ms * 10] (a
    [uint32_t] product) or [time_us].  [Entry d] is the call, [Loop1 e]
    the first polling loop (taken when [expect_value] wrapped), [Loop2 e]
    the final loop and [Done] the return. *)

Inductive Pc := Entry (d : Z) | Loop1 (e : Z) | Loop2 (e : Z) | Done.

Definition busy_delay_ms (time_ms : Z) : Pc := Entry (u32 (time_ms * 10)).
Definition busy_delay_100us (time_us : Z) : Pc := Entry (u32 time_us).

Definition cfg := (Pc * SysTimer)%type.

(** One step of the delay routine.  The entry step runs between
    [__disable_irq] and [__enable_irq], so no tick interrupts it.  A
    loop step reads [sys_int_times] once and compares. *)
Definition delay_step (pc : Pc) (s : SysTimer) : cfg :=
  match pc with
  | Entry d =>
      let expect_value := u32 (d + sys_int_times s) in
      let s' := mkSysTimer (tick_count s) (sys_int_times s) true in
      if expect_value <? sys_int_times s then (Loop1 expect_value, s')
      else (Loop2 expect_value, s')
  | Loop1 e => if sys_int_times s <=? e then (Loop2 e, s) else (Loop1 e, s)
  | Loop2 e => if sys_int_times s <=? e then (Loop2 e, s) else (Done, s)
  | Done => (Done, s)
  end.

Inductive Event := Run | Tick.

(** An event: the routine takes a step, or the SysTick interrupt is
    taken (only while interrupts are enabled). *)
Definition step (ev : Event) (c : cfg) : cfg :=
  match ev with
  | Run => delay_step (fst c) (snd c)
  | Tick => if irq_enabled (snd c) then (fst c, SysTick_Handler (snd c)) else c
  end.

Definition exec (evs : list Event) (c : cfg) : cfg :=
  fold_left (fun c ev => step ev c) evs c.

(** Every interleaving: [reachn c0 n c] when [c] follows [c0] by
    routine steps and [n] tick interrupts, in any order. *)
Inductive reachn (c0 : cfg) : nat -> cfg -> Prop :=
  | reach_refl : reachn c0 0 c0
  | reach_run n c : reachn c0 n c -> reachn c0 n (step Run c)
  | reach_tick n c :
      irq_enabled (snd c) = true -> reachn c0 n c -> reachn c0 (S n) (step Tick c).

(** The schedule where the polling loop samples the counter between
    any two ticks: [k] rounds of a step and a tick. *)
Definition rounds (k : nat) : list Event := concat (repeat [Run; Tick] k).

(** The number of interrupts in a list of events. *)
Definition ticks (evs : list Event) : nat :=
  List.length (List.filter (fun ev => match ev with Tick => true | Run => false end) evs).

(** * Theorems *)

(** [tick_count] counts modulo 200: after the increment it is at most
    200, and 200 is reset to 0. *)
Lemma tick_count_mod x : 0 <= x ->
  (if 200 <=? u32 (x mod 200 + 1) then 0 else u32 (x mod 200 + 1)) = (x + 1) mod 200.
Proof.
  intros Hx. pose proof (Z.mod_pos_bound x 200 ltac:(lia)) as Hb.
  rewrite u32_id by lia. rewrite <- Zplus_mod_idemp_l.
  destruct (Z.leb_spec 200 (x mod 200 + 1)).
  - replace (x mod 200 + 1) with 200 by lia. reflexivity.
  - rewrite (Z.mod_small (x mod 200 + 1)); lia.
Qed.

(** [n] interrupts from a state whose [tick_count] is below 200. *)
Lemma handler_iter n tc sys b :
  0 <= tc < 200 -> 0 <= sys < 2 ^ 32 ->
  Nat.iter n SysTick_Handler (mkSysTimer tc sys b) =
    mkSysTimer ((tc + Z.of_nat n) mod 200) ((sys + Z.of_nat n) mod 2 ^ 32) b.
Proof.
  intros Htc Hsys. induction n as [|n IH].
  - cbn. rewrite !Z.add_0_r, !Z.mod_small by lia. reflexivity.
  - rewrite Nat.iter_succ, IH. unfold SysTick_Handler. cbn [tick_count sys_int_times irq_enabled].
    rewrite tick_count_mod by lia. fold (u32 (sys + Z.of_nat n)). rewrite u32_add_u32.
    unfold u32. f_equal; f_equal; lia.
Qed.

(** From power-on ([tick_count = sys_int_times = 0]), after [n]
    SysTick interrupts [get_sys_tick] returns [n mod 2^32] and
    [tick_count] is [n mod 200].  The tick counter wraps after [2^32]
    ticks of 100 us, about 119 hours. *)
Theorem SysTick_Handler_counts n b :
  let s := Nat.iter n SysTick_Handler (mkSysTimer 0 0 b) in
  get_sys_tick s = Z.of_nat n mod 2 ^ 32 /\ tick_count s = Z.of_nat n mod 200 /\
  0 <= tick_count s < 200.
Proof.
  cbv zeta. rewrite handler_iter by lia. cbn [get_sys_tick tick_count sys_int_times].
  split; [reflexivity|]. split; [reflexivity|]. apply Z.mod_pos_bound. lia.
Qed.

(** The invariant of a delay of [d] ticks after [n] interrupts.  [b]
    is the counter value the entry step read and [j] the number of
    ticks since then.  In the final loop, when [expect_value] wrapped,
    the counter has wrapped too. *)
Definition delay_inv (d : Z) (n : nat) (c : cfg) : Prop :=
  0 <= sys_int_times (snd c) < 2 ^ 32 /\
  match fst c with
  | Entry d' => d' = d
  | Loop1 e => exists b j, 0 <= b < 2 ^ 32 /\ 0 <= j <= Z.of_nat n /\
      sys_int_times (snd c) = u32 (b + j) /\ e = u32 (b + d) /\ e < b
  | Loop2 e => exists b j, 0 <= b < 2 ^ 32 /\ 0 <= j <= Z.of_nat n /\
      sys_int_times (snd c) = u32 (b + j) /\ e = u32 (b + d) /\ (e < b -> 2 ^ 32 - b <= j)
  | Done => d + 1 <= Z.of_nat n
  end.

Lemma u32_cases x : 0 <= x < 2 * 2 ^ 32 ->
  (x < 2 ^ 32 /\ u32 x = x) \/ (2 ^ 32 <= x /\ u32 x = x - 2 ^ 32).
Proof.
  intros Hx. destruct (Z.lt_ge_cases x (2 ^ 32)).
  - left. split; [lia|]. apply u32_id. lia.
  - right. split; [lia|]. apply u32_wrap. lia.
Qed.

Lemma delay_inv_tick d n c :
  irq_enabled (snd c) = true -> delay_inv d n c -> delay_inv d (S n) (step Tick c).
Proof.
  destruct c as [pc s]. intros Hirq [Hs Hpc]. cbn [step fst snd] in *. rewrite Hirq.
  unfold delay_inv. cbn [fst snd]. split; [apply u32_range|]. rewrite Nat2Z.inj_succ.
  destruct pc as [d'|e|e|]; cbn beta iota in Hpc |- *; try lia; cbn [sys_int_times SysTick_Handler];
  destruct Hpc as (b & j & Hb & Hj & Hsys & He & Hw); exists b, (j + 1);
  rewrite Hsys, u32_add_u32, Z.add_assoc; (repeat split); try lia; intros Hlt; specialize (Hw Hlt); lia.
Qed.

Lemma delay_inv_run d n c :
  0 <= d < 2 ^ 32 -> delay_inv d n c -> delay_inv d n (step Run c).
Proof.
  destruct c as [pc s]. intros Hd [Hs Hpc]. cbn [step fst snd] in *. unfold delay_inv.
  destruct pc as [d'|e|e|]; cbn [delay_step]; cbn beta iota in Hpc.
  - subst d'. set (v := sys_int_times s) in *.
    destruct (Z.ltb_spec (u32 (d + v)) v); (split; [exact Hs|]); cbn [fst snd sys_int_times];
      exists v, 0; rewrite (Z.add_comm v d), Z.add_0_r, (u32_id v) by lia; repeat split; lia.
  - destruct Hpc as (b & j & Hb & Hj & Hsys & He & Hw).
    destruct (Z.leb_spec (sys_int_times s) e); (split; [exact Hs|]); cbn [fst snd];
      exists b, j; repeat split; try lia.
    intros _. destruct (Z.lt_ge_cases j (2 ^ 32 - b)); [|lia].
    rewrite u32_id in Hsys by lia. lia.
  - destruct Hpc as (b & j & Hb & Hj & Hsys & He & Hw).
    destruct (Z.leb_spec (sys_int_times s) e); (split; [exact Hs|]); cbn [fst snd].
    + exists b, j. repeat split; lia.
    + destruct (Z.le_gt_cases (d + 1) j) as [|Hjd]; [lia|]. exfalso.
      assert (Hbd0 : 0 <= b + d < 2 * 2 ^ 32) by lia.
      destruct (u32_cases _ Hbd0) as [[Hbd Hu]|[Hbd Hu]]; rewrite Hu in He.
      * rewrite u32_id in Hsys by lia. lia.
      * specialize (Hw ltac:(lia)). rewrite u32_wrap in Hsys by lia. lia.
  - split; assumption.
Qed.

Lemma delay_inv_reach d s n c :
  0 <= d < 2 ^ 32 -> 0 <= sys_int_times s < 2 ^ 32 ->
  reachn (Entry d, s) n c -> delay_inv d n c.
Proof.
  intros Hd Hs Hr. induction Hr as [|n c Hr IH|n c Hirq Hr IH].
  - split; [exact Hs | reflexivity].
  - apply delay_inv_run; assumption.
  - apply delay_inv_tick; assumption.
Qed.

(** C5: Whatever the interleaving of the polling loops with tick
    interrupts, a busy delay of [d] ticks ([busy_delay_ms t] has
    [d = (uint32_t)(t * 10)]) returns only after at least [d + 1]
    SysTick interrupts, also when [expect_value] wraps. *)
Theorem busy_delay_min_wait d s n c :
  0 <= d < 2 ^ 32 -> 0 <= sys_int_times s < 2 ^ 32 ->
  reachn (Entry d, s) n c -> fst c = Done -> d + 1 <= Z.of_nat n.
Proof.
  intros Hd Hs Hr Hdone. destruct (delay_inv_reach d s n c Hd Hs Hr) as [_ Hc].
  rewrite Hdone in Hc. exact Hc.
Qed.

Lemma exec_app l1 l2 c : exec (l1 ++ l2) c = exec l2 (exec l1 c).
Proof. apply fold_left_app. Qed.

(** A run of a list of events is an interleaving with at most as many
    ticks as the list has: a tick while interrupts are masked is lost. *)
Lemma exec_reachn evs c0 : exists n, (n <= ticks evs)%nat /\ reachn c0 n (exec evs c0).
Proof.
  induction evs as [|ev evs IH] using rev_ind; [exists 0%nat; split; [lia | constructor]|].
  destruct IH as (n & Hn & Hr). rewrite exec_app. unfold ticks in *.
  rewrite filter_app, length_app. destruct ev; cbn [exec fold_left List.filter List.length].
  - exists n. split; [lia | apply reach_run, Hr].
  - destruct (irq_enabled (snd (exec evs c0))) eqn:Ei.
    + exists (S n). split; [lia|]. exact (reach_tick _ _ _ Ei Hr).
    + exists n. split; [lia|]. unfold step. rewrite Ei. exact Hr.
Qed.

Lemma rounds_add a b : rounds (a + b) = rounds a ++ rounds b.
Proof.
  induction a as [|a IH]; [reflexivity|].
  change (rounds (S (a + b)) = [Run; Tick] ++ rounds a ++ rounds b).
  rewrite <- IH. reflexivity.
Qed.

Lemma iter_handler k s : 0 <= sys_int_times s < 2 ^ 32 ->
  sys_int_times (Nat.iter k SysTick_Handler s) = u32 (sys_int_times s + Z.of_nat k) /\
  irq_enabled (Nat.iter k SysTick_Handler s) = irq_enabled s.
Proof.
  intros Hs. induction k as [|k [IHs IHi]].
  - cbn. rewrite Z.add_0_r, u32_id by lia. split; reflexivity.
  - rewrite Nat.iter_succ. cbn [SysTick_Handler sys_int_times irq_enabled].
    rewrite IHs, IHi, u32_add_u32, Nat2Z.inj_succ, <- Z.add_1_r, Z.add_assoc. split; reflexivity.
Qed.

(** The final loop, sampled between ticks, from a counter at most
    [e + 1] below the top: it leaves once the counter passes [e]. *)
Lemma loop2_rounds k e s :
  irq_enabled s = true -> 0 <= sys_int_times s -> sys_int_times s + Z.of_nat k = e + 1 ->
  e + 1 < 2 ^ 32 ->
  exec (rounds k ++ [Run]) (Loop2 e, s) = (Done, Nat.iter k SysTick_Handler s).
Proof.
  revert s. induction k as [|k IH]; intros s Hi H0 Hk He.
  - cbn. rewrite (proj2 (Z.leb_gt _ _)) by lia. reflexivity.
  - change (rounds (S k)) with ([Run; Tick] ++ rounds k). rewrite <- app_assoc, exec_app.
    cbn [exec fold_left step fst snd delay_step]. rewrite (proj2 (Z.leb_le _ _)) by lia.
    cbn [fst snd]. rewrite Hi.
    assert (E : sys_int_times (SysTick_Handler s) = sys_int_times s + 1) by (apply u32_id; lia).
    rewrite IH, Nat.iter_succ_r; rewrite ?E; first [reflexivity | exact Hi | lia].
Qed.

(** The first loop, sampled between ticks, waits for the counter to
    wrap to 0. *)
Lemma loop1_rounds k e s :
  irq_enabled s = true -> 0 <= e < sys_int_times s -> sys_int_times s + Z.of_nat k = 2 ^ 32 ->
  exec (rounds k) (Loop1 e, s) = (Loop1 e, Nat.iter k SysTick_Handler s).
Proof.
  revert s. induction k as [|k IH]; intros s Hi He Hk; [reflexivity|].
  change (rounds (S k)) with ([Run; Tick] ++ rounds k). rewrite exec_app.
  cbn [exec fold_left step fst snd delay_step]. rewrite (proj2 (Z.leb_gt _ _)) by lia.
  cbn [fst snd]. rewrite Hi, Nat.iter_succ_r. destruct k as [|k]; [reflexivity|].
  assert (E : sys_int_times (SysTick_Handler s) = sys_int_times s + 1) by (apply u32_id; lia).
  apply IH; rewrite ?E; first [exact Hi | lia].
Qed.

Lemma iter_handler_S a b x :
  Nat.iter a SysTick_Handler (SysTick_Handler (Nat.iter b SysTick_Handler x)) =
  Nat.iter (a + S b) SysTick_Handler x.
Proof. rewrite Nat.iter_add. reflexivity. Qed.

(** The wrapped branch: the first loop waits for the counter to pass
    0, then the final loop runs [e + 1] more ticks. *)
Lemma busy_delay_wrapped k e s :
  irq_enabled s = true -> 0 <= e -> e + 1 < 2 ^ 32 -> 0 <= sys_int_times s < 2 ^ 32 ->
  (k = 0%nat /\ sys_int_times s = 0 \/ e < sys_int_times s /\ sys_int_times s + Z.of_nat k = 2 ^ 32) ->
  exec (rounds (k + S (Z.to_nat e)) ++ [Run]) (Loop1 e, s) =
    (Done, Nat.iter (Z.to_nat e + S k) SysTick_Handler s).
Proof.
  intros Hi He He1 Hs Hk. rewrite rounds_add, <- app_assoc, exec_app.
  destruct (iter_handler k s Hs) as [Hsk Hik]. rewrite Hi in Hik.
  assert (L1 : exec (rounds k) (Loop1 e, s) = (Loop1 e, Nat.iter k SysTick_Handler s) /\
               sys_int_times (Nat.iter k SysTick_Handler s) = 0).
  { rewrite Hsk. destruct Hk as [[-> H0]|[H1 H2]]; [rewrite H0; split; reflexivity|].
    rewrite H2. split; [|reflexivity]. destruct k as [|k]; [reflexivity|].
    apply loop1_rounds; first [exact Hi | lia]. }
  destruct L1 as [L1 Hs0]. rewrite L1.
  change (rounds (S (Z.to_nat e))) with ([Run; Tick] ++ rounds (Z.to_nat e)).
  rewrite <- app_assoc, exec_app. cbn [exec fold_left step fst snd delay_step].
  rewrite Hs0, (proj2 (Z.leb_le 0 e)) by lia. cbn [fst snd]. rewrite Hik, <- iter_handler_S.
  apply loop2_rounds; cbn [SysTick_Handler sys_int_times irq_enabled];
    rewrite ?Hik, ?Hs0, ?Z2Nat.id by lia; try change (u32 (0 + 1)) with 1; first [reflexivity | lia].
Qed.

(** C12: When the polling loops sample [sys_int_times] between any two
    ticks, a busy delay of [d] ticks that reads the counter value [v]
    returns after exactly [d + 1] SysTick interrupts, unless
    [(uint32_t)(d + v) = 0xFFFFFFFF].  This holds also when
    [expect_value] wraps.  [get_sys_tick] then reads [v + d + 1]
    modulo [2^32].  The delay is [(uint32_t)(time_ms * 10)] ticks for
    [busy_delay_ms], so [time_ms] above 429496729 gives a shorter
    wait.  No list of events with at most [d] ticks ends the delay, so
    [d + 1] is exact. *)
Theorem busy_delay_returns d s :
  0 <= d < 2 ^ 32 -> 0 <= sys_int_times s < 2 ^ 32 -> u32 (d + sys_int_times s) <> 2 ^ 32 - 1 ->
  let s' := Nat.iter (S (Z.to_nat d)) SysTick_Handler
              (mkSysTimer (tick_count s) (sys_int_times s) true) in
  exec (rounds (S (Z.to_nat d)) ++ [Run]) (Entry d, s) = (Done, s') /\
  get_sys_tick s' = u32 (sys_int_times s + d + 1) /\
  (forall evs, (ticks evs <= Z.to_nat d)%nat -> fst (exec evs (Entry d, s)) <> Done).
Proof.
  intros Hd Hs Hne s'. split; [|split].
  3: { intros evs Hev Hdone. destruct (exec_reachn evs (Entry d, s)) as (n & Hn & Hr).
       pose proof (proj2 (delay_inv_reach d s n _ Hd Hs Hr)) as Hc. rewrite Hdone in Hc. lia. }
  2: { unfold s', get_sys_tick. rewrite (proj1 (iter_handler _ (mkSysTimer (tick_count s) (sys_int_times s) true) Hs)). cbn [sys_int_times]. f_equal. lia. }
  change (rounds (S (Z.to_nat d))) with ([Run; Tick] ++ rounds (Z.to_nat d)).
  rewrite <- app_assoc, exec_app. cbn [exec fold_left step fst snd delay_step].
  set (s0 := mkSysTimer (tick_count s) (sys_int_times s) true). set (v := sys_int_times s) in *.
  assert (H1 : sys_int_times (SysTick_Handler s0) = u32 (v + 1)) by reflexivity.
  destruct (u32_cases (d + v)) as [[Hdv Hu]|[Hdv Hu]]; [lia|..]; rewrite Hu in *.
  - rewrite (proj2 (Z.ltb_ge _ _)) by lia. cbn [fst snd irq_enabled s0].
    unfold s'. rewrite Nat.iter_succ_r. rewrite u32_id in H1 by lia.
    change (mkSysTimer (tick_count s) v true) with s0.
    apply loop2_rounds; rewrite ?H1, ?Z2Nat.id; first [reflexivity | lia].
  - rewrite (proj2 (Z.ltb_lt _ _)) by lia. cbn [fst snd irq_enabled s0].
    replace (Z.to_nat d) with (Z.to_nat (2 ^ 32 - v - 1) + S (Z.to_nat (d + v - 2 ^ 32)))%nat by lia.
    unfold s'. rewrite Nat.iter_succ_r. change (mkSysTimer (tick_count s) v true) with s0.
    replace (Z.to_nat d) with (Z.to_nat (d + v - 2 ^ 32) + S (Z.to_nat (2 ^ 32 - v - 1)))%nat by lia.
    apply busy_delay_wrapped; rewrite ?H1; [reflexivity | lia | lia | apply u32_range |].
    destruct (Z.eq_dec v (2 ^ 32 - 1)) as [Hv|Hv].
    + left. rewrite Hv. split; reflexivity.
    + right. rewrite u32_id by lia. lia.
Qed.


(** C11: Once a busy delay of [d] ticks has read a counter value [v]
    with [(uint32_t)(d + v) = 0xFFFFFFFF], it never returns, whatever
    the interleaving.  [expect_value] did not wrap, so the final loop
    [while (sys_int_times <= 0xFFFFFFFF)] runs for ever. *)
Theorem busy_delay_hang d s n c :
  0 <= sys_int_times s < 2 ^ 32 -> u32 (d + sys_int_times s) = 2 ^ 32 - 1 ->
  reachn (delay_step (Entry d) s) n c -> fst c <> Done.
Proof.
  intros Hs Hmax Hr.
  enough (H : fst c = Loop2 (2 ^ 32 - 1) /\ 0 <= sys_int_times (snd c) < 2 ^ 32)
    by (rewrite (proj1 H); discriminate).
  induction Hr as [|n c Hr [IH1 IH2]|n c Hirq Hr [IH1 IH2]].
  - cbn [delay_step]. rewrite Hmax, (proj2 (Z.ltb_ge _ _)) by lia. split; [reflexivity | exact Hs].
  - destruct c as [pc s1]. cbn [fst snd] in *. subst pc. cbn [step fst snd delay_step].
    rewrite (proj2 (Z.leb_le _ _)) by lia. split; [reflexivity | exact IH2].
  - destruct c as [pc s1]. cbn [fst snd] in *. cbn [step fst snd]. rewrite Hirq.
    split; [exact IH1 | apply u32_range].
Qed.

(** ** Witnesses *)

Definition sys_at (v : Z) : SysTimer := mkSysTimer 0 v true.

Lemma busy_delay_min_wait_witness : 0 + 1 <= Z.of_nat 1.
Proof.
  apply (busy_delay_min_wait 0 (sys_at 5) 1 (step Run (step Tick (step Run (Entry 0, sys_at 5))))).
  - lia.
  - cbn. lia.
  - apply reach_run, reach_tick; [vm_compute; reflexivity|]. apply reach_run, reach_refl.
  - vm_compute. reflexivity.
Defined.

(** [busy_delay_ms(429496730)]: [time_ms * 10] wraps to 4, and the
    delay returns after 5 ticks (0.5 ms), not after 4. *)
Lemma busy_delay_returns_witness :
  exec (rounds 5 ++ [Run]) (busy_delay_ms 429496730, sys_at 5) =
    (Done, Nat.iter 5 SysTick_Handler (sys_at 5)) /\
  fst (exec (rounds 4 ++ [Run; Run; Run]) (busy_delay_ms 429496730, sys_at 5)) <> Done.
Proof.
  destruct (busy_delay_returns 4 (sys_at 5) ltac:(lia) ltac:(cbn; lia) ltac:(vm_compute; congruence))
    as (H1 & _ & H3).
  split; [exact H1 | apply H3; vm_compute; lia].
Defined.

Lemma busy_delay_hang_witness :
  fst (delay_step (busy_delay_ms 1) (sys_at (2 ^ 32 - 11))) <> Done.
Proof.
  apply (busy_delay_hang (u32 (1 * 10)) (sys_at (2 ^ 32 - 11)) 0); [vm_compute; split; congruence | vm_compute; reflexivity | apply reach_refl].
Defined.

End SysTimer.
