(* ===== verification/Usart.v ===== *)
(** * The UART debug console: USART1 set-up (debug.c)

    [Module Usart] models the register-level routines of
    [src/Utilities/STM32_EVAL/STM3210B_EVAL/debug.c], [init_debug_fun]
    and [USART1_IRQHandler].  The USART1 registers SR, DR, BRR, CR1
    and CR2 are 16-bit registers.  They form a [RegFile] of the bus
    monad of [Bus]. *)

From Stdlib Require Import ZArith Lia List Bool Btauto.
From coqutil Require Import Z.bitblast.
From S2P Require Import Prelude.
From S2P Require Import Bus.
Import ListNotations.
Open Scope Z_scope.

Module Usart.

(** ** USART1 registers (stm32f10x.h) *)

Record USART_TypeDef := mkUSART { SR : Z; DR : Z; BRR : Z; CR1 : Z; CR2 : Z }.

Inductive USART_Reg := R_SR | R_DR | R_BRR | R_CR1 | R_CR2.

Definition USART_Reg_eq_dec (a b : USART_Reg) : {a = b} + {a <> b}.
Proof. decide equality. Defined.

Definition usart_get (r : USART_Reg) (u : USART_TypeDef) : Z :=
  match r with
  | R_SR => SR u | R_DR => DR u | R_BRR => BRR u | R_CR1 => CR1 u | R_CR2 => CR2 u
  end.

Definition usart_set (r : USART_Reg) (v : Z) (u : USART_TypeDef) : USART_TypeDef :=
  let '(mkUSART sr dr brr cr1 cr2) := u in
  match r with
  | R_SR => mkUSART v dr brr cr1 cr2
  | R_DR => mkUSART sr v brr cr1 cr2
  | R_BRR => mkUSART sr dr v cr1 cr2
  | R_CR1 => mkUSART sr dr brr v cr2
  | R_CR2 => mkUSART sr dr brr cr1 v
  end.

#[export] Instance USART_RegFile : RegFile USART_TypeDef USART_Reg :=
  { reg_get := usart_get; reg_set := usart_set; reg_width := fun _ => 16;
    reg_all := [R_SR; R_DR; R_BRR; R_CR1; R_CR2] }.

Abbreviation usart := (bus USART_TypeDef USART_Reg).

Definition BAUDRATE : Z := 115200.
Definition USART_SR_RXNE : Z := 0x0020.
Definition USART_SR_TXE : Z := 0x0080.
Definition USART_CR1_RE : Z := 0x0004.
Definition USART_CR1_TE : Z := 0x0008.
Definition USART_CR1_RXNEIE : Z := 0x0020.
Definition USART_CR1_M : Z := 0x1000.
Definition USART_CR1_UE : Z := 0x2000.
Definition USART_CR2_STOP : Z := 0x3000.

Local Open Scope bus_scope.

(** [init_debug_fun], given [PCLK2_Frequency] as read by
    [RCC_GetClocksFreq].  The NVIC, RCC and GPIO calls of lines 13-30
    configure other peripherals and are not part of this register
    file.  Each compound assignment to a volatile register is a read
    and a store. *)
Definition init_debug_fun (PCLK2_Frequency : Z) : usart Z :=
  cr1 <- rd R_CR1 ;; wr R_CR1 (clear_bits cr1 (Z.lor USART_CR1_RE USART_CR1_TE)) ;;
  cr1 <- rd R_CR1 ;; wr R_CR1 (set_bits cr1 USART_CR1_UE) ;;
  cr1 <- rd R_CR1 ;; wr R_CR1 (clear_bits cr1 USART_CR1_M) ;;
  cr1 <- rd R_CR1 ;; wr R_CR2 (clear_bits cr1 USART_CR2_STOP) ;;
  let br_interger := u16 (PCLK2_Frequency / (16 * BAUDRATE)) in
  let br_fractionaldivider := u16 (u32 (PCLK2_Frequency / BAUDRATE - br_interger * 16)) in
  wr R_BRR (Z.lor (Z.shiftl br_interger 4) br_fractionaldivider) ;;
  cr1 <- rd R_CR1 ;; wr R_CR1 (set_bits cr1 (Z.lor USART_CR1_RE USART_CR1_TE)) ;;
  cr1 <- rd R_CR1 ;; wr R_CR1 (set_bits cr1 USART_CR1_RXNEIE) ;;
  ret 0.

(** [uart_status_reg] is a [uint8_t]; the received byte is read and
    dropped. *)
Definition USART1_IRQHandler : usart unit :=
  sr <- rd R_SR ;;
  let uart_status_reg := u8 sr in
  if negb (Z.land uart_status_reg USART_SR_RXNE =? 0) then (_ <- rd R_DR ;; ret tt) else ret tt.

(** * Theorems *)

#[export] Instance USART_RegFileLaws : RegFileLaws USART_TypeDef USART_Reg.
Proof.
  split.
  - exact USART_Reg_eq_dec.
  - intros [] v []; reflexivity.
  - intros [] [] v [] H; solve [reflexivity | congruence].
  - intros []; cbn; lia.
  - intros []; cbn; tauto.
Qed.

(** [usart_run]: execute a bus program on a symbolic register file. *)
Ltac usart_run :=
  cbv [final result trace bind ret rd wr truncate reg_get reg_set reg_width
       USART_RegFile usart_get usart_set fst snd SR DR BRR CR1 CR2].

(** The divider the code computes from [q = PCLK2 / BAUDRATE]: the
    mantissa [q / 16] shifted by 4, ORed with the fraction
    [q - 16 * (q / 16)], is [q] again. *)
(** The receive interrupt only reads [SR] and [DR]: it stores nothing. *)
Lemma USART1_IRQHandler_final u : final USART1_IRQHandler u = u.
Proof.
  destruct u. unfold USART1_IRQHandler. usart_run.
  match goal with |- context [if ?c then _ else _] => destruct c end; reflexivity.
Qed.

Lemma brr_divider q : 0 <= q < 2 ^ 16 ->
  u16 (Z.lor (Z.shiftl (u16 (q / 16)) 4) (u16 (u32 (q - u16 (q / 16) * 16)))) = q.
Proof.
  intros Hq. assert (Hd : 0 <= q / 16 < 2 ^ 16) by (split; [apply Z.div_pos | apply Z.div_lt_upper_bound]; lia).
  rewrite (u16_id (q / 16)) by lia.
  replace (q - q / 16 * 16) with (q mod 16) by (rewrite Z.mod_eq; lia).
  pose proof (Z.mod_pos_bound q 16 ltac:(lia)).
  rewrite u32_id, (u16_id (q mod 16)) by lia.
  change 16 with (2 ^ 4) at 1 2. rewrite <- Z.shiftr_div_pow2, <- Z.land_ones by lia.
  unfold u16. Z.bitblast. rewrite (testbit_high q 16) by lia. btauto.
Qed.

(** C17: [init_debug_fun] returns 0 and programs BRR with
    [PCLK2 / 115200], the divider in 1/16 steps.  CR1 gets UE, RE, TE
    and RXNEIE set and M cleared.  Line 36 stores into CR2 the value of
    CR1 with the STOP bits cleared, so CR2's old contents are lost and
    it receives CR1's bits, RE, TE, M and UE cleared. *)
Theorem init_debug_fun_spec P s :
  in_width s = true -> 0 <= P < 2 ^ 32 -> P / BAUDRATE < 2 ^ 16 ->
  let s' := final (init_debug_fun P) s in
  result (init_debug_fun P) s = 0 /\
  BRR s' = P / BAUDRATE /\
  CR1 s' = Z.lor (Z.land (CR1 s) 0xEFFF) 0x202C /\
  CR2 s' = Z.land (CR1 s) 0xCFF3 /\
  SR s' = SR s /\ DR s' = DR s.
Proof.
  intros Hw HP HB. rewrite in_width_spec in Hw. pose proof (Hw R_CR1) as H1.
  destruct s as [sr dr brr cr1 cr2]. cbn [reg_get reg_width USART_RegFile usart_get CR1] in H1 |- *.
  unfold init_debug_fun. usart_run.
  assert (Hq : P / (16 * BAUDRATE) = P / BAUDRATE / 16)
    by (rewrite Z.div_div by (unfold BAUDRATE; lia); f_equal; lia).
  rewrite Hq. assert (0 <= P / BAUDRATE) by (apply Z.div_pos; unfold BAUDRATE; lia).
  repeat split; try reflexivity.
  - apply brr_divider. lia.
  - bits_enum.
  - bits_enum.
Qed.

Definition usart_reset : USART_TypeDef := mkUSART 0xC0 0 0 0 0.

(** A second [init_debug_fun] at 72 MHz: CR1 holds 0x202C from the
    first one, and CR2 receives its RXNEIE bit as LBDL (0x0020). *)
Lemma init_debug_fun_spec_witness :
  CR2 (final (init_debug_fun 72000000) (final (init_debug_fun 72000000) usart_reset)) =
    Z.land (CR1 (final (init_debug_fun 72000000) usart_reset)) 0xCFF3 /\
  CR2 (final (init_debug_fun 72000000) (final (init_debug_fun 72000000) usart_reset)) = 0x20.
Proof.
  split; [|vm_compute; reflexivity].
  apply (init_debug_fun_spec 72000000 (final (init_debug_fun 72000000) usart_reset));
    [vm_compute; reflexivity | lia | vm_compute; reflexivity].
Defined.

End Usart.
