(* ===== verification/Debug.v ===== *)
(** * The UART debug console: output (debug.c)

    [Module Debug] models the output routines of
    [src/Utilities/STM32_EVAL/STM3210B_EVAL/debug.c].  [Usart] holds
    its register-level routines.  The
    output routines ([stm_putc], [stm_puts], [serial_put_binary],
    [stm_printf]) are modelled by the list of bytes they store into DR,
    in order.  Strings are read from the byte memory of [MiscLib], and
    [None] is a read outside that memory.  [stm_printf] is the
    [DEBUG] build.  It formats [%d] and [%x] with the [MiscLib] models
    of [DECToASCII] and [HexToASCII] into its local [char res[16]].
    [render] is the specification of [stm_printf] over a list of format
    items, and [system_dump], which never returns, is modelled by the
    bytes of its first rounds. *)

From stdpp Require Import base list.
From Stdlib Require Import ZArith Lia.
From S2P Require Import Prelude.
From S2P Require Import MiscLib.
Import MiscLib.
Open Scope Z_scope.

Module Debug.

(** ** Output routines *)

(** [stm_putc]: the byte stored into DR.  The wait for TXE ends when
    the transmitter takes the byte; the model takes that as given. *)
Definition stm_putc (str : Z) : list Z := [u8 str].

(** [while ( *p) stm_putc( *p++);] *)
Fixpoint puts_loop (l : list Z) : option (list Z) :=
  match l with
  | [] => None
  | c :: l' => if c =? 0 then Some [] else o ← puts_loop l'; Some (stm_putc c ++ o)
  end.

Definition stm_puts (m : list Z) (str : ptr) : option (list Z) := puts_loop (drop str m).

(** [while (len--) USART1->DR = *dat_bin++;] *)
Fixpoint put_binary_loop (m : list Z) (dat_bin : ptr) (len : nat) : option (list Z) :=
  match len with
  | O => Some []
  | S n => c ← m !! dat_bin; o ← put_binary_loop m (S dat_bin) n; Some (u8 c :: o)
  end.

Definition serial_put_binary (m : list Z) (dat_bin : ptr) (len : Z) : option (list Z) :=
  put_binary_loop m dat_bin (Z.to_nat (u32 len)).

(** The variadic arguments, as [va_arg] reads them. *)
Inductive va_item := VaInt (v : Z) | VaPtr (p : ptr).

(** The local buffer [char res[16] = {0}]. *)
Definition res_init : list Z := replicate 16 0.

(** The [switch] on the character after [%]: the bytes it sends and the
    remaining arguments.  An argument of the wrong kind, or a missing
    one, is undefined behaviour ([None]).  Any other character sends
    nothing and takes no argument. *)
Definition conv (m : list Z) (c : Z) (args : list va_item) : option (list Z * list va_item) :=
  if c =? 100 then
    match args with
    | VaInt val :: args' =>
        '(_, res) ← DECToASCII (u32 val) 0%nat res_init; o ← stm_puts res 0%nat; Some (o, args')
    | _ => None
    end
  else if c =? 120 then
    match args with
    | VaInt val :: args' =>
        '(_, res) ← HexToASCII (u32 val) 0%nat res_init; o ← stm_puts res 0%nat; Some (o, args')
    | _ => None
    end
  else if c =? 99 then
    match args with VaInt ch :: args' => Some (stm_putc ch, args') | _ => None end
  else if c =? 115 then
    match args with VaPtr res :: args' => o ← stm_puts m res; Some (o, args') | _ => None end
  else Some ([], args).

(** The loop of [stm_printf] over the bytes from [fmt] on.  After a
    [%] the code steps over the next byte whatever it is, the NUL
    included. *)
Fixpoint printf_loop (m : list Z) (l : list Z) (args : list va_item) : option (list Z) :=
  match l with
  | [] => None
  | c :: l' =>
      if c =? 0 then Some []
      else if c =? 37 then
        match l' with
        | [] => None
        | d :: l'' => '(o, args') ← conv m d args; rest ← printf_loop m l'' args'; Some (o ++ rest)
        end
      else rest ← printf_loop m l' args;
           Some ((if c =? 10 then stm_putc 13 else []) ++ stm_putc c ++ rest)
  end.

Definition stm_printf (m : list Z) (fmt : ptr) (args : list va_item) : option (list Z) :=
  printf_loop m (drop fmt m) args.

(** Without [DEBUG] (lines 150-156) [stm_printf] only assigns [fmt] to
    itself and returns 0: nothing is sent. *)
Definition stm_printf_nodebug (m : list Z) (fmt : ptr) (args : list va_item) : option (list Z) :=
  Some [].

(** [system_dump] never returns: [while (1) { stm_printf(str);
    busy_delay_ms(1000); }].  These are the bytes of its first [n]
    rounds, [str] used as a format without arguments (the delay sends
    nothing). *)
Fixpoint system_dump (n : nat) (m : list Z) (str : ptr) : option (list Z) :=
  match n with
  | O => Some []
  | S k => o ← stm_printf m str []; r ← system_dump k m str; Some (o ++ r)
  end.

(** ** Specification of [stm_printf]

    A format is a list of items: a literal byte, one of the four
    conversions, or [%] followed by another byte.  [render] is what the
    console should show: a newline as CR LF, [%d] and [%x] as the
    unsigned value of an [int] in decimal and in [0x]-prefixed hex,
    [%c] as a byte and [%s] as the argument string. *)

Inductive fmt_item := Lit (c : Z) | FDec | FHex | FChr | FStr | FOther (c : Z).

Definition encode_item (i : fmt_item) : list Z :=
  match i with
  | Lit c => [c] | FDec => [37; 100] | FHex => [37; 120] | FChr => [37; 99] | FStr => [37; 115]
  | FOther c => [37; c]
  end.

Definition item_ok (i : fmt_item) : bool :=
  match i with
  | Lit c => (0 <? c) && (c <? 256) && negb (c =? 37)
  | FOther c => (0 <? c) && (c <? 256) && negb (existsb (Z.eqb c) [100; 120; 99; 115])
  | _ => true
  end.

(** An argument: an integer, or a pointer with the string stored there. *)
Inductive arg := AInt (v : Z) | AStr (p : ptr) (s : list Z).

Definition va_of (a : arg) : va_item := match a with AInt v => VaInt v | AStr p _ => VaPtr p end.

Definition arg_ok (m : list Z) (a : arg) : Prop :=
  match a with AStr p s => cstring_at m p s | AInt _ => True end.

Definition crlf (s : list Z) : list Z := s ≫= (fun c => if c =? 10 then [13; 10] else [c]).

(** The bytes shown and the arguments left over. *)
Fixpoint render (items : list fmt_item) (args : list arg) : option (list Z * list arg) :=
  match items with
  | [] => Some ([], args)
  | Lit c :: it => '(o, a) ← render it args; Some (crlf [c] ++ o, a)
  | FDec :: it =>
      match args with
      | AInt v :: a => '(o, a') ← render it a; Some (dec_string (u32 v) ++ o, a')
      | _ => None
      end
  | FHex :: it =>
      match args with
      | AInt v :: a => '(o, a') ← render it a; Some ([48; 120] ++ hex_string (u32 v) ++ o, a')
      | _ => None
      end
  | FChr :: it =>
      match args with AInt v :: a => '(o, a') ← render it a; Some (u8 v :: o, a') | _ => None end
  | FStr :: it =>
      match args with AStr _ s :: a => '(o, a') ← render it a; Some (s ++ o, a') | _ => None end
  | FOther _ :: it => render it args
  end.

(** * Theorems *)

Definition bytes (l : list Z) : Prop := Forall (fun c => 0 <= c < 256) l.

Lemma u8_byte c : 0 <= c < 256 -> u8 c = c.
Proof. intros Hc. unfold u8. apply Z.mod_small. lia. Qed.

(** [stm_puts] sends a C string and stops at its NUL. *)
Lemma puts_cstring m p s : cstring_at m p s -> bytes s -> stm_puts m p = Some s.
Proof.
  unfold stm_puts. revert p; induction s as [|c s IH]; intros p Hs Hb.
  - rewrite (drop_S _ _ _ (cstring_at_nil m p Hs)). reflexivity.
  - destruct (cstring_at_cons m p c s Hs) as (Hp & Hc & Hs').
    inversion Hb as [|? ? Hc8 Hb']; subst.
    rewrite (drop_S _ _ _ Hp). cbn [puts_loop]. rewrite (proj2 (Z.eqb_neq c 0)) by done.
    rewrite (IH (S p) Hs' Hb'). cbn. unfold stm_putc. rewrite u8_byte by lia. reflexivity.
Qed.

Lemma cstring_bytes m p s : cstring_at m p s -> bytes m -> bytes s.
Proof.
  intros [_ Hs] Hm. apply Forall_lookup. intros k c Hk.
  assert (Hkl : (k < length s)%nat) by (apply lookup_lt_Some in Hk; done).
  specialize (Hs k ltac:(lia)). rewrite lookup_app_l in Hs by done. rewrite Hk in Hs.
  unfold bytes in Hm. rewrite Forall_lookup in Hm. exact (Hm _ _ Hs).
Qed.

(** A string stored with its NUL from [p] on is a C string there. *)
Lemma write_at_cstring m p s :
  (p + length s < length m)%nat -> Forall (fun c => c <> 0) s ->
  cstring_at (write_at m p (s ++ [0])) p s.
Proof.
  intros Hl Hs. split; [exact Hs|]. intros k Hk.
  rewrite lookup_write_at by (rewrite length_app; cbn; lia).
  rewrite decide_True by (rewrite length_app; cbn; lia). f_equal. lia.
Qed.

(** The [%d] and [%x] cases send the digit strings of [MiscLib]. *)
Lemma conv_dec m v args :
  conv m 100 (VaInt v :: args) = Some (dec_string (u32 v), args).
Proof.
  unfold conv. cbn [Z.eqb Pos.eqb]. rewrite DECToASCII_exact by (try apply u32_range; cbn; lia).
  destruct (dec_string_chars (u32 v) (u32_range v)) as [Hc Hl].
  cbn [mbind option_bind]. rewrite (puts_cstring _ _ (dec_string (u32 v))); [reflexivity | apply write_at_cstring | ].
  - change (length res_init) with 16%nat. lia.
  - eapply Forall_impl; [exact Hc | intros; cbv beta in *; lia].
  - eapply Forall_impl; [exact Hc | intros; cbv beta in *; lia].
Qed.

Lemma conv_hex m v args :
  conv m 120 (VaInt v :: args) = Some ([48; 120] ++ hex_string (u32 v), args).
Proof.
  unfold conv. cbn [Z.eqb Pos.eqb]. rewrite HexToASCII_exact by (try apply u32_range; cbn; lia).
  destruct (hex_string_chars (u32 v) (u32_range v)) as [Hc Hl].
  cbn [mbind option_bind]. rewrite app_assoc, (puts_cstring _ _ ([48; 120] ++ hex_string (u32 v))); [reflexivity | apply write_at_cstring | ].
  - change (length res_init) with 16%nat. rewrite length_app. cbn. lia.
  - apply Forall_app. split; [repeat constructor; lia|]. eapply Forall_impl; [exact Hc | intros; cbv beta in *; lia].
  - apply Forall_app. split; [repeat constructor; lia|]. eapply Forall_impl; [exact Hc | intros; cbv beta in *; lia].
Qed.

(** One step of the loop: a [%] and the byte after it, or another
    byte. *)
Lemma printf_loop_pct m d l args :
  printf_loop m (37 :: d :: l) args = '(o, a) ← conv m d args; r ← printf_loop m l a; Some (o ++ r).
Proof. reflexivity. Qed.

Lemma printf_loop_lit m c l args : c <> 0 -> c <> 37 ->
  printf_loop m (c :: l) args =
    r ← printf_loop m l args; Some ((if c =? 10 then stm_putc 13 else []) ++ stm_putc c ++ r).
Proof. intros H0 H37. cbn [printf_loop]. rewrite (proj2 (Z.eqb_neq c 0)), (proj2 (Z.eqb_neq c 37)) by done. reflexivity. Qed.

Lemma conv_other m c args :
  (c =? 100) = false -> (c =? 120) = false -> (c =? 99) = false -> (c =? 115) = false ->
  conv m c args = Some ([], args).
Proof. intros H1 H2 H3 H4. unfold conv. rewrite H1, H2, H3, H4. reflexivity. Qed.

(** [finish_bind IH]: after one item, both sides continue with the
    same loop over the rest. *)
Ltac finish_bind IH :=
  rewrite IH by done;
  match goal with |- context [render ?it ?a] => destruct (render it a) as [[? ?]|]; cbn; [|reflexivity] end;
  match goal with |- context [printf_loop ?m ?t (map va_of ?a)] => destruct (printf_loop m t (map va_of a)) end;
  cbn; rewrite ?app_assoc; reflexivity.

(** The loop over an encoded format followed by any bytes [tail]. *)
Lemma printf_loop_app m items args tail :
  forallb item_ok items = true -> bytes m -> Forall (arg_ok m) args ->
  printf_loop m ((items ≫= encode_item) ++ tail) (map va_of args) =
    '(o, a) ← render items args; r ← printf_loop m tail (map va_of a); Some (o ++ r).
Proof.
  revert args. induction items as [|i it IH]; intros args Hok Hm Ha.
  - cbn. destruct (printf_loop m tail (map va_of args)); reflexivity.
  - cbn [forallb] in Hok. apply andb_true_iff in Hok as [Hi Hit].
    change ((i :: it) ≫= encode_item) with (encode_item i ++ (it ≫= encode_item)).
    rewrite <- app_assoc.
    destruct i as [c| | | | |c]; cbn [encode_item app render]; [| rewrite printf_loop_pct .. ].
    + cbn [item_ok] in Hi. rewrite !andb_true_iff, negb_true_iff, Z.ltb_lt, Z.ltb_lt, Z.eqb_neq in Hi.
      rewrite printf_loop_lit by lia. rewrite IH by done.
      destruct (render it args) as [[o a]|]; cbn; [|reflexivity].
      destruct (printf_loop m tail (map va_of a)); cbn; [|reflexivity].
      unfold crlf, stm_putc. destruct (Z.eqb_spec c 10) as [->|]; cbn; [reflexivity|].
      rewrite (u8_byte c) by lia. reflexivity.
    + destruct args as [|[v|p s] a]; cbn [map va_of]; try reflexivity.
      rewrite conv_dec. cbn. inversion Ha; subst. finish_bind IH.
    + destruct args as [|[v|p s] a]; cbn [map va_of]; try reflexivity.
      rewrite conv_hex. cbn. inversion Ha; subst. finish_bind IH.
    + destruct args as [|[v|p s] a]; cbn [map va_of]; try reflexivity.
      cbn. inversion Ha; subst. finish_bind IH.
    + destruct args as [|[v|p s] a]; cbn [map va_of]; try reflexivity.
      inversion Ha as [|? ? Hs Ha']; subst. cbn in Hs. unfold conv; cbn [Z.eqb Pos.eqb].
      rewrite (puts_cstring m p s Hs (cstring_bytes m p s Hs Hm)). cbn. finish_bind IH.
    + cbn [item_ok existsb] in Hi.
      rewrite !andb_true_iff, !negb_true_iff, !orb_false_iff, Z.ltb_lt, Z.ltb_lt in Hi.
      destruct Hi as [[H0 H256] [H100 [H120 [H99 [H115 _]]]]].
      rewrite conv_other by done. cbn [mbind option_bind]. finish_bind IH.
Qed.

(** C6: For a format of well-formed items stored with its NUL at
    [fmt], and arguments of the kinds the conversions read,
    [stm_printf] sends exactly what [render] specifies.  A newline goes
    out as CR LF, [%d] and [%x] give the unsigned value of the [int]
    in decimal and in 0x-prefixed lowercase hex, [%c] gives a byte,
    [%s] the argument string, and any other byte after [%] gives
    nothing.  A missing argument or one of the wrong kind is [None] on
    both sides. *)
Theorem stm_printf_refines m fmt items args rest :
  forallb item_ok items = true -> bytes m -> Forall (arg_ok m) args ->
  drop fmt m = (items ≫= encode_item) ++ 0 :: rest ->
  stm_printf m fmt (map va_of args) = fst <$> render items args.
Proof.
  intros Hok Hm Ha Hfmt. unfold stm_printf. rewrite Hfmt, printf_loop_app by done.
  destruct (render items args) as [[o a]|]; cbn; [rewrite app_nil_r|]; reflexivity.
Qed.

(** C16: A format that ends in [%] makes [stm_printf] step over the
    terminating NUL.  It then goes on to interpret the bytes that
    follow the string in memory, with the arguments left, as more
    format. *)
Theorem stm_printf_trailing_percent m fmt items args rest :
  forallb item_ok items = true -> bytes m -> Forall (arg_ok m) args ->
  drop fmt m = (items ≫= encode_item) ++ [37; 0] ++ rest ->
  stm_printf m fmt (map va_of args) =
    '(o, a) ← render items args; r ← printf_loop m rest (map va_of a); Some (o ++ r).
Proof.
  intros Hok Hm Ha Hfmt. unfold stm_printf. rewrite Hfmt, printf_loop_app by done.
  change ([37; 0] ++ rest) with (37 :: 0 :: rest).
  destruct (render items args) as [[o a]|]; cbn [mbind option_bind]; [|reflexivity].
  rewrite printf_loop_pct, conv_other by reflexivity. cbn.
  destruct (printf_loop m rest (map va_of a)); reflexivity.
Qed.

(** ** Witnesses *)

(** ["%s=%x\n"] at 0 and ["hi"] at 7. *)
Definition fmt_mem : list Z := [37; 115; 61; 37; 120; 10; 0; 104; 105; 0].
Definition fmt_items : list fmt_item := [FStr; Lit 61; FHex; Lit 10].

Lemma stm_printf_refines_witness :
  stm_printf fmt_mem 0%nat (map va_of [AStr 7%nat [104; 105]; AInt (-1)]) =
    fst <$> render fmt_items [AStr 7%nat [104; 105]; AInt (-1)] /\
  stm_printf fmt_mem 0%nat (map va_of [AStr 7%nat [104; 105]; AInt (-1)]) =
    Some [104; 105; 61; 48; 120; 102; 102; 102; 102; 102; 102; 102; 102; 13; 10].
Proof.
  split; [|vm_compute; reflexivity].
  apply (stm_printf_refines fmt_mem 0%nat fmt_items [AStr 7%nat [104; 105]; AInt (-1)] [104; 105; 0]).
  - reflexivity.
  - unfold bytes, fmt_mem. repeat constructor; lia.
  - constructor; [|constructor; [exact I | constructor]].
    cbn [arg_ok]. split; [repeat constructor; lia|].
    intros k Hk. destruct k as [|[|[|k]]]; [reflexivity | reflexivity | reflexivity | cbn in Hk; lia].
  - reflexivity.
Defined.

(** ["a%"], its NUL, then ["b"]: the console shows "ab". *)
Definition pct_mem : list Z := [97; 37; 0; 98; 0].

Lemma stm_printf_trailing_percent_witness :
  stm_printf pct_mem 0%nat (map va_of []) =
    ('(o, a) ← render [Lit 97] []; r ← printf_loop pct_mem [98; 0] (map va_of a); Some (o ++ r)) /\
  stm_printf pct_mem 0%nat (map va_of []) = Some [97; 98].
Proof.
  split; [|vm_compute; reflexivity].
  apply (stm_printf_trailing_percent pct_mem 0%nat [Lit 97] [] [98; 0]).
  - reflexivity.
  - unfold bytes, pct_mem. repeat constructor; lia.
  - constructor.
  - reflexivity.
Defined.

End Debug.
