(* ===== verification/Dump.v ===== *)
(** * [system_dump]: the console and the tick timer together

    [system_dump] (debug.c) is [while (1) { stm_printf(str);
    busy_delay_ms(1000); }].  [Module Dump] runs it as one step
    function.  A [Run] step is one statement of [system_dump], or one
    step of the busy delay it is in (the [SysTimer] model of
    [busy_delay_ms]).  A [Tick] is the SysTick interrupt.  The print is
    one step: [stm_printf] runs with interrupts disabled while it
    waits for the transmitter.  A list of events is an interleaving,
    and every list is allowed.  [system_dump_rate] bounds the prints
    by the ticks under every interleaving.  [system_dump_live] shows
    that the rounds of the polling schedule [dump_round] do print. *)

From stdpp Require Import base list.
From Stdlib Require Import ZArith Lia.
From S2P Require Import Prelude.
From S2P Require Import MiscLib.
From S2P Require Import SysTimer.
From S2P Require Import Debug.
Import SysTimer Debug.
Open Scope Z_scope.

Module Dump.

(** Where [system_dump] is: about to print, or inside [busy_delay_ms]. *)
Inductive dump_pc := Dump_Print | Dump_Delay (p : Pc).

(** The control point, the timer counters, the bytes sent so far and
    the number of [stm_printf] calls made. *)
Record DumpState := mkDump {
  dpc : dump_pc; timer : SysTimer; console : option (list Z); prints : nat
}.

Section SystemDump.
(** The memory and the address of [str]. *)
Variables (m : list Z) (str : MiscLib.ptr).

(** One event.  After [busy_delay_ms] returns, [while (1)] goes back to
    the print. *)
Definition dump_step (ev : Event) (c : DumpState) : DumpState :=
  match ev with
  | Run =>
      match dpc c with
      | Dump_Print =>
          mkDump (Dump_Delay (busy_delay_ms 1000)) (timer c)
            (match console c, stm_printf m str [] with
             | Some o, Some p => Some (o ++ p) | _, _ => None end)
            (S (prints c))
      | Dump_Delay Done => mkDump Dump_Print (timer c) (console c) (prints c)
      | Dump_Delay p =>
          let '(p', s') := delay_step p (timer c) in mkDump (Dump_Delay p') s' (console c) (prints c)
      end
  | Tick =>
      if irq_enabled (timer c) then mkDump (dpc c) (SysTick_Handler (timer c)) (console c) (prints c)
      else c
  end.

Definition dump_exec (evs : list Event) (c : DumpState) : DumpState :=
  fold_left (fun c ev => dump_step ev c) evs c.

(** [system_dump] called with the timer in state [s]. *)
Definition dump_start (s : SysTimer) : DumpState := mkDump Dump_Print s (Some []) 0.

End SystemDump.

(** One round of [system_dump] when the polling loop samples the
    counter between any two ticks: the print, the entry of the delay,
    10001 loop steps each followed by a tick, the exit of the loop and
    the return to the print. *)
Definition dump_round : list Event := [Run; Run] ++ (rounds 10001 ++ [Run]) ++ [Run].

(** * Theorems *)

Section Rate.
Variables (m : list Z) (str : MiscLib.ptr) (o : list Z).
Hypothesis Hprint : stm_printf m str [] = Some o.

(** After [n] interrupts: the console holds one copy of [o] per print.
    In the print state the rounds so far took [10001] ticks each.  In
    a delay entered after [n0] ticks, the [SysTimer] invariant of a
    delay of 10000 ticks holds for the [n - n0] ticks since. *)
Definition dump_inv (n : nat) (c : DumpState) : Prop :=
  irq_enabled (timer c) = true /\ 0 <= sys_int_times (timer c) < 2 ^ 32 /\
  console c = Some (concat (repeat o (prints c))) /\
  match dpc c with
  | Dump_Print => Z.of_nat (prints c) * 10001 <= Z.of_nat n
  | Dump_Delay p => exists n0, (n0 <= n)%nat /\
      (Z.of_nat (prints c) - 1) * 10001 <= Z.of_nat n0 /\ delay_inv 10000 (n - n0) (p, timer c)
  end.

Lemma concat_repeat_snoc (l : list Z) k : concat (repeat l k) ++ l = concat (repeat l (S k)).
Proof.
  induction k as [|k IH]; cbn; [rewrite app_nil_r; reflexivity|].
  rewrite <- app_assoc. f_equal. exact IH.
Qed.

Lemma delay_step_irq p s : irq_enabled s = true -> irq_enabled (snd (delay_step p s)) = true.
Proof. intros H. destruct p; cbn; repeat case_match; first [reflexivity | exact H]. Qed.

Lemma dump_inv_tick n c : dump_inv n c -> dump_inv (S n) (dump_step m str Tick c).
Proof.
  intros (Hirq & Hs & Hc & Hpc). cbn [dump_step]. rewrite Hirq.
  split; [exact Hirq|]. split; [apply u32_range|]. split; [exact Hc|]. cbn [dpc prints timer].
  destruct (dpc c) as [|p]; [lia|]. destruct Hpc as (n0 & Hn0 & Hk & Hd).
  exists n0. split; [lia|]. split; [exact Hk|].
  replace (S n - n0)%nat with (S (n - n0)) by lia.
  pose proof (delay_inv_tick 10000 (n - n0) (p, timer c) Hirq Hd) as Ht.
  cbn [step fst snd] in Ht. rewrite Hirq in Ht. exact Ht.
Qed.

(** A step of the busy delay keeps the invariant (the [SysTimer] lemma
    [delay_inv_run]). *)
Lemma dump_inv_delay n c p : dpc c = Dump_Delay p -> dump_inv n c ->
  dump_inv n (let '(p', s') := delay_step p (timer c) in mkDump (Dump_Delay p') s' (console c) (prints c)).
Proof.
  intros Epc (Hirq & Hs & Hc & Hpc). rewrite Epc in Hpc. destruct Hpc as (n0 & Hn0 & Hk & Hd).
  pose proof (delay_inv_run 10000 (n - n0) (p, timer c) ltac:(lia) Hd) as Hd'.
  pose proof (delay_step_irq p (timer c) Hirq) as Hi'.
  cbn [step fst snd] in Hd'. destruct (delay_step p (timer c)) as [p' s'].
  split; [exact Hi'|]. split; [exact (proj1 Hd')|]. split; [exact Hc|].
  exists n0. split; [exact Hn0|]. split; [exact Hk | exact Hd'].
Qed.

Lemma dump_inv_run n c : dump_inv n c -> dump_inv n (dump_step m str Run c).
Proof.
  intros Hi. pose proof Hi as (Hirq & Hs & Hc & Hpc). cbn [dump_step].
  destruct (dpc c) as [|[d|e|e|]] eqn:Epc; try (apply dump_inv_delay; assumption).
  - split; [exact Hirq|]. split; [exact Hs|]. cbn [console prints dpc timer].
    split; [rewrite Hc, Hprint, concat_repeat_snoc; reflexivity|].
    exists n. split; [lia|]. split; [lia|]. replace (n - n)%nat with 0%nat by lia.
    split; [exact Hs | reflexivity].
  - destruct Hpc as (n0 & Hn0 & Hk & [_ Hd]). cbn [fst] in Hd.
    split; [exact Hirq|]. split; [exact Hs|]. split; [exact Hc|]. cbn [dpc prints]. lia.
Qed.

Lemma dump_inv_exec evs : forall n c,
  dump_inv n c -> dump_inv (n + ticks evs) (dump_exec m str evs c).
Proof.
  induction evs as [|ev evs IH]; intros n c Hi; cbn [dump_exec fold_left].
  - rewrite Nat.add_0_r. exact Hi.
  - destruct ev; unfold ticks; cbn [List.filter List.length]; fold (ticks evs).
    + apply IH, dump_inv_run, Hi.
    + replace (n + S (ticks evs))%nat with (S n + ticks evs)%nat by lia.
      apply IH, dump_inv_tick, Hi.
Qed.

(** C14: [system_dump] under any interleaving of its steps with SysTick
    interrupts.  When [stm_printf(str)] sends [o], after [k] calls the
    console holds [k] copies of [o].  The [k]-th call comes only after
    at least [(k - 1) * 10001] interrupts: [busy_delay_ms(1000)] waits
    10001 ticks between two prints. *)
Theorem system_dump_rate s evs :
  irq_enabled s = true -> 0 <= sys_int_times s < 2 ^ 32 ->
  console (dump_exec m str evs (dump_start s)) =
    Some (concat (repeat o (prints (dump_exec m str evs (dump_start s))))) /\
  (Z.of_nat (prints (dump_exec m str evs (dump_start s))) - 1) * 10001 <= Z.of_nat (ticks evs).
Proof.
  intros Hirq Hs.
  assert (H0 : dump_inv 0 (dump_start s)) by (repeat split; cbn; try assumption; lia).
  destruct (dump_inv_exec evs 0 _ H0) as (_ & _ & Hc & Hpc). split; [exact Hc|].
  destruct (dpc _); [lia|]. destruct Hpc as (n0 & Hn0 & Hk & _). lia.
Qed.

End Rate.

Section Live.
Variables (m : list Z) (str : MiscLib.ptr) (o : list Z).
Hypothesis Hprint : stm_printf m str [] = Some o.

Lemma dump_exec_app l1 l2 c : dump_exec m str (l1 ++ l2) c = dump_exec m str l2 (dump_exec m str l1 c).
Proof. apply fold_left_app. Qed.

(** The final loop of the delay inside [system_dump], sampled between
    ticks ([SysTimer]'s [loop2_rounds] seen through [dump_step]). *)
Lemma dump_loop2_rounds k e s x n :
  irq_enabled s = true -> 0 <= sys_int_times s -> sys_int_times s + Z.of_nat k = e + 1 ->
  e + 1 < 2 ^ 32 ->
  dump_exec m str (rounds k ++ [Run]) (mkDump (Dump_Delay (Loop2 e)) s x n) =
    mkDump (Dump_Delay Done) (Nat.iter k SysTick_Handler s) x n.
Proof.
  revert s. induction k as [|k IH]; intros s Hi H0 Hk He.
  - cbn. rewrite (proj2 (Z.leb_gt _ _)) by lia. reflexivity.
  - change (rounds (S k)) with ([Run; Tick] ++ rounds k). rewrite <- app_assoc, dump_exec_app.
    cbn [dump_exec fold_left dump_step dpc timer console prints delay_step].
    rewrite (proj2 (Z.leb_le _ _)) by lia. cbn [timer dpc console prints]. rewrite Hi.
    assert (E : sys_int_times (SysTick_Handler s) = sys_int_times s + 1) by (apply u32_id; lia).
    rewrite IH, Nat.iter_succ_r; rewrite ?E; first [reflexivity | exact Hi | lia].
Qed.

Lemma nat_10001 : Z.of_nat 10001 = 10001.
Proof. reflexivity. Qed.

(** One round from the print, with the counter at [v] and
    [v + 10001 < 2^32]: one print, 10001 ticks, back at the print. *)
Lemma dump_round_spec s x k :
  irq_enabled s = true -> 0 <= sys_int_times s -> sys_int_times s + 10001 < 2 ^ 32 ->
  dump_exec m str dump_round (mkDump Dump_Print s (Some x) k) =
    mkDump Dump_Print (Nat.iter 10001 SysTick_Handler s) (Some (x ++ o)) (S k).
Proof.
  intros Hi H0 Hs. destruct s as [tc v b]. cbn [irq_enabled sys_int_times] in *. subst b.
  unfold dump_round. rewrite (dump_exec_app [Run; Run]), (dump_exec_app (rounds 10001 ++ [Run]) [Run]).
  set (s := {| tick_count := tc; sys_int_times := v; irq_enabled := true |}).
  assert (S1 : dump_step m str Run (mkDump Dump_Print s (Some x) k) =
               mkDump (Dump_Delay (Entry 10000)) s (Some (x ++ o)) (S k))
    by (cbn [dump_step dpc timer console prints]; rewrite Hprint; reflexivity).
  assert (S2 : dump_step m str Run (mkDump (Dump_Delay (Entry 10000)) s (Some (x ++ o)) (S k)) =
               mkDump (Dump_Delay (Loop2 (v + 10000))) s (Some (x ++ o)) (S k)).
  { cbn [dump_step dpc timer delay_step s sys_int_times tick_count].
    rewrite u32_id, (proj2 (Z.ltb_ge _ _)) by lia. rewrite Z.add_comm. reflexivity. }
  change (dump_exec m str [Run; Run] (mkDump Dump_Print s (Some x) k)) with
    (dump_step m str Run (dump_step m str Run (mkDump Dump_Print s (Some x) k))).
  rewrite S1, S2, dump_loop2_rounds by (cbn [s sys_int_times irq_enabled]; rewrite ?nat_10001; first [reflexivity | lia]).
  reflexivity.
Qed.

Lemma dump_rounds_spec j : forall s x k,
  irq_enabled s = true -> 0 <= sys_int_times s -> sys_int_times s + Z.of_nat j * 10001 < 2 ^ 32 ->
  dump_exec m str (concat (repeat dump_round j)) (mkDump Dump_Print s (Some x) k) =
    mkDump Dump_Print (Nat.iter (j * 10001) SysTick_Handler s) (Some (x ++ concat (repeat o j))) (k + j).
Proof.
  induction j as [|j IH]; intros s x k Hi H0 Hj; cbn [repeat concat].
  - rewrite app_nil_r, Nat.add_0_r. reflexivity.
  - rewrite dump_exec_app, dump_round_spec by first [exact Hi | lia].
    destruct (iter_handler 10001 s ltac:(lia)) as [Hsys Hirq]. rewrite nat_10001 in Hsys.
    rewrite IH by (rewrite ?Hsys, ?Hirq, ?u32_id by lia; first [exact Hi | lia]).
    replace (S j * 10001)%nat with (j * 10001 + 10001)%nat by lia.
    rewrite Nat.iter_add, app_assoc, Nat.add_succ_comm. reflexivity.
Qed.

(** C15: When the polling loop samples the counter between any two
    ticks, [system_dump] keeps printing.  From a counter [v] with
    [v + j * 10001 < 2^32], [j] rounds print [str] [j] times, and each
    round takes exactly 10001 SysTick interrupts. *)
Theorem system_dump_live j s :
  irq_enabled s = true -> 0 <= sys_int_times s -> sys_int_times s + Z.of_nat j * 10001 < 2 ^ 32 ->
  dump_exec m str (concat (repeat dump_round j)) (dump_start s) =
    mkDump Dump_Print (Nat.iter (j * 10001) SysTick_Handler s) (Some (concat (repeat o j))) j.
Proof. intros Hi H0 Hj. unfold dump_start. rewrite dump_rounds_spec by assumption. reflexivity. Qed.

End Live.

(** The string "dump\n" in memory, at address 0. *)
Definition dump_mem : list Z := [100; 117; 109; 112; 10; 0].

Lemma system_dump_rate_witness :
  let c := dump_exec dump_mem 0%nat ([Run] ++ repeat Tick 10001 ++ [Run; Run; Run; Run]) (dump_start sys_timer_reset) in
  console c = Some (concat (repeat [100; 117; 109; 112; 13; 10] (prints c))) /\
  (Z.of_nat (prints c) - 1) * 10001 <= 10001.
Proof.
  refine (system_dump_rate dump_mem 0%nat [100; 117; 109; 112; 13; 10] _ sys_timer_reset _ _ _);
    [vm_compute; reflexivity | reflexivity | cbn; lia].
Defined.

Lemma system_dump_live_witness :
  dump_exec dump_mem 0%nat (concat (repeat dump_round 1)) (dump_start sys_timer_reset) =
    mkDump Dump_Print (Nat.iter (1 * 10001) SysTick_Handler sys_timer_reset)
      (Some (concat (repeat [100; 117; 109; 112; 13; 10] 1))) 1.
Proof.
  apply (system_dump_live dump_mem 0%nat [100; 117; 109; 112; 13; 10]);
    [vm_compute; reflexivity | reflexivity | cbn; lia | cbn; lia].
Defined.

End Dump.
