(* ===== verification/HidApp.v ===== *)
(** * The Custom_HID demo application (main.c, callback.c)

    [Module HidApp] models the parts of [src/Projects/Custom_HID/src]
    whose code is in the repository.  [CTR_Callback] chooses the name
    of the USB control state it prints.  [RESET_Callback] is the format
    and argument it passes.  [usb_printf] and the USB library are
    absent.  [Delay] is a count-down loop.  [main] is a step function
    over events: its statements and the SysTick and USART1
    interrupts.  It is written against the classes [SYS_TIMER_H] and
    [DEBUG_H] of the two headers it includes, and the instances are
    the models of [SysTimer], [Usart] and [Debug]. *)

From stdpp Require Import base list.
From Stdlib Require Import ZArith Lia Strings.String Strings.Ascii.
From S2P Require Import Prelude.
From S2P Require Import MiscLib.
From S2P Require Import SysTimer.
From S2P Require Usart.
From S2P Require Bus.
From S2P Require Import Debug.
Import SysTimer Debug.
Open Scope Z_scope.

Module HidApp.

(** The bytes of a string literal, without its NUL. *)
Definition bytes_of (s : string) : list Z :=
  map (fun a => Z.of_nat (nat_of_ascii a)) (list_ascii_of_string s).

(** [uint8_t control_state_string[][16]]: eleven rows of 16 bytes. *)
Definition control_state_string : list (list Z) :=
  map bytes_of ["WAIT_SETUP"; "SETTING_UP"; "IN_DATA"; "OUT_DATA"; "LAST_IN_DATA";
                "LAST_OUT_DATA"; "Error"; "WAIT_STATUS_IN"; "WAIT_STATUS_OUT"; "STALLED"; "PAUSE"]%string.

(** The string [CTR_Callback] hands to [usb_printf("c_s:%s\n", str)]:
    the row of the control state, or "NULL" past the table
    ([sizeof] of the table over [sizeof] of a row is 11).
    [ControlState] is the [uint8_t] field of [DEVICE_INFO].  A row
    index outside the table reads outside the array: [None]. *)
Definition CTR_Callback (ControlState : Z) : option (list Z) :=
  if ControlState >=? 11 then Some (bytes_of "NULL")
  else control_state_string !! Z.to_nat ControlState.

(** [RESET_Callback]: the format and the argument it hands to
    [usb_printf("cntr:%x\n", *CNTR)], for the value of the USB CNTR
    register. *)
Definition RESET_Callback (CNTR : Z) : list Z * list va_item :=
  (bytes_of "cntr:%x" ++ [10; 0], [VaInt CNTR]).

(** [TimingDelay = nCount; for (; nCount != 0; nCount--);]: the final
    [TimingDelay] and [nCount]. *)
Fixpoint delay_loop (fuel : nat) (nCount : Z) : Z :=
  match fuel with
  | O => nCount
  | S f => if nCount =? 0 then nCount else delay_loop f (u32 (nCount - 1))
  end.

Definition Delay (nCount : Z) : Z * Z := (nCount, delay_loop (Z.to_nat nCount) nCount).

(** The string literal "startup\n" in memory, at address 0. *)
Definition startup_mem : list Z := bytes_of "startup" ++ [10; 0].

(** The globals of main.c (lines 41-42): [PrevXferComplete = 1] and
    [TimingDelay = 0]. *)
Definition PrevXferComplete : Z := 1.
Definition TimingDelay : Z := 0.

(** ** The two headers [main] is written against

    [main] only calls what [sys_timer.h] and [debug.h] declare (and
    runs their interrupt handlers).  Each header is a class of
    operations with the laws [main]'s proof uses.  The instances below
    are the models of [SysTimer], [Usart] and [Debug]. *)

Module SysTimerH.
(** [sys_timer.h]: the counters it exports with their start-up values,
    [init_sys_timer] (given the SYSCLK frequency it reads), the two busy
    delays (as the entry point of their loops), [get_sys_tick], and the
    SysTick interrupt of sys_timer.c that advances the counters. *)
Class SYS_TIMER_H := {
  start_state : SysTimer;
  init_sys_timer : Z -> Z;
  busy_delay_ms : Z -> Pc;
  busy_delay_100us : Z -> Pc;
  get_sys_tick : SysTimer -> Z;
  SysTick_Handler : SysTimer -> SysTimer;
  get_sys_tick_start : get_sys_tick start_state = 0;
  get_sys_tick_handler : forall s, get_sys_tick (SysTick_Handler s) = u32 (get_sys_tick s + 1)
}.
End SysTimerH.

Module DebugH.
(** [debug.h]: [init_debug_fun] (given the PCLK2 frequency), the
    console output routines (each giving the bytes sent), [HexToASCII],
    and the USART1 receive interrupt of debug.c.  The interrupt stores
    nothing in the USART registers. *)
Class DEBUG_H := {
  init_debug_fun : Z -> Usart.Usart.USART_TypeDef -> Usart.Usart.USART_TypeDef;
  serial_put_binary : list Z -> MiscLib.ptr -> Z -> option (list Z);
  stm_putc : Z -> list Z;
  stm_puts : list Z -> MiscLib.ptr -> option (list Z);
  HexToASCII : Z -> MiscLib.ptr -> MiscLib.M MiscLib.ptr;
  stm_printf : list Z -> MiscLib.ptr -> list va_item -> option (list Z);
  system_dump : nat -> list Z -> MiscLib.ptr -> option (list Z);
  USART1_IRQHandler : Usart.Usart.USART_TypeDef -> Usart.Usart.USART_TypeDef;
  USART1_IRQHandler_id : forall u, USART1_IRQHandler u = u
}.
End DebugH.

#[export] Instance sys_timer_c : SysTimerH.SYS_TIMER_H := {|
  SysTimerH.start_state := sys_timer_reset;
  SysTimerH.init_sys_timer := SysTimer.init_sys_timer;
  SysTimerH.busy_delay_ms := SysTimer.busy_delay_ms;
  SysTimerH.busy_delay_100us := SysTimer.busy_delay_100us;
  SysTimerH.get_sys_tick := SysTimer.get_sys_tick;
  SysTimerH.SysTick_Handler := SysTimer.SysTick_Handler;
  SysTimerH.get_sys_tick_start := eq_refl;
  SysTimerH.get_sys_tick_handler := fun s => eq_refl
|}.

#[export] Instance debug_c : DebugH.DEBUG_H := {|
  DebugH.init_debug_fun := fun f => Bus.final (Usart.Usart.init_debug_fun f);
  DebugH.serial_put_binary := Debug.serial_put_binary;
  DebugH.stm_putc := Debug.stm_putc;
  DebugH.stm_puts := Debug.stm_puts;
  DebugH.HexToASCII := MiscLib.HexToASCII;
  DebugH.stm_printf := Debug.stm_printf;
  DebugH.system_dump := Debug.system_dump;
  DebugH.USART1_IRQHandler := Bus.final Usart.Usart.USART1_IRQHandler;
  DebugH.USART1_IRQHandler_id := Usart.Usart.USART1_IRQHandler_final
|}.

(** ** [main] *)

(** The USB set-up calls of lines 82-85, whose code is not in the
    repository. *)
Inductive usb_call := Set_System | Set_USBClock | USB_Interrupts_Config | USB_Init.

(** Where [main] is: before its first statement, in its final
    [while (1)], or returned. *)
Inductive main_pc := Main_Entry | Main_Loop | Main_Return.

(** What can happen next: [main] runs a statement, or an interrupt
    handler runs. *)
Inductive main_event := Main_Run | IRQ_SysTick | IRQ_USART1.

(** The state [main] reaches: [SCB->VTOR], whether SysTick was
    programmed, the timer counters, the USART1 registers, the console
    output, the USB calls made, and the control point. *)
Record MainState := mkMain {
  VTOR : Z; systick_on : bool; timer : SysTimer; usart : Usart.Usart.USART_TypeDef;
  console : option (list Z); usb : list usb_call; pc : main_pc
}.

Definition with_timer (st : MainState) (t : SysTimer) : MainState :=
  mkMain (VTOR st) (systick_on st) t (usart st) (console st) (usb st) (pc st).
Definition with_usart (st : MainState) (u : Usart.Usart.USART_TypeDef) : MainState :=
  mkMain (VTOR st) (systick_on st) (timer st) u (console st) (usb st) (pc st).
Definition with_pc (st : MainState) (p : main_pc) : MainState :=
  mkMain (VTOR st) (systick_on st) (timer st) (usart st) (console st) (usb st) p.

Section MainProgram.
Context `{SysTimerH.SYS_TIMER_H} `{DebugH.DEBUG_H}.

(** [&__Vectors], and the clock frequencies [RCC_GetClocksFreq] reports. *)
Variables (Vectors SYSCLK_Frequency PCLK2_Frequency : Z).

(** Power-on: the counters at their start-up values, USART1 as the
    caller gives it, nothing printed and no USB call. *)
Definition main_start (vtor : Z) (u : Usart.Usart.USART_TypeDef) : MainState :=
  mkMain vtor false SysTimerH.start_state u (Some []) [] Main_Entry.

(** Lines 58-85 without [VECT_TAB_SRAM]: [SCB->VTOR = &__Vectors],
    [init_sys_timer()], whose SysTick runs when it returned 0,
    [init_debug_fun()], [stm_printf("startup\n")], and the USB set-up. *)
Definition main_init (st : MainState) : MainState :=
  mkMain Vectors (SysTimerH.init_sys_timer SYSCLK_Frequency =? 0) (timer st)
    (DebugH.init_debug_fun PCLK2_Frequency (usart st))
    (DebugH.stm_printf startup_mem 0%nat [])
    [Set_System; Set_USBClock; USB_Interrupts_Config; USB_Init] Main_Loop.

(** One event.  [while (1) {}] tests its constant condition and stays.
    A SysTick interrupt needs SysTick to be programmed.  An event that
    cannot happen in the state gives [None]. *)
Definition main_step (ev : main_event) (st : MainState) : option MainState :=
  match pc st, ev with
  | Main_Entry, Main_Run => Some (main_init st)
  | Main_Loop, Main_Run => if 1 =? 0 then Some (with_pc st Main_Return) else Some st
  | Main_Loop, IRQ_SysTick =>
      if systick_on st then Some (with_timer st (SysTimerH.SysTick_Handler (timer st))) else None
  | Main_Loop, IRQ_USART1 => Some (with_usart st (DebugH.USART1_IRQHandler (usart st)))
  | _, _ => None
  end.

Fixpoint main_exec (evs : list main_event) (st : MainState) : option MainState :=
  match evs with
  | [] => Some st
  | ev :: evs' => match main_step ev st with Some st' => main_exec evs' st' | None => None end
  end.

Definition is_tick (ev : main_event) : bool :=
  match ev with IRQ_SysTick => true | _ => false end.

(** The number of SysTick interrupts in a list of events. *)
Definition ticks (evs : list main_event) : nat := List.length (List.filter is_tick evs).

(** The state of [main]'s loop, from the USART1 registers at power-on,
    after [n] SysTick interrupts. *)
Definition main_loop_inv (u : Usart.Usart.USART_TypeDef) (n : nat) (st : MainState) : Prop :=
  pc st = Main_Loop /\ VTOR st = Vectors /\
  systick_on st = (SysTimerH.init_sys_timer SYSCLK_Frequency =? 0) /\
  usart st = DebugH.init_debug_fun PCLK2_Frequency u /\
  console st = DebugH.stm_printf startup_mem 0%nat [] /\
  usb st = [Set_System; Set_USBClock; USB_Interrupts_Config; USB_Init] /\
  SysTimerH.get_sys_tick (timer st) = u32 (Z.of_nat n).

(** *** What [main] does, proved against the two headers *)

Lemma main_step_inv u n st ev st' :
  main_loop_inv u n st -> main_step ev st = Some st' ->
  main_loop_inv u (n + ticks [ev]) st'.
Proof.
  intros (Hpc & Hv & Hs & Hu & Hc & Hb & Ht) E. unfold main_step in E. rewrite Hpc in E.
  destruct ev; cbn [ticks List.filter is_tick List.length].
  - injection E as <-. rewrite Nat.add_0_r. repeat split; assumption.
  - destruct (systick_on st) eqn:Hon; [injection E as <- | discriminate].
    unfold with_timer. repeat split; cbn [pc VTOR systick_on usart console usb timer]; try congruence.
    rewrite SysTimerH.get_sys_tick_handler, Ht, u32_add_u32. f_equal. lia.
  - injection E as <-. rewrite Nat.add_0_r. unfold with_usart.
    repeat split; cbn [pc VTOR systick_on usart console usb timer]; try assumption.
    rewrite DebugH.USART1_IRQHandler_id. assumption.
Qed.

Lemma main_step_total u n st ev :
  main_loop_inv u n st -> systick_on st = true \/ is_tick ev = false ->
  main_step ev st <> None.
Proof.
  intros (Hpc & _) Hok. unfold main_step. rewrite Hpc.
  destruct ev; try discriminate. destruct Hok as [-> | ?]; discriminate.
Qed.

Lemma main_exec_inv u evs : forall n st st',
  main_loop_inv u n st -> main_exec evs st = Some st' -> main_loop_inv u (n + ticks evs) st'.
Proof.
  induction evs as [|ev evs IH]; intros n st st' Hi E.
  - injection E as <-. rewrite Nat.add_0_r. exact Hi.
  - cbn [main_exec] in E. destruct (main_step ev st) as [s1|] eqn:E1; [|discriminate].
    replace (ticks (ev :: evs)) with (ticks [ev] + ticks evs)%nat
      by (unfold ticks; cbn; destruct (is_tick ev); reflexivity).
    rewrite Nat.add_assoc. eapply IH; [eapply main_step_inv|]; eassumption.
Qed.

Lemma main_exec_total u evs : forall n st,
  main_loop_inv u n st -> systick_on st = true \/ ~ In IRQ_SysTick evs ->
  main_exec evs st <> None.
Proof.
  induction evs as [|ev evs IH]; intros n st Hi Hok; [discriminate|].
  cbn [main_exec]. destruct (main_step ev st) as [s1|] eqn:E1.
  - pose proof (main_step_inv _ _ _ _ _ Hi E1) as Hi1. eapply IH; [exact Hi1|].
    destruct Hok as [Hon | Hn]; [left | right; intros Hin; apply Hn; right; exact Hin].
    destruct Hi as (_ & _ & Hs & _), Hi1 as (_ & _ & Hs1 & _). congruence.
  - exfalso. refine (main_step_total _ _ _ _ Hi _ E1).
    destruct Hok as [Hon | Hn]; [left; exact Hon | right].
    destruct ev; [reflexivity | exfalso; apply Hn; left; reflexivity | reflexivity].
Qed.

Lemma main_first_step vtor u :
  main_step Main_Run (main_start vtor u) = Some (main_init (main_start vtor u)) /\
  main_loop_inv u 0 (main_init (main_start vtor u)).
Proof.
  split; [reflexivity|]. repeat split. cbn [timer main_init main_start].
  rewrite SysTimerH.get_sys_tick_start. reflexivity.
Qed.

(** C13: [main] never returns.  From power-on, whatever interrupts come
    between its statements, it is never at [Main_Return].  Once it has
    run its start-up code, the vector table is [&__Vectors], USART1 is
    as [init_debug_fun] left it, "startup" has been printed, and the
    four USB set-up calls have been made.  [get_sys_tick] counts the
    SysTick interrupts modulo 2^32.  When [init_sys_timer] programmed
    SysTick, or no SysTick interrupt comes, every order of events is
    possible. *)
Theorem main_never_returns vtor u evs :
  (forall st, main_exec evs (main_start vtor u) = Some st -> pc st <> Main_Return) /\
  ((SysTimerH.init_sys_timer SYSCLK_Frequency =? 0) = true \/ ~ In IRQ_SysTick evs ->
   exists st, main_exec (Main_Run :: evs) (main_start vtor u) = Some st /\
              main_loop_inv u (ticks evs) st).
Proof.
  destruct (main_first_step vtor u) as [E0 Hi0]. split.
  - destruct evs as [|ev evs]; intros st E; [injection E as <-; discriminate|].
    destruct ev; try discriminate. cbn [main_exec] in E. rewrite E0 in E.
    destruct (main_exec_inv _ _ _ _ _ Hi0 E) as [-> _]. discriminate.
  - intros Hok. cbn [main_exec]. rewrite E0.
    destruct (main_exec evs (main_init (main_start vtor u))) as [st|] eqn:E.
    + exists st. split; [reflexivity|]. exact (main_exec_inv _ _ _ _ _ Hi0 E).
    + exfalso. refine (main_exec_total _ _ _ _ Hi0 _ E). exact Hok.
Qed.

End MainProgram.

(** * Theorems *)

(** C38: For every [uint8_t] control state, the guard of line 45 keeps
    [control_state_string[ControlState]] inside the table, and the
    string [CTR_Callback] chooses fits a [uint8_t[16]] row together
    with its NUL and contains no NUL.  So [usb_printf]'s [%s] stops
    inside the row. *)
Lemma CTR_Callback_fits s :
  0 <= s < 256 ->
  exists str, CTR_Callback s = Some str /\
    (List.length str < 16)%nat /\ Forall (fun c => 0 < c < 256) str.
Proof.
  intros Hs. unfold CTR_Callback. rewrite Z.geb_leb. destruct (Z.leb_spec 11 s) as [Hge|Hlt].
  - eexists. split; [reflexivity|]. split; [cbn; lia | repeat constructor; lia].
  - assert (H : Forall (fun row => (List.length row < 16)%nat /\ Forall (fun c => 0 < c < 256) row)
                       control_state_string)
      by (vm_compute; repeat constructor; lia).
    destruct (lookup_lt_is_Some_2 control_state_string (Z.to_nat s)) as [row E];
      [cbn; lia|].
    rewrite E. exists row. split; [reflexivity|].
    rewrite Forall_lookup in H. exact (H _ _ E).
Qed.

Lemma delay_loop_zero k : Z.of_nat k < 2 ^ 32 -> delay_loop k (Z.of_nat k) = 0.
Proof.
  induction k as [|k IH]; intros Hk; [reflexivity|].
  cbn [delay_loop]. rewrite (proj2 (Z.eqb_neq _ 0)) by lia.
  rewrite u32_id by lia. replace (Z.of_nat (S k) - 1) with (Z.of_nat k) by lia. apply IH. lia.
Qed.

(** [Delay] counts [nCount] down to 0: the fuel [nCount] is enough. *)
Lemma Delay_counts_down n : 0 <= n < 2 ^ 32 -> Delay n = (n, 0).
Proof.
  intros Hn. unfold Delay. f_equal.
  rewrite <- (Z2Nat.id n) at 2 by lia. apply delay_loop_zero. lia.
Qed.

(** The events of the witnesses: start-up, two SysTick interrupts and a
    received byte around a loop iteration. *)
Definition sample_events : list main_event := [IRQ_SysTick; IRQ_USART1; Main_Run; IRQ_SysTick].

(** At 72 MHz [main] programs SysTick (reload 7200), sets BRR = 625
    (115200 baud) and prints "startup" followed by CR LF. *)
Lemma main_init_72MHz vtor u :
  let st := main_init 0x08000000 72000000 72000000 (main_start vtor u) in
  systick_on st = true /\ Usart.Usart.BRR (usart st) = 625 /\
  console st = Some (bytes_of "startup" ++ [13; 10]).
Proof. destruct u. vm_compute. repeat split; reflexivity. Qed.

Lemma main_never_returns_witness :
  (SysTimerH.init_sys_timer 72000000 =? 0) = true /\
  exists st, main_exec 0x08000000 72000000 72000000 (Main_Run :: sample_events)
               (main_start 0 Usart.Usart.usart_reset) = Some st /\
             main_loop_inv 0x08000000 72000000 72000000 Usart.Usart.usart_reset 2 st.
Proof.
  split; [vm_compute; reflexivity|].
  apply (proj2 (main_never_returns 0x08000000 72000000 72000000 0 Usart.Usart.usart_reset
                  sample_events)).
  left. vm_compute. reflexivity.
Defined.

(** Control state 10 ("PAUSE", the last row) and 11 (past the table,
    "NULL"). *)
Lemma CTR_Callback_fits_witness :
  (exists str, CTR_Callback 10 = Some str /\
     (List.length str < 16)%nat /\ Forall (fun c => 0 < c < 256) str) /\
  (exists str, CTR_Callback 11 = Some str /\
     (List.length str < 16)%nat /\ Forall (fun c => 0 < c < 256) str).
Proof. split; apply CTR_Callback_fits; lia. Defined.

End HidApp.
