(* ===== verification/Assert.v ===== *)
(** * Parameter checks: [assert_param] and [assert_failed]

    Each driver routine opens with [assert_param] checks of its
    arguments.  The macro comes from the configuration header
    stm32f37x_conf.h, which the repository does not hold; the spec
    describes it (debug-only assertions, compiled out in release
    builds).  Without [USE_FULL_ASSERT] it is [((void)0)].  With it, a
    false condition calls [assert_failed(__FILE__, __LINE__)].
    main.c defines that function under [#ifdef USE_FULL_ASSERT], and its
    body is [while (1) {}].

    [Module Assert] models the two builds as [build].  It models a
    sequence of checks as [assert_params], which returns the line of
    the first failing check, and a checked call as [checked].  A call
    ends in [Returned] or stays forever in [assert_failed]'s loop,
    recorded with the line and the state at the call.  [CAN_Init] is
    wrapped with the checks of its lines 189-200.  The theorem shows
    what the checks buy in the build with [USE_FULL_ASSERT]: a
    [CAN_Init] that returns [Success] has programmed the requested bit
    timing.  In a release build the checks are gone and an
    out-of-range BS1 corrupts BTR ([Can.CAN_BTR_BS1_overflow]). *)

From Stdlib Require Import ZArith Lia List Bool.
From S2P Require Import Prelude.
From S2P Require Import Can.
Import ListNotations.
Open Scope Z_scope.

Module Assert.

(** Whether [USE_FULL_ASSERT] is defined. *)
Inductive build := Release | FullAssert.

(** The [__FILE__] a check reports. *)
Inductive src_file := stm32f37x_can_c.

(** Where a call ends: returned with a result and a state, or inside
    [assert_failed]'s [while (1)], with the state at the call. *)
Inductive outcome (S A : Type) :=
| Returned (a : A) (s : S)
| In_assert_failed (file : src_file) (line : Z) (s : S).
Arguments Returned {S A}.
Arguments In_assert_failed {S A}.

(** [assert_failed(file, line)] (main.c): the body is [while (1) {}].
    The loop does not change the state and never exits. *)
Definition assert_failed {S A} (file : src_file) (line : Z) (s : S) : outcome S A :=
  In_assert_failed file line s.

(** [assert_param(expr)] at [line]: [None] to go on, [Some line] when
    it calls [assert_failed]. *)
Definition assert_param (b : build) (line : Z) (expr : bool) : option Z :=
  match b with
  | Release => None
  | FullAssert => if expr then None else Some line
  end.

(** The checks at the head of a routine, in source order. *)
Fixpoint assert_params (b : build) (checks : list (Z * bool)) : option Z :=
  match checks with
  | [] => None
  | (line, e) :: rest =>
      match assert_param b line e with
      | Some l => Some l
      | None => assert_params b rest
      end
  end.

(** A routine whose checks precede its first statement. *)
Definition checked {S A} (b : build) (file : src_file) (checks : list (Z * bool))
    (body : S -> A * S) (s : S) : outcome S A :=
  match assert_params b checks with
  | Some line => assert_failed file line s
  | None => let '(a, s') := body s in Returned a s'
  end.

(** ** [CAN_Init] (stm32f37x_can.c lines 189-200) *)

(** IS_CAN_MODE, IS_CAN_SJW, IS_CAN_BS1, IS_CAN_BS2 and
    IS_CAN_PRESCALER of stm32f37x_can.h. *)
Definition CAN_Init_asserts (CANx : Z) (i : Can.CAN_InitTypeDef) : list (Z * bool) :=
  [(189, CANx =? Can.CAN1);
   (190, Can.functional_state_ok (Can.CAN_TTCM i));
   (191, Can.functional_state_ok (Can.CAN_ABOM i));
   (192, Can.functional_state_ok (Can.CAN_AWUM i));
   (193, Can.functional_state_ok (Can.CAN_NART i));
   (194, Can.functional_state_ok (Can.CAN_RFLM i));
   (195, Can.functional_state_ok (Can.CAN_TXFP i));
   (196, (0 <=? Can.CAN_Mode i) && (Can.CAN_Mode i <=? 3));
   (197, (0 <=? Can.CAN_SJW i) && (Can.CAN_SJW i <=? 3));
   (198, (0 <=? Can.CAN_BS1 i) && (Can.CAN_BS1 i <=? 15));
   (199, (0 <=? Can.CAN_BS2 i) && (Can.CAN_BS2 i <=? 7));
   (200, (1 <=? Can.CAN_Prescaler i) && (Can.CAN_Prescaler i <=? 1024))].

Section CanAsserts.
Context {H : Type} `{Can.CanHardware H}.

(** [CAN_Init(CANx, CAN_InitStruct)] with its checks.  The state is the
    register block and the controller. *)
Definition CAN_Init_checked (b : build) (CANx : Z) (c : Can.CAN_TypeDef)
    (i : Can.CAN_InitTypeDef) (h : H) : outcome (Can.CAN_TypeDef * H) Z :=
  checked b stm32f37x_can_c (CAN_Init_asserts CANx i)
    (fun '(c, h) => let '(st, c', h') := Can.CAN_Init c i h in (st, (c', h'))) (c, h).

End CanAsserts.

(** ** Lemmas *)

Lemma assert_params_release checks : assert_params Release checks = None.
Proof. induction checks as [|[l e] t IH]; [reflexivity | exact IH]. Qed.

Lemma assert_params_full_none checks :
  assert_params FullAssert checks = None <-> forallb snd checks = true.
Proof.
  induction checks as [|[l e] t IH]; cbn; [tauto|].
  destruct e; cbn; [exact IH | split; discriminate].
Qed.

(** A call that returns under [USE_FULL_ASSERT] passed every check,
    and its result is the body's. *)
Lemma checked_full_returned {S A} file checks (body : S -> A * S) s a s' :
  checked FullAssert file checks body s = Returned a s' ->
  forallb snd checks = true /\ body s = (a, s').
Proof.
  unfold checked. destruct (assert_params FullAssert checks) as [l|] eqn:E; [discriminate|].
  apply assert_params_full_none in E. destruct (body s) as [a0 s0].
  intros Hr. injection Hr as -> ->. split; [exact E | reflexivity].
Qed.

(** The checks of lines 189-200 that pass are the ranges the BTR
    encoding needs. *)
Lemma CAN_Init_asserts_pass CANx i :
  forallb snd (CAN_Init_asserts CANx i) = true ->
  CANx = Can.CAN1 /\ 0 <= Can.CAN_Mode i <= 3 /\ 0 <= Can.CAN_SJW i <= 3 /\
  0 <= Can.CAN_BS1 i <= 15 /\ 0 <= Can.CAN_BS2 i <= 7 /\ 1 <= Can.CAN_Prescaler i <= 1024.
Proof.
  unfold CAN_Init_asserts. cbn [forallb snd]. rewrite !andb_true_iff, !Z.leb_le.
  intros (HC & _ & _ & _ & _ & _ & _ & Hm & Hs & Hb1 & Hb2 & Hp & _).
  apply Z.eqb_eq in HC. repeat split; lia.
Qed.

Section CanOutcome.
Context {H : Type} `{Can.CanHardware H}.

(** C3: (Error) With [USE_FULL_ASSERT], the checks of lines 189-200
    keep every successful [CAN_Init] sound: when the call returns
    [CAN_InitStatus_Success], [CANx] is CAN1 and the BTR it programmed
    decodes back to the requested mode, SJW, BS1, BS2 and prescaler.
    In a release build this fails: BS1 = 16 returns [Success] with BTR
    decoding to BS1 = 0 ([CAN_BTR_BS1_overflow]). *)
Theorem CAN_Init_full_assert_configures CANx c i (h : H) c' h' :
  0 <= Can.MCR c < 2 ^ 32 ->
  CAN_Init_checked FullAssert CANx c i h = Returned Can.CAN_InitStatus_Success (c', h') ->
  CANx = Can.CAN1 /\
  Can.CAN_BTR_fields (Can.BTR c') =
    (Can.CAN_Mode i, Can.CAN_SJW i, Can.CAN_BS1 i, Can.CAN_BS2 i, Can.CAN_Prescaler i).
Proof.
  intros Hc Hr. apply checked_full_returned in Hr as [Hok Hb].
  destruct (CAN_Init_asserts_pass _ _ Hok) as (HC & Hm & Hs & Hb1 & Hb2 & Hp).
  destruct (Can.CAN_Init c i h) as [[st c1] h1] eqn:E. injection Hb as -> -> ->.
  rewrite (Can.CAN_Init_success_image c i h c' h' Hc E).
  split; [exact HC | apply Can.CAN_BTR_fields_value; assumption].
Qed.

End CanOutcome.

(** ** Witnesses *)

#[local] Existing Instance Can.LatencyHw_hw.

Lemma CAN_Init_full_assert_configures_witness :
  exists c' h',
    CAN_Init_checked FullAssert Can.CAN1 Can.can_reset Can.can_example (Can.idle_hw 3) =
      Returned Can.CAN_InitStatus_Success (c', h') /\
    Can.CAN_BTR_fields (Can.BTR c') = (1, 0, 5, 2, 10).
Proof.
  destruct (CAN_Init_checked FullAssert Can.CAN1 Can.can_reset Can.can_example (Can.idle_hw 3))
    as [a [c' h']|f l s] eqn:E; [|vm_compute in E; discriminate].
  assert (Ha : a = Can.CAN_InitStatus_Success) by (vm_compute in E |- *; congruence). subst a.
  exists c', h'. split; [reflexivity|].
  refine (proj2 (CAN_Init_full_assert_configures _ _ _ _ _ _ _ E)). unfold Can.can_reset; cbn; lia.
Defined.

End Assert.
